(** * The render pipeline of the FreeCAD Render workbench

    A shallow embedding of [Render.py] (classes [Project], [View] and
    [RendererHandler]) and of the module interface of [renderers/Povray.py].

    Conventions of the embedding:
    - a Python [float] is a binary64 primitive float, a Python [int] is a [Z],
      a Python [str] is a [string];
    - an attribute that an object may lack is an [option]: reading [None]
      raises [AttributeError];
    - a computation is a value of [Py A]: the events it emitted towards its
      collaborators (console, file system, document, backend module) and how
      it ended, by returning a value or by raising an exception;
    - the interpreter is Python 3 (the [sys.version_info.major < 3] branches
      of the source are not taken). *)

From Stdlib Require Import PrimFloat FloatOps SpecFloat ZArith Ascii String List Bool Lia.
From stdpp Require Import base list strings gmap sorting.

Set Warnings "-register-all".

(* ====================================================================== *)
(** * Strings: the operations of [str] the pipeline uses                   *)
(* ====================================================================== *)

Module Str.

Definition newline : ascii := "010"%char.
Definition backslash : ascii := "092"%char.

(** [s.startswith(p)] *)
Fixpoint startswith (p s : string) : bool :=
  match p, s with
  | EmptyString, _ => true
  | String _ _, EmptyString => false
  | String a p', String b s' => if Ascii.eqb a b then startswith p' s' else false
  end.

(** [p in s] *)
Fixpoint contains (p s : string) : bool :=
  startswith p s ||
  match s with
  | EmptyString => false
  | String _ s' => contains p s'
  end.

(** [c in s] for a single character *)
Fixpoint has_char (c : ascii) (s : string) : bool :=
  match s with
  | EmptyString => false
  | String a s' => Ascii.eqb a c || has_char c s'
  end.

(** [s.split(NL)] for the newline NL: never empty, the empty string gives
    one empty line *)
Fixpoint split_lines (s : string) : list string :=
  match s with
  | EmptyString => [EmptyString]
  | String c s' =>
      if Ascii.eqb c newline then EmptyString :: split_lines s'
      else match split_lines s' with
           | l :: ls => String c l :: ls
           | [] => [String c EmptyString]
           end
  end.

(** [NL.join(l)] for the newline NL *)
Fixpoint join_lines (l : list string) : string :=
  match l with
  | [] => EmptyString
  | [x] => x
  | x :: xs => x +:+ String newline (join_lines xs)
  end.

(** [s.replace(SPACE, EMPTY)]: every space removed *)
Fixpoint remove_spaces (s : string) : string :=
  match s with
  | EmptyString => EmptyString
  | String c s' =>
      if Ascii.eqb c " "%char then remove_spaces s' else String c (remove_spaces s')
  end.

(** [s.lstrip(c)] and [s.strip(c)] for a one-character set *)
Fixpoint lstrip (c : ascii) (s : string) : string :=
  match s with
  | String a s' => if Ascii.eqb a c then lstrip c s' else s
  | EmptyString => EmptyString
  end.

Fixpoint rstrip (c : ascii) (s : string) : string :=
  match s with
  | EmptyString => EmptyString
  | String a s' =>
      match rstrip c s' with
      | EmptyString => if Ascii.eqb a c then EmptyString else String a EmptyString
      | r => String a r
      end
  end.

Definition strip (c : ascii) (s : string) : string := rstrip c (lstrip c s).

(** [s.split(sep)] for a one-character separator *)
Fixpoint split_on (sep : ascii) (s : string) : list string :=
  match s with
  | EmptyString => [EmptyString]
  | String c s' =>
      if Ascii.eqb c sep then EmptyString :: split_on sep s'
      else match split_on sep s' with
           | l :: ls => String c l :: ls
           | [] => [String c EmptyString]
           end
  end.

(** The text with every line that holds [m] replaced by [r] *)
Definition replace_lines (m r text : string) : string :=
  join_lines (map (fun l => if contains m l then r else l) (split_lines text)).

End Str.

(* ====================================================================== *)
(** * Exceptions                                                           *)
(* ====================================================================== *)

(** The exception classes that occur. *)
Inductive exn :=
  | AttributeError
  | TypeError
  | AssertionError
  | KeyError
  | ValueError
  | IndexError
  | ModuleNotFoundError
  | re_error
  | OtherException (class : string).

Definition exn_eqb (a b : exn) : bool :=
  match a, b with
  | AttributeError, AttributeError | TypeError, TypeError
  | AssertionError, AssertionError | KeyError, KeyError
  | ValueError, ValueError | IndexError, IndexError
  | ModuleNotFoundError, ModuleNotFoundError | re_error, re_error => true
  | OtherException c, OtherException d => String.eqb c d
  | _, _ => false
  end.

(** [except (e1, e2, ...)] *)
Definition handles (classes : list exn) (e : exn) : bool :=
  existsb (exn_eqb e) classes.

(** How a call ends. *)
Inductive outcome (A : Type) :=
  | Returns (a : A)
  | Raises (e : exn).
Arguments Returns {A} a.
Arguments Raises {A} e.

(* ====================================================================== *)
(** * Python's [re.sub], as [Project.render] calls it                      *)
(* ====================================================================== *)

(** [Project.render] calls [re.sub(pattern, repl, template)] where the pattern
    is one group holding dot-star, a marker of letters only, dot-star.  Two
    parts of the library decide the result.

    - The replacement [repl] is a template: when it holds a backslash it is
      parsed ([sre_parse.parse_template]) before any matching is tried, and a
      malformed template raises [re.error] ([IndexError] for an unknown
      group name) whether or not the pattern matches.  Without a backslash
      it is used as it is.  The parser below follows CPython 3.7 to 3.11
      for a pattern with a single group and no named group; a numeric group
      name is read by [int].
    - The dot matches every character but the newline and the star is
      greedy, so a match of the pattern is a whole line that contains the
      marker, and [re.sub], whose [count] is left at 0, replaces every
      match. *)

Module Re.

(** What a parsed template is made of: literal characters and references
    to the match (groups 0 and 1 are both the whole match here). *)
Inductive item := Lit (c : ascii) | Group.

(** The parser, one character at a time. *)
Inductive pstate :=
  | Normal
  | Esc                                (* after a backslash *)
  | GOpen                              (* after \g: expects < *)
  | GName (rev_name : list ascii)      (* inside \g<... *)
  | Oct0 (value : nat) (more : nat)    (* after \0: octal value, digits left *)
  | Dig1 (c : ascii)                   (* after \c, c a digit 1..9 *)
  | Dig2 (c d : ascii)                 (* after \cd, two digits *)
  | Failed (e : exn).

Definition is_digit (c : ascii) : bool :=
  let n := nat_of_ascii c in (48 <=? n)%nat && (n <=? 57)%nat.
Definition is_octdigit (c : ascii) : bool :=
  let n := nat_of_ascii c in (48 <=? n)%nat && (n <=? 55)%nat.
Definition is_ascii_letter (c : ascii) : bool :=
  let n := nat_of_ascii c in
  ((65 <=? n)%nat && (n <=? 90)%nat) || ((97 <=? n)%nat && (n <=? 122)%nat).
Definition digit_value (c : ascii) : nat := nat_of_ascii c - 48.

(** [name.isidentifier()] on ASCII *)
Definition is_identifier (name : list ascii) : bool :=
  match name with
  | [] => false
  | c :: cs =>
      (is_ascii_letter c || Ascii.eqb c "_"%char) &&
      forallb (fun d => is_ascii_letter d || is_digit d || Ascii.eqb d "_"%char) cs
  end.

(** [int(name)] for a group number: blanks around are dropped, a sign may
    come first, and the digits may have single underscores between them.
    The result is the sign (true for minus) and the absolute value. *)
Definition is_space (c : ascii) : bool :=
  let n := nat_of_ascii c in
  ((9 <=? n)%nat && (n <=? 13)%nat) || ((28 <=? n)%nat && (n <=? 32)%nat)
  || (n =? 133)%nat || (n =? 160)%nat.

Fixpoint lstrip (name : list ascii) : list ascii :=
  match name with
  | c :: rest => if is_space c then lstrip rest else name
  | [] => []
  end.

Definition strip (name : list ascii) : list ascii :=
  rev (lstrip (rev (lstrip name))).

Fixpoint digits_value (after_digit : bool) (acc : nat) (l : list ascii)
    : option nat :=
  match l with
  | [] => if after_digit then Some acc else None
  | c :: rest =>
      if is_digit c then digits_value true (10 * acc + digit_value c)%nat rest
      else if Ascii.eqb c "_"%char && after_digit then digits_value false acc rest
      else None
  end.

Definition py_int (name : list ascii) : option (bool * nat) :=
  match strip name with
  | c :: rest =>
      if Ascii.eqb c "-"%char then option_map (pair true) (digits_value false 0%nat rest)
      else if Ascii.eqb c "+"%char
      then option_map (pair false) (digits_value false 0%nat rest)
      else option_map (pair false) (digits_value false 0%nat (c :: rest))
  | [] => None
  end.

(** Whether a group name refers to one of the groups 0 and 1, and the
    exception raised when it does not.  A name that is no identifier is a
    number that [int] reads, as in CPython up to 3.11 (from 3.12 on a
    number is made of ASCII digits only). *)
Definition group_of_name (name : list ascii) : option exn :=
  match name with
  | [] => Some re_error                           (* missing group name *)
  | _ =>
      if is_identifier name then Some IndexError  (* unknown group name *)
      else match py_int name with
           | Some (negative, index) =>
               if negative && (0 <? index)%nat
               then Some re_error                 (* bad character in group name *)
               else if (index <=? 1)%nat then None
               else Some re_error                 (* invalid group reference *)
           | None => Some re_error                (* bad character in group name *)
           end
  end.

(** The table [ESCAPES] of [sre_parse]. *)
Definition escape_char (c : ascii) : option ascii :=
  if Ascii.eqb c "a"%char then Some "007"%char
  else if Ascii.eqb c "b"%char then Some "008"%char
  else if Ascii.eqb c "f"%char then Some "012"%char
  else if Ascii.eqb c "n"%char then Some "010"%char
  else if Ascii.eqb c "r"%char then Some "013"%char
  else if Ascii.eqb c "t"%char then Some "009"%char
  else if Ascii.eqb c "v"%char then Some "011"%char
  else if Ascii.eqb c Str.backslash then Some Str.backslash
  else None.

(** One step: the new state and the items that are now complete. *)
Definition step_normal (c : ascii) : pstate * list item :=
  if Ascii.eqb c Str.backslash then (Esc, []) else (Normal, [Lit c]).

Definition step_esc (c : ascii) : pstate * list item :=
  if Ascii.eqb c "g"%char then (GOpen, [])
  else if Ascii.eqb c "0"%char then (Oct0 0 2, [])
  else if is_digit c then (Dig1 c, [])
  else match escape_char c with
       | Some e => (Normal, [Lit e])
       | None =>
           if is_ascii_letter c then (Failed re_error, [])  (* bad escape *)
           else (Normal, [Lit Str.backslash; Lit c])
       end.

Definition emit_then (items : list item) (c : ascii) : pstate * list item :=
  let '(st, more) := step_normal c in (st, items ++ more).

Definition step (st : pstate) (c : ascii) : pstate * list item :=
  match st with
  | Normal => step_normal c
  | Esc => step_esc c
  | GOpen =>
      if Ascii.eqb c "<"%char then (GName [], []) else (Failed re_error, [])
  | GName rev_name =>
      if Ascii.eqb c ">"%char then
        match group_of_name (rev rev_name) with
        | None => (Normal, [Group])
        | Some e => (Failed e, [])
        end
      else if Ascii.eqb c Str.backslash then (Failed re_error, [])
      else (GName (c :: rev_name), [])
  | Oct0 v more =>
      match more with
      | S k => if is_octdigit c then (Oct0 (8 * v + digit_value c) k, [])
               else emit_then [Lit (ascii_of_nat v)] c
      | O => emit_then [Lit (ascii_of_nat v)] c
      end
  | Dig1 d =>
      if is_digit c then (Dig2 d c, [])
      else if Ascii.eqb d "1"%char then emit_then [Group] c
      else (Failed re_error, [])                            (* invalid group *)
  | Dig2 d e =>
      if is_octdigit d && is_octdigit e && is_octdigit c then
        let v := (64 * digit_value d + 8 * digit_value e + digit_value c)%nat in
        if (v <=? 255)%nat then (Normal, [Lit (ascii_of_nat v)])
        else (Failed re_error, [])
      else (Failed re_error, [])                            (* group 10..99 *)
  | Failed e => (Failed e, [])
  end.

(** The end of the template. *)
Definition finish (st : pstate) : outcome (list item) :=
  match st with
  | Normal => Returns []
  | Oct0 v _ => Returns [Lit (ascii_of_nat v)]
  | Dig1 d => if Ascii.eqb d "1"%char then Returns [Group] else Raises re_error
  | Esc | GOpen | GName _ | Dig2 _ _ => Raises re_error
  | Failed e => Raises e
  end.

(** The tokenizer reads one token ahead (a token is a character, or a
    backslash and the character after it): a lone backslash at the end is
    refused as soon as the token before it is taken. *)
Definition lone_backslash (s : string) : bool :=
  String.eqb s (String Str.backslash EmptyString).

Definition opens_escape (st : pstate) (c : ascii) : bool :=
  Ascii.eqb c Str.backslash && match st with Esc => false | _ => true end.

Fixpoint run (st : pstate) (s : string) : outcome (list item) :=
  match s with
  | EmptyString => finish st
  | String c s' =>
      if lone_backslash s' && negb (opens_escape st c) then Raises re_error
      else
        let '(st', items) := step st c in
        match st' with
        | Failed e => Raises e
        | _ => match run st' s' with
               | Returns rest => Returns (items ++ rest)
               | Raises e => Raises e
               end
        end
  end.

Definition parse_template (repl : string) : outcome (list item) :=
  run Normal repl.

Fixpoint expand (items : list item) (m : string) : string :=
  match items with
  | [] => EmptyString
  | Lit c :: rest => String c (expand rest m)
  | Group :: rest => m +:+ expand rest m
  end.

(** The replacement as a function of the matched text, or the exception
    of a refused template. *)
Definition compile_repl (repl : string) : outcome (string -> string) :=
  if Str.has_char Str.backslash repl
  then match parse_template repl with
       | Returns items => Returns (expand items)
       | Raises e => Raises e
       end
  else Returns (fun _ => repl).

(** [re.sub] with the pattern built around [marker]. *)
Definition sub_line (marker repl text : string) : outcome string :=
  match compile_repl repl with
  | Raises e => Raises e
  | Returns f =>
      Returns (Str.join_lines
                 (map (fun l => if Str.contains marker l then f l else l)
                      (Str.split_lines text)))
  end.

End Re.

(* ====================================================================== *)
(** * Values, exceptions and effects                                       *)
(* ====================================================================== *)

(** [App.Vector], [App.Rotation] (a quaternion), [App.Placement]. *)
Record Vector := mkVector { vx : float; vy : float; vz : float }.
Record Rotation := mkRotation { q0 : float; q1 : float; q2 : float; q3 : float }.
Record Placement := mkPlacement { Base : Vector; Rot : Rotation }.

(** [v.add(w)] and [v.multiply(k)] *)
Definition Vector_add (v w : Vector) : Vector :=
  mkVector (vx v + vx w) (vy v + vy w) (vz v + vz w).
Definition Vector_multiply (v : Vector) (k : float) : Vector :=
  mkVector (vx v * k) (vy v * k) (vz v * k).

(** A [Mesh.Mesh]: [Topology] is the pair of the points and of the facets
    (triples of point indices); [getPointNormals()] gives the normals. *)
Record Mesh := mkMesh {
  Points : list Vector;
  Facets : list (nat * nat * nat);
  PointNormals : list Vector }.

(** The Python values that attributes hold and that the backend receives. *)
Inductive pyval :=
  | VNone
  | VBool (b : bool)
  | VInt (n : Z)
  | VFloat (f : float)
  | VStr (s : string)
  | VFloats (l : list float)        (* a tuple of floats: a colour *)
  | VStrs (l : list string)         (* a list of str *)
  | VVector (v : Vector)
  | VPlacement (p : Placement)
  | VMesh (m : Mesh)
  | VProject (name page_result : string).   (* a project, by what a backend reads *)

(** [bool(v)] *)
Definition truthy (v : pyval) : bool :=
  match v with
  | VNone => false
  | VBool b => b
  | VInt n => negb (n =? 0)%Z
  | VFloat f => negb (f =? 0)%float
  | VStr s => negb (String.eqb s EmptyString)
  | VFloats l => match l with [] => false | _ => true end
  | VStrs l => match l with [] => false | _ => true end
  | VVector _ | VPlacement _ | VMesh _ | VProject _ _ => true
  end.

(** What is printed on the console, by the format string used. *)
Inductive message :=
  | Import_error_renderer_not_found (rdrname : string)
  | Cannot_render_project_renderer_not_found (rdrname : string)
  | Cannot_render_view_skipping (label : string) (err : exn)
  | Renderer_command (cmd : string).

(** The interactions of the pipeline with its collaborators. *)
Inductive event :=
  | PrintError (m : message)
  | PrintWarning (m : message)
  | PrintMessage (m : message)
  | Call (method : string) (args : list pyval)   (* a backend function is entered *)
  | ReadFile (path : string)
  | Mkstemp (path : string)
  | WriteFile (path content : string)
  | RemoveFile (path : string)
  | SetPageResult (path : string)
  | AddObject (name : string)
  | RemoveObject (name : string)
  | Recompute
  | System (cmd : string)
  | OpenImage (path : string).


(** A computation: the events it emitted, in order, and how it ended. *)
Record Py (A : Type) := mkPy { trace : list event; result : outcome A }.
Arguments mkPy {A} trace result.
Arguments trace {A} p.
Arguments result {A} p.

Definition ret {A} (a : A) : Py A := mkPy [] (Returns a).
#[global] Instance Py_ret : MRet Py := @ret.
#[global] Instance Py_bind : MBind Py := fun A B f m =>
  match result m with
  | Returns a => mkPy (trace m ++ trace (f a)) (result (f a))
  | Raises e => mkPy (trace m) (Raises e)
  end.

Definition raise {A} (e : exn) : Py A := mkPy [] (Raises e).
Definition emit (ev : event) : Py unit := mkPy [ev] (Returns tt).
Definition lift {A} (o : outcome A) : Py A := mkPy [] o.

(** [obj.attr]: an attribute the object lacks raises [AttributeError]. *)
Definition getattr {A} (field : option A) : Py A :=
  match field with
  | Some a => ret a
  | None => raise AttributeError
  end.

(** [assert cond] *)
Definition assert (cond : bool) : Py unit :=
  if cond then ret tt else raise AssertionError.

(** [try: body  except classes: handler] *)
Definition try_except {A} (body : Py A) (classes : list exn)
    (handler : exn -> Py A) : Py A :=
  match result body with
  | Returns a => body
  | Raises e =>
      if handles classes e
      then mkPy (trace body ++ trace (handler e)) (result (handler e))
      else body
  end.

(** The binary64 nearest to an [int], an infinity when the [int] is beyond
    the largest one: [float(n)] raises [OverflowError] then. *)
Definition float_of_Z (n : Z) : float :=
  SF2Prim (binary_normalize prec emax n 0%Z false).

(* ====================================================================== *)
(** * Geometry of the host: bounding boxes and shapes                      *)
(* ====================================================================== *)

(** [App.BoundBox] wraps FreeCAD's [Base::BoundBox3d]: six doubles; a box
    built without arguments is void (every minimum at the largest double,
    every maximum at its opposite). *)
Record BoundBox := mkBoundBox {
  XMin : float; YMin : float; ZMin : float;
  XMax : float; YMax : float; ZMax : float }.

Module Box.
Definition DBL_MAX : float := 0x1.fffffffffffffp+1023%float.

Definition void : BoundBox :=
  mkBoundBox DBL_MAX DBL_MAX DBL_MAX (- DBL_MAX) (- DBL_MAX) (- DBL_MAX).

Definition fmin (a b : float) : float := if (b <? a)%float then b else a.
Definition fmax (a b : float) : float := if (a <? b)%float then b else a.

(** [bbox.add(other)], as a new value *)
Definition add (b o : BoundBox) : BoundBox :=
  mkBoundBox (fmin (XMin b) (XMin o)) (fmin (YMin b) (YMin o)) (fmin (ZMin b) (ZMin o))
             (fmax (XMax b) (XMax o)) (fmax (YMax b) (YMax o)) (fmax (ZMax b) (ZMax o)).

Definition add_point (b : BoundBox) (p : Vector) : BoundBox :=
  mkBoundBox (fmin (XMin b) (vx p)) (fmin (YMin b) (vy p)) (fmin (ZMin b) (vz p))
             (fmax (XMax b) (vx p)) (fmax (YMax b) (vy p)) (fmax (ZMax b) (vz p)).

(** [bbox.isValid()] *)
Definition isValid (b : BoundBox) : bool :=
  (XMin b <=? XMax b)%float && (YMin b <=? YMax b)%float && (ZMin b <=? ZMax b)%float.

(** [bbox.DiagonalLength] *)
Definition DiagonalLength (b : BoundBox) : float :=
  let dx := (XMax b - XMin b)%float in
  let dy := (YMax b - YMin b)%float in
  let dz := (ZMax b - ZMin b)%float in
  sqrt (dx * dx + dy * dy + dz * dz).
End Box.

(** The shapes the pipeline meets: a shape made by the geometry kernel (with
    the box the kernel reports for it) and the compound
    [Part.makeCompound(shapes)]. *)
Inductive Shape :=
  | KernelShape (bb : BoundBox)
  | Compound (parts : list Shape).

(** [shape.BoundBox] *)
Fixpoint Shape_BoundBox (s : Shape) : BoundBox :=
  match s with
  | KernelShape bb => bb
  | Compound parts =>
      (fix go (l : list Shape) (acc : BoundBox) : BoundBox :=
         match l with
         | [] => acc
         | p :: l' => go l' (Box.add acc (Shape_BoundBox p))
         end) parts Box.void
  end.

(* ====================================================================== *)
(** * The scene: materials, sources, views, groups, projects               *)
(* ====================================================================== *)

(** A material object: its [PropertiesList] and its [Material] dictionary. *)
Record MaterialObj := mkMaterialObj {
  m_PropertiesList : list string;
  m_Material : gmap string string }.

(** The view provider of a source ([source.ViewObject]); [ShapeColor] and
    [Transparency] are [None] when the provider has no such attribute. *)
Record ViewProvider := mkViewProvider {
  Visibility : bool;
  ShapeColor : option (list float);
  Transparency : option Z }.

(** A source object, by the attributes the pipeline reads.  [None] is a
    missing attribute.  [s_Proxy_type] is [source.Proxy.type];
    [s_TypeIds] lists the types for which [isDerivedFrom] answers true;
    [s_Group] is what [Draft.getGroupContents] finds in a source that has a
    [Group], each object with its [Shape] when it has one. *)
Record Source := mkSource {
  s_Name : option string;
  s_Label : option string;
  s_Proxy_type : option string;
  s_PropertiesList : option (list string);
  s_Material : option (option MaterialObj);
  s_ViewObject : option (option ViewProvider);
  s_Group : option (list (option Shape));
  s_TypeIds : option (list string);
  s_Shape : option Shape;
  s_Mesh : option Mesh;
  s_AspectRatio : option pyval;
  s_Placement : option pyval;
  s_Location : option pyval;
  s_Color : option pyval;
  s_Power : option pyval;
  s_SizeU : option pyval;
  s_SizeV : option pyval }.

(** A view (or whatever terminal object sits in a project's group). *)
Record View := mkView {
  v_Name : option string;
  v_Label : option string;
  v_Source : option Source;
  v_Material : option (option MaterialObj);
  v_ViewResult : option string }.

(** The objects of a project's group: a terminal object, or an
    [App::DocumentObjectGroup] with its own [Group]. *)
Inductive DocObject :=
  | ViewObj (v : View)
  | GroupObj (label : string) (members : list DocObject).

(** The FeaturePython object of a project. *)
Record ProjectObj := mkProjectObj {
  p_Name : string;
  p_Label : string;
  Renderer : string;
  DelayedBuild : bool;
  Template : string;
  Group : list DocObject;
  GroundPlane : option bool;
  OutputImage : option string;
  RenderWidth : option Z;
  RenderHeight : option Z;
  OpenAfterRender : option bool }.

(* ====================================================================== *)
(** * Renderer modules and the host                                        *)
(* ====================================================================== *)

(** A function of a renderer module: its positional parameters and what a
    call with as many arguments does. *)
Record pyfun := mkFun {
  parameters : list string;
  body : list pyval -> Py string }.

(** A call with positional arguments: a wrong number of them raises
    [TypeError] when the arguments are bound, before the function is
    entered. *)
Definition call_function (name : string) (f : pyfun) (args : list pyval)
    : Py string :=
  if (length args =? length (parameters f))%nat
  then _ ← emit (Call name args); body f args
  else raise TypeError.

(** What the pipeline takes from its surroundings:
    - [float_of_str]: Python's [float] on a [str] ([None]: [ValueError]);
    - [meshFromShape], [Part_Face_makePolygon], [multVec]: the mesher and
      the geometry kernel;
    - [set_cam_from_coin_string], [DEFAULT_CAMERA_STRING]: the module
      [camera]; [GuiUp], [ActiveView_getCamera], [new_ViewObject] (the view
      provider that the GUI gives a new [Part::Feature]) and
      [ImageGui_available]: the GUI;
    - [renderers]: the modules that [import_module] finds in the package
      [renderers], each with the functions it defines;
    - [files], [mkstemp], [splitext]: the file system and [os.path];
    - [included_file]: what [obj.PageResult] reads after a path is assigned
      to this [App::PropertyFileIncluded];
    - [Prefix]: the user parameter of that name. *)
Record Host := mkHost {
  float_of_str : string -> option float;
  meshFromShape : Shape -> outcome Mesh;
  Part_Face_makePolygon : list Vector -> outcome Shape;
  multVec : Rotation -> Vector -> Vector;
  set_cam_from_coin_string : Source -> string -> outcome Source;
  DEFAULT_CAMERA_STRING : string;
  GuiUp : bool;
  ActiveView_getCamera : string;
  new_ViewObject : ViewProvider;
  ImageGui_available : bool;
  renderers : gmap string (gmap string pyfun);
  files : gmap string string;
  mkstemp : string -> string -> string;
  splitext : string -> string * string;
  included_file : string -> string;
  Prefix : string }.

(** [float(v)] *)
Definition py_float (host : Host) (v : pyval) : Py float :=
  match v with
  | VFloat f => ret f
  | VInt n => if PrimFloat.is_infinity (float_of_Z n)
              then raise (OtherException "OverflowError")
              else ret (float_of_Z n)
  | VBool b => ret (if b then 1%float else 0%float)
  | VStr s => match float_of_str host s with
              | Some f => ret f
              | None => raise ValueError
              end
  | _ => raise TypeError
  end.

(** [App.Base.Placement(v)] and [App.Base.Vector(v)] *)
Definition py_Placement (v : pyval) : Py Placement :=
  match v with
  | VPlacement p => ret p
  | _ => raise TypeError
  end.

Definition py_Vector (v : pyval) : Py Vector :=
  match v with
  | VVector w => ret w
  | VFloats [a; b; c] => ret (mkVector a b c)
  | _ => raise TypeError
  end.

(* ====================================================================== *)
(** * [class RendererHandler]                                              *)
(* ====================================================================== *)

Record RendererHandler := mkHandler {
  renderer_name : string;
  renderer_module : gmap string pyfun }.

Module Handler.
Section WithHost.
Context (host : Host).

(** [RendererHandler.__init__] *)
Definition __init__ (rdrname : string) : Py RendererHandler :=
  match renderers host !! rdrname with
  | Some module => ret (mkHandler rdrname module)
  | None =>
      _ ← emit (PrintError (Import_error_renderer_not_found rdrname));
      raise ModuleNotFoundError
  end.

(** [RendererHandler._call_renderer] *)
Definition _call_renderer (self : RendererHandler) (method : string)
    (args : list pyval) : Py string :=
  renderer_method ← getattr (renderer_module self !! method);
  call_function method renderer_method args.

(** [RendererHandler.render] *)
Definition render (self : RendererHandler) (args : list pyval) : Py string :=
  renderer_method ← getattr (renderer_module self !! "render");
  call_function "render" renderer_method args.

(** The first part of [_render_object]: the material [mat], or [None]. *)
Definition object_material (view : View) : Py (option MaterialObj) :=
  own ← getattr (v_Material view);
  match own with
  | Some m => ret (Some m)
  | None =>
      source ← getattr (v_Source view);
      props ← getattr (s_PropertiesList source);
      if bool_decide ("Material" ∈ props)
      then getattr (s_Material source)
      else ret None
  end.

(** [color] and [alpha] after the [if mat:] block *)
Definition material_color (mat : option MaterialObj) : option pyval :=
  match mat with
  | Some m =>
      if bool_decide ("Material" ∈ m_PropertiesList m) then
        match m_Material m !! "DiffuseColor" with
        | Some text =>
            Some (VStrs (take 3 (Str.split_on ","
                           (Str.strip ")" (Str.strip "(" text)))))
        | None => None
        end
      else None
  | None => None
  end.

Definition material_alpha (mat : option MaterialObj) : Py (option float) :=
  match mat with
  | Some m =>
      if bool_decide ("Material" ∈ m_PropertiesList m) then
        match m_Material m !! "Transparency" with
        | Some text =>
            t ← py_float host (VStr text);
            if (0 <? (t : float))%float then ret (Some (1.0 - t)%float)
            else ret (Some 1.0%float)
        | None => ret None
        end
      else ret None
  | None => ret None
  end.

Definition not_color (color : option pyval) : bool :=
  match color with
  | None => true
  | Some c => negb (truthy c)
  end.

Definition not_alpha (alpha : option float) : bool :=
  match alpha with
  | None => true
  | Some a => negb (truthy (VFloat a))
  end.

(** [color] and [alpha] after the [if view.Source.ViewObject:] block *)
Definition display_color (vobj : option ViewProvider) (color : option pyval)
    : option pyval :=
  match vobj with
  | Some vo =>
      if not_color color then
        match ShapeColor vo with
        | Some c => Some (VFloats (take 3 c))
        | None => color
        end
      else color
  | None => color
  end.

Definition display_alpha (vobj : option ViewProvider) (alpha : option float)
    : option float :=
  match vobj with
  | Some vo =>
      if not_alpha alpha then
        match Transparency vo with
        | Some t =>
            if (0 <? t)%Z then Some (1.0 - float_of_Z t / 100.0)%float
            else alpha
        | None => alpha
        end
      else alpha
  | None => alpha
  end.

(** The last two tests of the colour part *)
Definition final_color (color : option pyval) : pyval :=
  match color with
  | Some c => if truthy c then c else VFloats [1.0; 1.0; 1.0]%float
  | None => VFloats [1.0; 1.0; 1.0]%float
  end.

Definition final_alpha (alpha : option float) : float :=
  match alpha with
  | Some a => if truthy (VFloat a) then a else 1.0%float
  | None => 1.0%float
  end.

(** [source.isDerivedFrom(type)] *)
Definition isDerivedFrom (source : Source) (type : string) : Py bool :=
  types ← getattr (s_TypeIds source);
  ret (bool_decide (type ∈ types)).

(** The mesh part of [_render_object]: the mesh, or [None]. *)
Definition object_mesh (source : Source) : Py (option Mesh) :=
  match s_Group source with
  | Some contents =>
      let shps := omap id contents in
      mesh ← lift (meshFromShape host (Compound shps));
      ret (Some mesh)
  | None =>
      part ← isDerivedFrom source "Part::Feature";
      if (part : bool) then
        shape ← getattr (s_Shape source);
        mesh ← lift (meshFromShape host shape);
        ret (Some mesh)
      else
        is_mesh ← isDerivedFrom source "Mesh::Feature";
        if (is_mesh : bool) then
          mesh ← getattr (s_Mesh source);
          ret (Some mesh)
        else ret None
  end.

Definition nonempty {A} (l : list A) : bool :=
  match l with [] => false | _ => true end.

(** [RendererHandler._render_object] *)
Definition _render_object (self : RendererHandler) (name : string)
    (view : View) : Py string :=
  mat ← object_material view;
  let color := material_color mat in
  alpha ← material_alpha mat;
  source ← getattr (v_Source view);
  vobj ← getattr (s_ViewObject source);
  let color := final_color (display_color vobj color) in
  let alpha := final_alpha (display_alpha vobj alpha) in
  mesh ← object_mesh source;
  match mesh with
  | None => raise AssertionError
  | Some mesh =>
      _ ← assert (nonempty (Points mesh) && nonempty (Facets mesh));
      _ ← assert (nonempty (PointNormals mesh));
      _call_renderer self "write_object"
        [VStr name; VMesh mesh; color; VFloat alpha]
  end.

(** [RendererHandler._render_camera] *)
Definition _render_camera (self : RendererHandler) (name : string)
    (view : View) : Py string :=
  cam ← getattr (v_Source view);
  ratio ← getattr (s_AspectRatio cam);
  a_ratio ← py_float host ratio;
  placement ← getattr (s_Placement cam);
  pos ← py_Placement placement;
  let target :=
    Vector_add (Base pos)
      (Vector_multiply (multVec host (Rot pos) (mkVector 0 0 (-1))) a_ratio) in
  let updir := multVec host (Rot pos) (mkVector 0 1 0) in
  _call_renderer self "write_camera"
    [VStr name; VPlacement pos; VVector updir; VVector target].

(** [RendererHandler._render_pointlight] *)
Definition _render_pointlight (self : RendererHandler) (name : string)
    (view : View) : Py string :=
  source ← getattr (v_Source view);
  loc ← getattr (s_Location source);
  location ← py_Vector loc;
  color ← getattr (s_Color source);
  let power := default (VInt 60) (s_Power source) in
  _call_renderer self "write_pointlight"
    [VStr name; VVector location; color; power].

(** [RendererHandler._render_arealight] *)
Definition _render_arealight (self : RendererHandler) (name : string)
    (view : View) : Py string :=
  source ← getattr (v_Source view);
  pl ← getattr (s_Placement source);
  placement ← py_Placement pl;
  color ← getattr (s_Color source);
  pw ← getattr (s_Power source);
  power ← py_float host pw;
  su ← getattr (s_SizeU source);
  size_u ← py_float host su;
  sv ← getattr (s_SizeV source);
  size_v ← py_float host sv;
  _call_renderer self "write_arealight"
    [VStr name; VPlacement placement; VFloat size_u; VFloat size_v;
     color; VFloat power].

(** The dictionary [switcher] of [get_rendering_string] *)
Definition switcher
    : gmap string (RendererHandler -> string -> View -> Py string) :=
  <["Object" := _render_object]>
  (<["PointLight" := _render_pointlight]>
  (<["Camera" := _render_camera]>
  (<["AreaLight" := _render_arealight]> ∅))).

(** The body of the [try] of [get_rendering_string] *)
Definition dispatch (self : RendererHandler) (view : View) : Py string :=
  source ← getattr (v_Source view);
  let objtype := default "Object" (s_Proxy_type source) in
  name ← getattr (s_Name source);
  match switcher !! objtype with
  | Some method => method self name view
  | None => raise KeyError
  end.

(** The classes of the [except] clause of [get_rendering_string] *)
Definition caught : list exn := [AttributeError; TypeError; AssertionError].

(** [RendererHandler.get_rendering_string] *)
Definition get_rendering_string (self : RendererHandler) (view : View)
    : Py string :=
  try_except (dispatch self view) caught
    (fun err =>
       _ ← emit (PrintWarning
                   (Cannot_render_view_skipping
                      (default "<No label>" (v_Label view)) err));
       ret EmptyString).

(** [RendererHandler.is_renderable] *)
Definition is_renderable (obj : Source) : bool :=
  match s_TypeIds obj with
  | None => false
  | Some types =>
      if bool_decide ("Part::Feature" ∈ types) then true
      else if bool_decide ("Mesh::Feature" ∈ types) then true
      else if bool_decide ("App::FeaturePython" ∈ types) then
        match s_Proxy_type obj with
        | Some t => bool_decide (t ∈ ["PointLight"; "Camera"; "AreaLight"])
        | None => false
        end
      else false
  end.

End WithHost.
End Handler.

(* ====================================================================== *)
(** * [renderers/Povray.py]                                                *)
(* ====================================================================== *)

Module Povray.

(** The [def] statements of the module, in order, with their parameters. *)
Definition definitions : list (string * list string) :=
  [ ("write_camera", ["pos"; "rot"; "updir"; "target"; "name"]);
    ("write_object", ["viewobj"; "mesh"; "color"; "alpha"]);
    ("write_pointlight", ["view"; "location"; "color"; "power"]);
    ("render", ["project"; "prefix"; "external"; "output"; "width"; "height"]) ].

(** The module as [import_module] returns it; [bodies] gives, by name,
    what each function does with its arguments. *)
Definition module (bodies : string -> list pyval -> Py string)
    : gmap string pyfun :=
  list_to_map (map (fun d => (d.1, mkFun d.2 (bodies d.1))) definitions).

End Povray.

(** The five functions a renderer module is to provide. *)
Definition backend_contract : list string :=
  ["write_camera"; "write_object"; "write_pointlight"; "write_arealight"; "render"].

(* ====================================================================== *)
(** * [class View]                                                         *)
(* ====================================================================== *)

Module ViewClass.
Section WithHost.
Context (host : Host).

(** [View.view_label] *)
Definition view_label (obj_label proj_label : string) : string :=
  obj_label +:+ "@" +:+ Str.remove_spaces proj_label.

(** The view with another [ViewResult] *)
Definition with_ViewResult (cached : option string) (v : View) : View :=
  mkView (v_Name v) (v_Label v) (v_Source v) (v_Material v) cached.

(** [View.execute]: [containing] is the first project found in
    [obj.InListRecursive], if there is one; the result is the view after
    the call. *)
Definition execute (containing : option ProjectObj) (obj : View) : Py View :=
  match containing with
  | None => ret obj
  | Some proj =>
      if DelayedBuild proj then ret obj
      else
        renderer ← Handler.__init__ host (Renderer proj);
        text ← Handler.get_rendering_string host renderer obj;
        ret (with_ViewResult (Some text) obj)
  end.

End WithHost.
End ViewClass.

(* ====================================================================== *)
(** * [class Project]                                                      *)
(* ====================================================================== *)

Module Project.

(** ** [Project.all_views] *)

(** [obj.isDerivedFrom("App::DocumentObjectGroup")] *)
Definition is_group (obj : DocObject) : bool :=
  match obj with
  | ViewObj _ => false
  | GroupObj _ _ => true
  end.

(** What one object of a group adds to [res]: itself, or the objects of
    the subgroup, exploded in turn. *)
Fixpoint explode (obj : DocObject) : list DocObject :=
  match obj with
  | ViewObj v => [ViewObj v]
  | GroupObj _ members => flat_map explode members
  end.

(** The inner function [all_group_objs], on the [Group] of its argument *)
Definition all_group_objs (members : list DocObject) : list DocObject :=
  flat_map explode members.

Definition all_views (self : ProjectObj) : list DocObject :=
  all_group_objs (Group self).

(** The attributes of a document object, as the pipeline reads them from
    what it takes for a view: a group has a name and a label, and none of
    [Source], [Material] and [ViewResult]. *)
Definition attributes (obj : DocObject) : View :=
  match obj with
  | ViewObj v => v
  | GroupObj label _ => mkView (Some label) (Some label) None None None
  end.

(** ** The template merge of [Project.render] *)

Definition camera_marker : string := "RaytracingCamera".
Definition content_marker : string := "RaytracingContent".

Definition merge (cam : string) (objstrings : list string) (template : string)
    : Py string :=
  let renderobjs := Str.join_lines objstrings in
  if Str.contains camera_marker template then
    template ← lift (Re.sub_line camera_marker cam template);
    lift (Re.sub_line content_marker renderobjs template)
  else
    lift (Re.sub_line content_marker
            (cam +:+ String Str.newline renderobjs) template).

(** ** [Project.write_groundplane] *)

(** [view.Source.Shape.BoundBox] for an object of the project's group;
    [None] when an attribute is missing. *)
Definition member_BoundBox (obj : DocObject) : option BoundBox :=
  match v_Source (attributes obj) with
  | Some source => option_map Shape_BoundBox (s_Shape source)
  | None => None
  end.

(** The first loop: the box of the scene *)
Definition scene_bbox (members : list DocObject) : BoundBox :=
  fold_left
    (fun bbox obj =>
       match member_BoundBox obj with
       | Some b => Box.add bbox b
       | None => bbox
       end)
    members Box.void.

(** The list [vertices], closed *)
Definition groundplane_vertices (bbox : BoundBox) : list Vector :=
  let margin := (Box.DiagonalLength bbox / 2)%float in
  let vertices :=
    [ mkVector (XMin bbox - margin) (YMin bbox - margin) 0;
      mkVector (XMax bbox + margin) (YMin bbox - margin) 0;
      mkVector (XMax bbox + margin) (YMax bbox + margin) 0;
      mkVector (XMin bbox - margin) (YMax bbox + margin) 0 ] in
  vertices ++ match vertices with v0 :: _ => [v0] | [] => [] end.

Section WithHost.
Context (host : Host).

(** The temporary objects: [dummy1], a [Part::Feature] holding the face,
    and [dummy2], a view of it.  Without the GUI a document object has no
    view provider: its [ViewObject] is [None]. *)
Definition dummy1 (face : Shape) : Source :=
  {| s_Name := Some "dummygroundplane1";
     s_Label := Some "dummygroundplane1";
     s_Proxy_type := None;
     s_PropertiesList := Some ["Label"; "Placement"; "Shape"];
     s_Material := None;
     s_ViewObject := Some (if GuiUp host then Some (new_ViewObject host) else None);
     s_Group := None;
     s_TypeIds := Some ["Part::Feature"; "App::GeoFeature"; "App::DocumentObject"];
     s_Shape := Some face;
     s_Mesh := None;
     s_AspectRatio := None;
     s_Placement := None;
     s_Location := None;
     s_Color := None;
     s_Power := None;
     s_SizeU := None;
     s_SizeV := None |}.

Definition dummy2 (face : Shape) : View :=
  {| v_Name := Some "dummygroundplane2";
     v_Label := Some "dummygroundplane2";
     v_Source := Some (dummy1 face);
     v_Material := Some None;
     v_ViewResult := Some EmptyString |}.

(** [ViewProviderView(vobj)]: the initializer sets [vobj.Proxy]. *)
Definition ViewProviderView (vobj_is_none : bool) : Py unit :=
  if vobj_is_none then raise AttributeError else ret tt.

(** The body of [if bbox.isValid():], from the closed list of vertices on *)
Definition render_polyline (renderer : RendererHandler)
    (vertices : list Vector) : Py string :=
  _ ← emit (AddObject "dummygroundplane1");
  face ← lift (Part_Face_makePolygon host vertices);
  _ ← emit (AddObject "dummygroundplane2");
  _ ← ViewProviderView (negb (GuiUp host));
  _ ← emit Recompute;
  result ← Handler.get_rendering_string host renderer (dummy2 face);
  _ ← emit (RemoveObject "dummygroundplane2");
  _ ← emit (RemoveObject "dummygroundplane1");
  _ ← emit Recompute;
  ret result.

Definition write_groundplane (self : ProjectObj) (renderer : RendererHandler)
    : Py string :=
  let bbox := scene_bbox (Group self) in
  if Box.isValid bbox
  then render_polyline renderer (groundplane_vertices bbox)
  else ret EmptyString.

(** ** [Project.render] *)

(** The default camera view *)
Definition default_camera_source : Source :=
  {| s_Name := Some "Default_Camera";
     s_Label := Some "Default_Camera";
     s_Proxy_type := Some "Camera";
     s_PropertiesList := None;
     s_Material := None;
     s_ViewObject := None;
     s_Group := None;
     s_TypeIds := None;
     s_Shape := None;
     s_Mesh := None;
     s_AspectRatio := None;
     s_Placement := None;
     s_Location := None;
     s_Color := None;
     s_Power := None;
     s_SizeU := None;
     s_SizeV := None |}.

Definition default_camera (obj : ProjectObj) (renderer : RendererHandler)
    : Py string :=
  let camstr := if GuiUp host then ActiveView_getCamera host
                else DEFAULT_CAMERA_STRING host in
  let label := ViewClass.view_label "Default_Camera" (p_Label obj) in
  source ← lift (set_cam_from_coin_string host default_camera_source camstr);
  Handler.get_rendering_string host renderer
    {| v_Name := Some "Default_CameraView";
       v_Label := Some label;
       v_Source := Some source;
       v_Material := None;
       v_ViewResult := None |}.

(** [v.Source.ViewObject.Visibility] *)
Definition visibility (v : View) : Py bool :=
  source ← getattr (v_Source v);
  vobj ← getattr (s_ViewObject source);
  vp ← getattr vobj;
  ret (Visibility vp).

(** The list comprehension [get_rdr_string(v) for v in views if ...] *)
Fixpoint comprehension (get_rdr_string : View -> Py string)
    (views : list View) : Py (list string) :=
  match views with
  | [] => ret []
  | v :: rest =>
      visible ← visibility v;
      if (visible : bool) then
        text ← get_rdr_string v;
        texts ← comprehension get_rdr_string rest;
        ret (text :: texts)
      else comprehension get_rdr_string rest
  end.

(** [attrgetter] applied to the name [ViewResult] *)
Definition attrgetter_ViewResult (v : View) : Py string :=
  getattr (v_ViewResult v).

(** The object strings, before the ground plane *)
Definition object_strings (obj : ProjectObj) (renderer : RendererHandler)
    : Py (list string) :=
  let views := map attributes (all_views obj) in
  let get_rdr_string :=
    if DelayedBuild obj then Handler.get_rendering_string host renderer
    else attrgetter_ViewResult in
  comprehension get_rdr_string views.

(** The ground plane, if required *)
Definition add_groundplane (obj : ProjectObj) (renderer : RendererHandler)
    (objstrings : list string) : Py (list string) :=
  if default false (GroundPlane obj) then
    text ← write_groundplane obj renderer;
    ret (objstrings ++ [text])
  else ret objstrings.

(** [Project.render]; the value is the path of the image, or the empty
    string. *)
Definition render (self : ProjectObj) (external : bool) : Py string :=
  let obj := self in
  (* Get a handle to renderer module; [None] is the early return *)
  handle ← try_except
             (r ← Handler.__init__ host (Renderer obj); ret (Some r))
             [ModuleNotFoundError]
             (fun _ =>
                _ ← emit (PrintError
                            (Cannot_render_project_renderer_not_found
                               (Renderer obj)));
                ret None);
  match handle with
  | None => ret EmptyString
  | Some renderer =>
      (* Get the rendering template *)
      _ ← assert (negb (String.eqb (Template obj) EmptyString)
                  && bool_decide (is_Some (files host !! Template obj)));
      _ ← emit (ReadFile (Template obj));
      let template := default EmptyString (files host !! Template obj) in
      (* Build a default camera *)
      cam ← default_camera obj renderer;
      (* Get objects rendering strings *)
      objstrings ← object_strings obj renderer;
      (* Add a ground plane if required *)
      objstrings ← add_groundplane obj renderer objstrings;
      (* Merge all strings into rendering template *)
      template ← merge cam objstrings template;
      (* Write instantiated template into a temporary file *)
      let fpath := mkstemp host (p_Name obj) (splitext host (Template obj)).2 in
      _ ← emit (Mkstemp fpath);
      _ ← emit (WriteFile fpath template);
      _ ← emit (SetPageResult fpath);
      _ ← emit (RemoveFile fpath);
      let page_result := included_file host fpath in
      _ ← assert (negb (String.eqb page_result EmptyString));
      _ ← emit Recompute;
      (* Fetch the rendering parameters *)
      let prefix := if String.eqb (Prefix host) EmptyString then EmptyString
                    else Prefix host +:+ " " in
      let fallback := (splitext host page_result).1 +:+ ".png" in
      let output := match OutputImage obj with
                    | Some o => if String.eqb o EmptyString then fallback else o
                    | None => fallback
                    end in
      let width := default 800%Z (RenderWidth obj) in
      let height := default 600%Z (RenderHeight obj) in
      (* Run the renderer on the generated temp file *)
      img ← Handler.render renderer
              [VProject (p_Name obj) page_result; VStr prefix; VBool external;
               VStr output; VInt width; VInt height];
      (* Open result in GUI if relevant *)
      _ ← (if String.eqb (img : string) EmptyString then ret tt
           else match OpenAfterRender obj with
                | Some true =>
                    if ImageGui_available host then emit (OpenImage img)
                    else ret tt
                | _ => ret tt
                end);
      ret img
  end.

End WithHost.
End Project.

(* ====================================================================== *)
(** * A sample host, renderer module and scene, for closed examples        *)
(* ====================================================================== *)

Module Sample.

(** A renderer module that provides the five functions. *)
Definition first_name (args : list pyval) : string :=
  match args with
  | VStr name :: _ => name
  | _ => EmptyString
  end.

Definition backend : gmap string pyfun :=
  list_to_map
    [ ("write_camera",
        mkFun ["name"; "pos"; "updir"; "target"]
              (fun args => ret ("camera " +:+ first_name args)));
      ("write_object",
        mkFun ["name"; "mesh"; "color"; "alpha"]
              (fun args => ret ("object " +:+ first_name args)));
      ("write_pointlight",
        mkFun ["name"; "location"; "color"; "power"]
              (fun args => ret ("pointlight " +:+ first_name args)));
      ("write_arealight",
        mkFun ["name"; "placement"; "size_u"; "size_v"; "color"; "power"]
              (fun args => ret ("arealight " +:+ first_name args)));
      ("render",
        mkFun ["project"; "prefix"; "external"; "output"; "width"; "height"]
              (fun args => match args with
                           | [_; _; _; VStr output; _; _] => ret output
                           | _ => raise TypeError
                           end)) ].

(** The bodies given to Povray's functions do not matter below. *)
Definition povray : gmap string pyfun :=
  Povray.module (fun _ _ => ret "povray text").

(** [float] on the few strings the examples use *)
Definition parse_float (s : string) : option float :=
  if String.eqb s "0" then Some 0%float
  else if String.eqb s "0.5" then Some 0.5%float
  else if String.eqb s "1" then Some 1%float
  else None.

Definition triangle : Mesh :=
  mkMesh [mkVector 0 0 0; mkVector 1 0 0; mkVector 0 1 0]
         [(0, 1, 2)%nat]
         [mkVector 0 0 1; mkVector 0 0 1; mkVector 0 0 1].

(** The mesher of the sample host: a triangle, and no facet at all for a
    shape whose box is void. *)
Definition mesh_of_shape (shape : Shape) : outcome Mesh :=
  if Box.isValid (Shape_BoundBox shape) then Returns triangle
  else Returns (mkMesh [] [] []).

Definition identity_placement : Placement :=
  mkPlacement (mkVector 0 0 0) (mkRotation 0 0 0 1).

Definition set_cam (source : Source) (camstr : string) : outcome Source :=
  Returns
    {| s_Name := s_Name source;
       s_Label := s_Label source;
       s_Proxy_type := s_Proxy_type source;
       s_PropertiesList := s_PropertiesList source;
       s_Material := s_Material source;
       s_ViewObject := s_ViewObject source;
       s_Group := s_Group source;
       s_TypeIds := s_TypeIds source;
       s_Shape := s_Shape source;
       s_Mesh := s_Mesh source;
       s_AspectRatio := Some (VFloat 1.0);
       s_Placement := Some (VPlacement identity_placement);
       s_Location := s_Location source;
       s_Color := s_Color source;
       s_Power := s_Power source;
       s_SizeU := s_SizeU source;
       s_SizeV := s_SizeV source |}.

Definition template_text : string :=
  "// header" +:+ String Str.newline
  ("//RaytracingCamera" +:+ String Str.newline
  ("//RaytracingContent" +:+ String Str.newline "// footer")).

Definition host : Host :=
  {| float_of_str := parse_float;
     meshFromShape := mesh_of_shape;
     Part_Face_makePolygon :=
       fun vertices => Returns (KernelShape (fold_left Box.add_point vertices Box.void));
     multVec := fun _ v => v;
     set_cam_from_coin_string := set_cam;
     DEFAULT_CAMERA_STRING := "OrthographicCamera";
     GuiUp := true;
     ActiveView_getCamera := "PerspectiveCamera";
     new_ViewObject := mkViewProvider true (Some [0.5; 0.5; 0.5; 0.0]%float) (Some 0%Z);
     ImageGui_available := false;
     renderers := <["Sample" := backend]> (<["Povray" := povray]> ∅);
     files := <["/templates/sample.txt" := template_text]> ∅;
     mkstemp := fun prefix suffix => "/tmp/" +:+ prefix +:+ suffix;
     splitext := fun path => (path, EmptyString);
     included_file := fun path => path;
     Prefix := EmptyString |}.

Definition handler : RendererHandler := mkHandler "Sample" backend.
Definition povray_handler : RendererHandler := mkHandler "Povray" povray.

(** A source with nothing but a name, to be completed field by field. *)
Definition bare_source (name : string) : Source :=
  {| s_Name := Some name;
     s_Label := Some name;
     s_Proxy_type := None;
     s_PropertiesList := Some [];
     s_Material := None;
     s_ViewObject := Some None;
     s_Group := None;
     s_TypeIds := Some ["App::DocumentObject"];
     s_Shape := None;
     s_Mesh := None;
     s_AspectRatio := None;
     s_Placement := None;
     s_Location := None;
     s_Color := None;
     s_Power := None;
     s_SizeU := None;
     s_SizeV := None |}.

Definition view_of (source : Source) (cached : string) : View :=
  {| v_Name := option_map (fun n => n +:+ "View") (s_Name source);
     v_Label := option_map (fun n => n +:+ "@Project") (s_Label source);
     v_Source := Some source;
     v_Material := Some None;
     v_ViewResult := Some cached |}.

(** A box whose diagonal has length 3 *)
Definition part_box : BoundBox := mkBoundBox 0 0 0 2 1 2.

(** A [Part::Feature] with this box *)
Definition part (name : string) (visible : bool) (color : option (list float))
    (transparency : option Z) : Source :=
  {| s_Name := Some name;
     s_Label := Some name;
     s_Proxy_type := None;
     s_PropertiesList := Some ["Label"; "Placement"; "Shape"];
     s_Material := None;
     s_ViewObject := Some (Some (mkViewProvider visible color transparency));
     s_Group := None;
     s_TypeIds := Some ["Part::Feature"; "App::GeoFeature"; "App::DocumentObject"];
     s_Shape := Some (KernelShape part_box);
     s_Mesh := None;
     s_AspectRatio := None;
     s_Placement := None;
     s_Location := None;
     s_Color := None;
     s_Power := None;
     s_SizeU := None;
     s_SizeV := None |}.

(** A light of the module [lights], by its kind *)
Definition light (name kind : string) (visible : bool) : Source :=
  {| s_Name := Some name;
     s_Label := Some name;
     s_Proxy_type := Some kind;
     s_PropertiesList := Some ["Location"; "Color"; "Power"];
     s_Material := None;
     s_ViewObject := Some (Some (mkViewProvider visible None None));
     s_Group := None;
     s_TypeIds := Some ["App::FeaturePython"; "App::DocumentObject"];
     s_Shape := None;
     s_Mesh := None;
     s_AspectRatio := None;
     s_Placement := Some (VPlacement identity_placement);
     s_Location := Some (VVector (mkVector 0 0 15));
     s_Color := Some (VFloats [1.0; 1.0; 1.0]%float);
     s_Power := Some (VFloat 60.0);
     s_SizeU := Some (VFloat 4.0);
     s_SizeV := Some (VFloat 2.0) |}.

Definition project (renderer : string) (delayed : bool) (ground : bool)
    (members : list DocObject) : ProjectObj :=
  {| p_Name := "Project";
     p_Label := "Sample Project";
     Renderer := renderer;
     DelayedBuild := delayed;
     Template := "/templates/sample.txt";
     Group := members;
     GroundPlane := Some ground;
     OutputImage := Some "/out/image.png";
     RenderWidth := Some 800%Z;
     RenderHeight := Some 600%Z;
     OpenAfterRender := Some false |}.

(** A part that is fully transparent on screen, and no material *)
Definition glass : View := view_of (part "Glass" true None (Some 100%Z)) EmptyString.

(** A material that is fully transparent *)
Definition clear_material : MaterialObj :=
  mkMaterialObj ["Label"; "Material"]
    (<["Transparency" := "1"]> (<["DiffuseColor" := "(0.5, 0.5, 0.5)"]> ∅)).

(** A view with this material, of a part that is half transparent on
    screen *)
Definition clear_view : View :=
  {| v_Name := Some "PaneView";
     v_Label := Some "Pane@Project";
     v_Source := Some (part "Pane" true None (Some 50%Z));
     v_Material := Some (Some clear_material);
     v_ViewResult := Some EmptyString |}.

(** An area light whose power is a text that is no number *)
Definition area_light_with_bad_power : Source :=
  {| s_Name := Some "Panel";
     s_Label := Some "Panel";
     s_Proxy_type := Some "AreaLight";
     s_PropertiesList := Some ["Placement"; "Color"; "Power"; "SizeU"; "SizeV"];
     s_Material := None;
     s_ViewObject := Some (Some (mkViewProvider true None None));
     s_Group := None;
     s_TypeIds := Some ["App::FeaturePython"; "App::DocumentObject"];
     s_Shape := None;
     s_Mesh := None;
     s_AspectRatio := None;
     s_Placement := Some (VPlacement identity_placement);
     s_Location := None;
     s_Color := Some (VFloats [1.0; 1.0; 1.0]%float);
     s_Power := Some (VStr "bright");
     s_SizeU := Some (VFloat 4.0);
     s_SizeV := Some (VFloat 2.0) |}.

(** A part whose shape is empty *)
Definition empty_part : Source :=
  {| s_Name := Some "Nothing";
     s_Label := Some "Nothing";
     s_Proxy_type := None;
     s_PropertiesList := Some ["Label"; "Placement"; "Shape"];
     s_Material := None;
     s_ViewObject := Some (Some (mkViewProvider true None None));
     s_Group := None;
     s_TypeIds := Some ["Part::Feature"; "App::GeoFeature"; "App::DocumentObject"];
     s_Shape := Some (KernelShape Box.void);
     s_Mesh := None;
     s_AspectRatio := None;
     s_Placement := None;
     s_Location := None;
     s_Color := None;
     s_Power := None;
     s_SizeU := None;
     s_SizeV := None |}.

(** A scene with a part and a point light, rendered on demand *)
Definition scene : ProjectObj :=
  project "Sample" true false
    [ViewObj (view_of (part "Cube" true None None) EmptyString);
     ViewObj (view_of (light "Lamp" "PointLight" true) EmptyString)].

(** The same with a part that has no facet in front *)
Definition scene_with_empty_part : ProjectObj :=
  project "Sample" true false
    [ViewObj (view_of empty_part EmptyString);
     ViewObj (view_of (part "Cube" true None None) EmptyString);
     ViewObj (view_of (light "Lamp" "PointLight" true) EmptyString)].

(** The same with a light of a kind that the dispatcher does not know *)
Definition scene_with_unknown_kind : ProjectObj :=
  project "Sample" true false
    [ViewObj (view_of (part "Cube" true None None) EmptyString);
     ViewObj (view_of (light "Sun" "SunskyLight" true) EmptyString);
     ViewObj (view_of (light "Lamp" "PointLight" true) EmptyString)].

(** A project with the ground plane asked for, whose only view is of a
    part that is hidden *)
Definition hidden_project : ProjectObj :=
  project "Sample" true true
    [ViewObj (view_of (part "Hidden" false None None) "hidden part")].

(** A project that is not delayed, with a part and, in a group, a lamp and a
    hidden part *)
Definition cached_project : ProjectObj :=
  project "Sample" false false
    [ViewObj (view_of (part "Cube" true None None) "cached cube");
     GroupObj "Lights"
       [ViewObj (view_of (light "Lamp" "PointLight" true) "cached lamp");
        ViewObj (view_of (part "Hidden" false None None) "cached hidden")]].

End Sample.

(* ====================================================================== *)
(** * The specification's wording, where it is compared with the code      *)
(* ====================================================================== *)

Module Spec.

(** ** Template merge, with only the first match per marker substituted *)

Fixpoint replace_first_line (m r : string) (lines : list string) : list string :=
  match lines with
  | [] => []
  | l :: ls =>
      if Str.contains m l then r :: ls else l :: replace_first_line m r ls
  end.

Definition replace_first (m r text : string) : string :=
  Str.join_lines (replace_first_line m r (Str.split_lines text)).

Definition merge_first_match (cam_text : string) (object_texts : list string)
    (template : string) : string :=
  let joined := Str.join_lines object_texts in
  if Str.contains Project.camera_marker template then
    replace_first Project.content_marker joined
      (replace_first Project.camera_marker cam_text template)
  else
    replace_first Project.content_marker
      (cam_text +:+ String Str.newline joined) template.

(** ** The scene box of the ground plane *)

(** Whether a view is shown: its source's view provider is visible. *)
Definition shown (v : View) : bool :=
  match v_Source v with
  | Some source =>
      match s_ViewObject source with
      | Some (Some vp) => Visibility vp
      | _ => false
      end
  | None => false
  end.

Definition source_box (v : View) : option BoundBox :=
  match v_Source v with
  | Some source => option_map Shape_BoundBox (s_Shape source)
  | None => None
  end.

Definition union_of (boxes : list BoundBox) : BoundBox :=
  fold_left Box.add boxes Box.void.

(** The union bounding box of all visible sources' geometry *)
Definition visible_sources_bbox (project : ProjectObj) : BoundBox :=
  union_of (omap source_box
              (filter (fun v => shown v = true)
                      (map Project.attributes (Project.all_views project)))).

(** The union bounding box of the geometry of the sources of all views *)
Definition all_sources_bbox (project : ProjectObj) : BoundBox :=
  union_of (omap source_box
              (map Project.attributes (Project.all_views project))).

(** ** Terminal objects of a group tree, by their position *)

(** The object reached from a group by a path of member indices. *)
Fixpoint lookup_path (path : list nat) (members : list DocObject)
    : option DocObject :=
  match path with
  | [] => None
  | i :: rest =>
      match members !! i with
      | None => None
      | Some obj =>
          match rest, obj with
          | [], _ => Some obj
          | _ :: _, GroupObj _ sub => lookup_path rest sub
          | _ :: _, ViewObj _ => None
          end
      end
  end.

(** Document order: the lexicographic order of paths. *)
Inductive path_lt : list nat -> list nat -> Prop :=
  | path_lt_nil i q : path_lt [] (i :: q)
  | path_lt_head i j p q : (i < j)%nat -> path_lt (i :: p) (j :: q)
  | path_lt_tail i p q : path_lt p q -> path_lt (i :: p) (i :: q).

(** What a path reaches from one object: the object itself for the empty
    path, else what the path reaches in its group. *)
Definition descend (path : list nat) (obj : DocObject) : option DocObject :=
  match path, obj with
  | [], _ => Some obj
  | _ :: _, GroupObj _ sub => lookup_path path sub
  | _ :: _, ViewObj _ => None
  end.

(** The paths of the terminal objects, in document order: below one object,
    and below the members of a group whose first member has index [i]. *)
Fixpoint object_paths (obj : DocObject) : list (list nat) :=
  match obj with
  | ViewObj _ => [[]]
  | GroupObj _ members =>
      (fix from (i : nat) (l : list DocObject) : list (list nat) :=
         match l with
         | [] => []
         | o :: l' => (cons i <$> object_paths o) ++ from (S i) l'
         end) 0%nat members
  end.

Fixpoint paths_from (i : nat) (l : list DocObject) : list (list nat) :=
  match l with
  | [] => []
  | o :: l' => (cons i <$> object_paths o) ++ paths_from (S i) l'
  end.

(** The paths of the terminal objects of a project *)
Definition terminal_paths (project : ProjectObj) : list (list nat) :=
  paths_from 0 (Group project).

End Spec.

(* ====================================================================== *)
(** * [Project.add_objects] and [View.create]                              *)
(* ====================================================================== *)

Module AddObjects.

(** An object offered to [add_objects]: its attributes and its members
    ([obj.Group], read when the object is a group). *)
Inductive FcObject :=
  | Fc (attrs : Source) (members : list FcObject).

(** What a run leaves behind: the objects attached to the target group, in
    order, the labels of the objects warned about, the exception that ended
    the run, if one did, and the number of calls of [addObject] made on a
    document since the run began. *)
Record Added := mkAdded {
  created : list DocObject;
  warned : list string;
  failure : option exn;
  calls : nat }.

Definition nothing (n : nat) : Added := mkAdded [] [] None n.
Definition failed (e : exn) (n : nat) : Added := mkAdded [] [] (Some e) n.

(** One run after another; the second does not start when the first ended
    by an exception. *)
Definition and_then (a : Added) (b : nat -> Added) : Added :=
  match failure a with
  | Some _ => a
  | None =>
      let r := b (calls a) in
      mkAdded (created a ++ created r) (warned a ++ warned r)
              (failure r) (calls r)
  end.

(** The group objects are added to: its label, whether an object is that
    group ([obj != group]) and whether an object is in its document
    ([doc == fcd_obj.Document]). *)
Record Target := mkTarget {
  t_Label : string;
  t_is : Source -> bool;
  t_same_document : Source -> bool }.

(** [obj.isDerivedFrom("App::DocumentObjectGroup")], when the method is
    there *)
Definition is_group_type (attrs : Source) : bool :=
  match s_TypeIds attrs with
  | Some types => bool_decide ("App::DocumentObjectGroup" ∈ types)
  | None => false
  end.

Section WithDocument.
Context (host : Host).
(** The name a document gives to the object made by the n-th call of
    [addObject] of the run, asked under the given name *)
Context (addObject_Name : nat -> string -> string).
(** Whether an object is in the active document *)
Context (in_active_document : Source -> bool).

(** [View.create(fcd_obj, project)]: the view is attached to the target
    before its view provider is made, and there is no [ViewObject] to make
    it on without the GUI. *)
Definition create (fcd_obj : Source) (project : Target) (n : nat) : Added :=
  if t_same_document project fcd_obj then
    match s_Name fcd_obj with
    | None => failed AttributeError n
    | Some name =>
        let fpo_Name := addObject_Name n (name +:+ "View") in
        match s_Label fcd_obj with
        | None => failed AttributeError (S n)
        | Some label =>
            let fpo :=
              ViewObj
                {| v_Name := Some fpo_Name;
                   v_Label := Some (ViewClass.view_label label (t_Label project));
                   v_Source := Some fcd_obj;
                   v_Material := Some None;
                   v_ViewResult := Some EmptyString |} in
            mkAdded [fpo] []
                    (if GuiUp host then None else Some AttributeError) (S n)
        end
    end
  else failed AssertionError n.

(** One turn of the loop of [add_to_group].  A group made during the run
    is none of the objects offered, and it is made in the active
    document. *)
Fixpoint add_one (group : Target) (obj : FcObject) (n : nat) : Added :=
  match obj with
  | Fc attrs members =>
      match s_TypeIds attrs with
      | None => failed AttributeError n
      | Some types =>
          if bool_decide ("App::DocumentObjectGroup" ∈ types) then
            if t_is group attrs then failed AssertionError n
            else
              match s_Label attrs with
              | None => failed AttributeError n
              | Some obj_label =>
                  let label := ViewClass.view_label obj_label (t_Label group) in
                  let new_group :=
                    mkTarget label (fun _ => false) in_active_document in
                  let inner :=
                    (fix loop (l : list FcObject) : nat -> Added :=
                       match l with
                       | [] => nothing
                       | o :: rest =>
                           fun n => and_then (add_one new_group o n) (loop rest)
                       end) members (S n) in
                  mkAdded [GroupObj label (created inner)]
                          (warned inner) (failure inner) (calls inner)
              end
          else if Handler.is_renderable attrs then create attrs group n
          else
            match s_Label attrs with
            | Some label => mkAdded [] [label] None n
            | None => failed AttributeError n
            end
      end
  end.

(** The inner function [add_to_group] *)
Fixpoint add_to_group (objs : list FcObject) (group : Target) (n : nat)
    : Added :=
  match objs with
  | [] => nothing n
  | o :: rest => and_then (add_one group o n) (add_to_group rest group)
  end.

(** Whether an object is the project's own object [self.fpo], and whether
    it is in the document of the project *)
Context (is_fpo in_project_document : Source -> bool).

(** [Project.add_objects] *)
Definition add_objects (self : ProjectObj) (objs : list FcObject) : Added :=
  add_to_group objs (mkTarget (p_Label self) is_fpo in_project_document) 0.

End WithDocument.

(** A project with other objects in its group *)
Definition with_Group (members : list DocObject) (self : ProjectObj)
    : ProjectObj :=
  {| p_Name := p_Name self;
     p_Label := p_Label self;
     Renderer := Renderer self;
     DelayedBuild := DelayedBuild self;
     Template := Template self;
     Group := members;
     GroundPlane := GroundPlane self;
     OutputImage := OutputImage self;
     RenderWidth := RenderWidth self;
     RenderHeight := RenderHeight self;
     OpenAfterRender := OpenAfterRender self |}.

(** The project after the run: the objects created are at the end of its
    group. *)
Definition project_after (self : ProjectObj) (run : Added) : ProjectObj :=
  with_Group (Group self ++ created run) self.

(** The objects of a selection that are not groups, in the order of the
    selection, the members of a group in the place of the group *)
Fixpoint leaves (obj : FcObject) : list Source :=
  match obj with
  | Fc attrs members =>
      if is_group_type attrs then flat_map leaves members else [attrs]
  end.


(** The source of what sits in a group *)
Definition source_of (obj : DocObject) : option Source :=
  v_Source (Project.attributes obj).

(** A view as [View.create] leaves it: no material, nothing rendered *)
Definition fresh (obj : DocObject) : Prop :=
  v_Material (Project.attributes obj) = Some None /\
  v_ViewResult (Project.attributes obj) = Some EmptyString.

Definition renderable (attrs : Source) : Prop :=
  Handler.is_renderable attrs = true.

(** What a run that ended well has made of a list of leaves: a view for
    each renderable one, in order, a warning for each other one. *)
Definition made_of (run : Added) (sources : list Source) : Prop :=
  map source_of (Project.all_group_objs (created run)) =
    map Some (filter renderable sources) /\
  map Some (warned run) =
    map s_Label (filter (fun attrs => ~ renderable attrs) sources) /\
  Forall fresh (Project.all_group_objs (created run)).

(** Without the GUI, at most one view is made, and none by a run that
    ends well. *)
Definition console_run (run : Added) : Prop :=
  (failure run = None /\ Project.all_group_objs (created run) = []) \/
  (failure run <> None /\ length (Project.all_group_objs (created run)) <= 1).

End AddObjects.

(* ====================================================================== *)
(** * [render] of [renderers/Povray.py]                                    *)
(* ====================================================================== *)

From Stdlib Require DecimalString.

Module PovrayRender.

(** What the function does besides returning: the error it prints, the
    command it prints, the command it runs. *)
Inductive effect :=
  | PrintError_unable_to_locate_renderer_executable
  | PrintMessage_renderer_command (cmd : string)
  | os_system (cmd : string).

(** The text of an [int] in a format string *)
Definition format_int (n : Z) : string :=
  DecimalString.NilZero.string_of_int (Z.to_int n).

(** The class of the characters from 0 to 9 *)
Definition is_digit (c : ascii) : bool :=
  ((48 <=? nat_of_ascii c) && (nat_of_ascii c <=? 57))%nat.

Fixpoint take_digits (s : string) : string :=
  match s with
  | String c rest => if is_digit c then String c (take_digits rest)
                     else EmptyString
  | EmptyString => EmptyString
  end.

Fixpoint drop_digits (s : string) : string :=
  match s with
  | String c rest => if is_digit c then drop_digits rest else s
  | EmptyString => EmptyString
  end.

(** A text cut by the matches of a pattern: the characters outside a
    match, and the digits of each match. *)
Inductive piece :=
  | Other (c : ascii)
  | Match (digits : string).

Section Flag.
(** The patterns are a plus sign, the letter W or H, and one digit or
    more. *)
Context (letter : ascii).

Definition flag : string := String "+" (String letter EmptyString).

(** The pattern matches at the start of the text. *)
Definition match_here (s : string) : bool :=
  match s with
  | String plus (String l (String d _)) =>
      Ascii.eqb plus "+" && Ascii.eqb l letter && is_digit d
  | _ => false
  end.

(** The matches from left to right, each as long as it can be, none
    overlapping another; [fuel] bounds the length of the text. *)
Fixpoint pieces (fuel : nat) (s : string) : list piece :=
  match fuel, s with
  | S fuel, String c rest =>
      if match_here s then
        match rest with
        | String _ after =>
            Match (take_digits after) :: pieces fuel (drop_digits after)
        | EmptyString => []
        end
      else Other c :: pieces fuel rest
  | _, _ => []
  end.

(** The text with each match replaced *)
Fixpoint replaced (repl : string) (l : list piece) : string :=
  match l with
  | [] => EmptyString
  | Other c :: rest => String c (replaced repl rest)
  | Match _ :: rest => repl +:+ replaced repl rest
  end.

(** The numbers that the text gives for the flag *)
Definition values (s : string) : list string :=
  omap (fun p => match p with Match digits => Some digits | Other _ => None end)
       (pieces (String.length s) s).

(** [re.sub] with one of the two patterns and a replacement that holds no
    backslash, which stands for itself *)
Definition re_sub (repl : string) (s : string) : string :=
  replaced repl (pieces (String.length s) s).

(** The [if] that puts a size into the arguments *)
Definition set_flag (value : Z) (args : string) : string :=
  if Str.contains flag args
  then re_sub (flag +:+ format_int value) args
  else args +:+ flag +:+ format_int value +:+ " ".

End Flag.

Section WithParameters.
Context (host : Host).
(** The user parameters [PovRayPath] and [PovRayParameters], empty when
    they are not set *)
Context (PovRayPath PovRayParameters : string).

Definition nonempty (s : string) : bool :=
  match s with
  | EmptyString => false
  | String _ _ => true
  end.

(** [render]; [PageResult] is the one of [project]. *)
Definition render (PageResult : string) (prefix : string) (external : bool)
    (output : string) (width height : Z) : list effect * string :=
  let prefix := Prefix host in
  let prefix := if nonempty prefix then prefix +:+ " " else prefix in
  let rpath := PovRayPath in
  if negb (nonempty rpath) then
    ([PrintError_unable_to_locate_renderer_executable], EmptyString)
  else
    let args := PovRayParameters in
    let args := if nonempty args then args +:+ " " else args in
    let args := set_flag "W" width args in
    let args := set_flag "H" height args in
    let args := if nonempty output then args +:+ "+O" +:+ output +:+ " "
                else args in
    let cmd := prefix +:+ rpath +:+ " " +:+ args +:+ PageResult in
    ([PrintMessage_renderer_command cmd; os_system cmd],
     if nonempty output then output
     else fst (splitext host PageResult) +:+ ".png").

End WithParameters.

(** A text of digits, one at least *)
Definition is_number (s : string) : Prop :=
  s <> EmptyString /\ take_digits s = s.

(** The first character of a text is not a digit, if it has one. *)
Definition starts_without_digit (s : string) : Prop :=
  match s with
  | String c _ => is_digit c = false
  | EmptyString => True
  end.

(** The first character of a text is a digit. *)
Definition starts_with_digit (s : string) : Prop :=
  match s with
  | String c _ => is_digit c = true
  | EmptyString => False
  end.

(** The first two characters of a text *)
Definition first2 (s : string) : option ascii * option ascii :=
  match s with
  | EmptyString => (None, None)
  | String a EmptyString => (Some a, None)
  | String a (String b _) => (Some a, Some b)
  end.

End PovrayRender.

(* ====================================================================== *)
(** * Shapes of event traces                                               *)
(* ====================================================================== *)
(** * [Project.set_properties]                                             *)
(* ====================================================================== *)

Module Properties.

(** The properties of the FeaturePython object of a project, each one
    absent or with its value, and the editor mode of [PageResult]. *)
Record Feature := mkFeature {
  f_Renderer : option string;
  f_DelayedBuild : option bool;
  f_Template : option string;
  f_PageResult : option string;
  f_Group : option (list DocObject);
  f_RenderWidth : option Z;
  f_RenderHeight : option Z;
  f_GroundPlane : option bool;
  f_OutputImage : option string;
  f_OpenAfterRender : option bool;
  f_PageResult_mode : Z }.

(** A FeaturePython object as the document makes it *)
Definition bare : Feature :=
  mkFeature None None None None None None None None None None 0.

(** The name of a property that is there *)
Definition present {A} (name : string) (value : option A) : list string :=
  match value with
  | Some _ => [name]
  | None => []
  end.

(** [obj.PropertiesList] *)
Definition PropertiesList (obj : Feature) : list string :=
  present "Renderer" (f_Renderer obj) ++
  present "DelayedBuild" (f_DelayedBuild obj) ++
  present "Template" (f_Template obj) ++
  present "PageResult" (f_PageResult obj) ++
  present "Group" (f_Group obj) ++
  present "RenderWidth" (f_RenderWidth obj) ++
  present "RenderHeight" (f_RenderHeight obj) ++
  present "GroundPlane" (f_GroundPlane obj) ++
  present "OutputImage" (f_OutputImage obj) ++
  present "OpenAfterRender" (f_OpenAfterRender obj).

Section WithParameters.
(** The integers of the user parameters of the workbench *)
Context (GetInt_stored : string -> option Z).

Definition GetInt (name : string) (default_value : Z) : Z :=
  default default_value (GetInt_stored name).

(** The steps of [set_properties], one for each [if], in order.  A
    property added has the default of its type until it is assigned. *)
Definition add_Renderer (obj : Feature) : Feature :=
  if bool_decide ("Renderer" ∈ PropertiesList obj) then obj
  else mkFeature (Some EmptyString) (f_DelayedBuild obj) (f_Template obj)
         (f_PageResult obj) (f_Group obj) (f_RenderWidth obj)
         (f_RenderHeight obj) (f_GroundPlane obj) (f_OutputImage obj)
         (f_OpenAfterRender obj) (f_PageResult_mode obj).

Definition add_DelayedBuild (obj : Feature) : Feature :=
  if bool_decide ("DelayedBuild" ∈ PropertiesList obj) then obj
  else mkFeature (f_Renderer obj) (Some true) (f_Template obj)
         (f_PageResult obj) (f_Group obj) (f_RenderWidth obj)
         (f_RenderHeight obj) (f_GroundPlane obj) (f_OutputImage obj)
         (f_OpenAfterRender obj) (f_PageResult_mode obj).

Definition add_Template (obj : Feature) : Feature :=
  if bool_decide ("Template" ∈ PropertiesList obj) then obj
  else mkFeature (f_Renderer obj) (f_DelayedBuild obj) (Some EmptyString)
         (f_PageResult obj) (f_Group obj) (f_RenderWidth obj)
         (f_RenderHeight obj) (f_GroundPlane obj) (f_OutputImage obj)
         (f_OpenAfterRender obj) (f_PageResult_mode obj).

Definition add_PageResult (obj : Feature) : Feature :=
  if bool_decide ("PageResult" ∈ PropertiesList obj) then obj
  else mkFeature (f_Renderer obj) (f_DelayedBuild obj) (f_Template obj)
         (Some EmptyString) (f_Group obj) (f_RenderWidth obj)
         (f_RenderHeight obj) (f_GroundPlane obj) (f_OutputImage obj)
         (f_OpenAfterRender obj) (f_PageResult_mode obj).

Definition add_Group (obj : Feature) : Feature :=
  if bool_decide ("Group" ∈ PropertiesList obj) then obj
  else mkFeature (f_Renderer obj) (f_DelayedBuild obj) (f_Template obj)
         (f_PageResult obj) (Some []) (f_RenderWidth obj)
         (f_RenderHeight obj) (f_GroundPlane obj) (f_OutputImage obj)
         (f_OpenAfterRender obj) (f_PageResult_mode obj).

Definition add_RenderWidth (obj : Feature) : Feature :=
  if bool_decide ("RenderWidth" ∈ PropertiesList obj) then obj
  else mkFeature (f_Renderer obj) (f_DelayedBuild obj) (f_Template obj)
         (f_PageResult obj) (f_Group obj) (Some (GetInt "RenderWidth" 800))
         (f_RenderHeight obj) (f_GroundPlane obj) (f_OutputImage obj)
         (f_OpenAfterRender obj) (f_PageResult_mode obj).

Definition add_RenderHeight (obj : Feature) : Feature :=
  if bool_decide ("RenderHeight" ∈ PropertiesList obj) then obj
  else mkFeature (f_Renderer obj) (f_DelayedBuild obj) (f_Template obj)
         (f_PageResult obj) (f_Group obj) (f_RenderWidth obj)
         (Some (GetInt "RenderHeight" 600)) (f_GroundPlane obj)
         (f_OutputImage obj) (f_OpenAfterRender obj) (f_PageResult_mode obj).

Definition add_GroundPlane (obj : Feature) : Feature :=
  if bool_decide ("GroundPlane" ∈ PropertiesList obj) then obj
  else mkFeature (f_Renderer obj) (f_DelayedBuild obj) (f_Template obj)
         (f_PageResult obj) (f_Group obj) (f_RenderWidth obj)
         (f_RenderHeight obj) (Some false) (f_OutputImage obj)
         (f_OpenAfterRender obj) (f_PageResult_mode obj).

Definition add_OutputImage (obj : Feature) : Feature :=
  if bool_decide ("OutputImage" ∈ PropertiesList obj) then obj
  else mkFeature (f_Renderer obj) (f_DelayedBuild obj) (f_Template obj)
         (f_PageResult obj) (f_Group obj) (f_RenderWidth obj)
         (f_RenderHeight obj) (f_GroundPlane obj) (Some EmptyString)
         (f_OpenAfterRender obj) (f_PageResult_mode obj).

(** The last [if] adds [OpenAfterRender] and assigns [GroundPlane]. *)
Definition add_OpenAfterRender (obj : Feature) : Feature :=
  if bool_decide ("OpenAfterRender" ∈ PropertiesList obj) then obj
  else mkFeature (f_Renderer obj) (f_DelayedBuild obj) (f_Template obj)
         (f_PageResult obj) (f_Group obj) (f_RenderWidth obj)
         (f_RenderHeight obj) (Some false) (f_OutputImage obj)
         (Some false) (f_PageResult_mode obj).

Definition setEditorMode_PageResult (mode : Z) (obj : Feature) : Feature :=
  mkFeature (f_Renderer obj) (f_DelayedBuild obj) (f_Template obj)
    (f_PageResult obj) (f_Group obj) (f_RenderWidth obj)
    (f_RenderHeight obj) (f_GroundPlane obj) (f_OutputImage obj)
    (f_OpenAfterRender obj) mode.

(** [Project.set_properties]; its first statement records the object in
    the project and changes no property. *)
Definition set_properties (obj : Feature) : Feature :=
  setEditorMode_PageResult 2
    (add_OpenAfterRender
       (add_OutputImage
          (add_GroundPlane
             (add_RenderHeight
                (add_RenderWidth
                   (add_Group
                      (add_PageResult
                         (add_Template
                            (add_DelayedBuild (add_Renderer obj)))))))))).

(** [Project.onDocumentRestored] *)
Definition onDocumentRestored (obj : Feature) : Feature :=
  set_properties obj.

End WithParameters.

(** Every property of a project is there. *)
Definition complete (obj : Feature) : Prop :=
  Forall (fun name => name ∈ PropertiesList obj)
    ["Renderer"; "DelayedBuild"; "Template"; "PageResult"; "Group";
     "RenderWidth"; "RenderHeight"; "GroundPlane"; "OutputImage";
     "OpenAfterRender"].

End Properties.

(* ====================================================================== *)
(** * The commands [RenderCommand] and [RenderViewCommand]                 *)
(* ====================================================================== *)

Module Commands.

(** [RendererHandler.is_project] *)
Definition is_project (obj : Source) : bool :=
  match s_TypeIds obj with
  | None => false
  | Some types =>
      if bool_decide ("App::FeaturePython" ∈ types) then
        match s_PropertiesList obj with
        | Some properties => bool_decide ("Renderer" ∈ properties)
        | None => false
        end
      else false
  end.

(** The loops of [RenderCommand.Activated]: the first object with a
    property [Renderer]. *)
Fixpoint first_with_Renderer (objs : list Source) : outcome (option Source) :=
  match objs with
  | [] => Returns None
  | obj :: rest =>
      match s_PropertiesList obj with
      | None => Raises AttributeError
      | Some properties =>
          if bool_decide ("Renderer" ∈ properties) then Returns (Some obj)
          else first_with_Renderer rest
      end
  end.

(** [RenderCommand.Activated], up to the call of [project.Proxy.render()]:
    the project whose [render] is called, or [None] when the command
    returns before. *)
Definition RenderCommand_Activated (sel Objects : list Source)
    : outcome (option Source) :=
  match first_with_Renderer sel with
  | Raises e => Raises e
  | Returns (Some project) => Returns (Some project)
  | Returns None =>
      match first_with_Renderer Objects with
      | Raises e => Raises e
      | Returns (Some _) => Returns None
      | Returns None => Raises AttributeError
      end
  end.

(** The attributes of an object of the document *)
Definition attrs_of (item : AddObjects.FcObject) : Source :=
  match item with AddObjects.Fc attrs _ => attrs end.

(** [RenderViewCommand.Activated], up to the call of [add_objects]: the
    target project and the objects given to it, or [None] when the
    command prints its error and returns. *)
Definition RenderViewCommand_Activated (selection Objects : list AddObjects.FcObject)
    : option (AddObjects.FcObject * list AddObjects.FcObject) :=
  let objs := filter (fun item => is_project (attrs_of item) = false) selection in
  let projs := filter (fun item => is_project (attrs_of item) = true) selection in
  let activedoc_projects :=
    filter (fun item => is_project (attrs_of item) = true) Objects in
  match projs ++ activedoc_projects with
  | target_project :: _ => Some (target_project, objs)
  | [] => None
  end.

End Commands.

(* ====================================================================== *)

Module Shape.

(** The computation raised before it emitted anything. *)
Definition raises_silently {A} (r : Py A) : Prop :=
  trace r = [] /\ exists e, result r = Raises e.

(** The first event of the computation is the entry into the backend
    function [method]. *)
Definition starts_with_call {A} (method : string) (r : Py A) : Prop :=
  exists args rest, trace r = Call method args :: rest.

(** The backend function that the handler of a kind calls. *)
Definition write_function (kind : string) : string :=
  if String.eqb kind "Object" then "write_object"
  else if String.eqb kind "PointLight" then "write_pointlight"
  else if String.eqb kind "Camera" then "write_camera"
  else "write_arealight".

End Shape.

(* ====================================================================== *)
(** * More sample data                                                     *)
(* ====================================================================== *)

Module Cases.

(** A camera, as the module [camera] sets one up *)
Definition camera_source : Source :=
  {| s_Name := Some "Camera";
     s_Label := Some "Camera";
     s_Proxy_type := Some "Camera";
     s_PropertiesList := Some ["Placement"; "AspectRatio"];
     s_Material := None;
     s_ViewObject := Some (Some (mkViewProvider true None None));
     s_Group := None;
     s_TypeIds := Some ["App::FeaturePython"; "App::DocumentObject"];
     s_Shape := None;
     s_Mesh := None;
     s_AspectRatio := Some (VFloat 1.0);
     s_Placement := Some (VPlacement Sample.identity_placement);
     s_Location := None;
     s_Color := None;
     s_Power := None;
     s_SizeU := None;
     s_SizeV := None |}.

Definition camera_view : View := Sample.view_of camera_source EmptyString.

(** A project whose views are a lamp and a camera: nothing with a shape *)
Definition lights_only : ProjectObj :=
  Sample.project "Sample" true true
    [ViewObj (Sample.view_of (Sample.light "Lamp" "PointLight" true) EmptyString);
     ViewObj camera_view].

(** The object of a project, by what the commands read of it *)
Definition project_object : Source :=
  {| s_Name := Some "Project";
     s_Label := Some "Sample Project";
     s_Proxy_type := None;
     s_PropertiesList := Some ["Label"; "Group"; "Renderer"; "Template"];
     s_Material := None;
     s_ViewObject := Some (Some (mkViewProvider true None None));
     s_Group := None;
     s_TypeIds := Some ["App::FeaturePython"; "App::DocumentObject"];
     s_Shape := None;
     s_Mesh := None;
     s_AspectRatio := None;
     s_Placement := None;
     s_Location := None;
     s_Color := None;
     s_Power := None;
     s_SizeU := None;
     s_SizeV := None |}.

(** The object of a project saved before [OpenAfterRender] was
    introduced, with a ground plane *)
Definition earlier_project : Properties.Feature :=
  {| Properties.f_Renderer := Some "Povray";
     Properties.f_DelayedBuild := Some false;
     Properties.f_Template := Some "/templates/sample.txt";
     Properties.f_PageResult := Some EmptyString;
     Properties.f_Group := Some [];
     Properties.f_RenderWidth := Some 1024%Z;
     Properties.f_RenderHeight := Some 768%Z;
     Properties.f_GroundPlane := Some true;
     Properties.f_OutputImage := Some EmptyString;
     Properties.f_OpenAfterRender := None;
     Properties.f_PageResult_mode := 0 |}.

(** A project with a view in a subgroup *)
Definition grouped : ProjectObj :=
  Sample.project "Sample" true true
    [ViewObj (Sample.view_of (Sample.light "Lamp" "PointLight" true) EmptyString);
     GroupObj "Parts"
       [ViewObj (Sample.view_of (Sample.part "Cube" true None None) EmptyString)]].

(** A group of the document *)
Definition folder : Source :=
  {| s_Name := Some "Folder";
     s_Label := Some "Folder";
     s_Proxy_type := None;
     s_PropertiesList := Some ["Label"; "Group"];
     s_Material := None;
     s_ViewObject := Some (Some (mkViewProvider true None None));
     s_Group := None;
     s_TypeIds := Some ["App::DocumentObjectGroup"; "App::DocumentObject"];
     s_Shape := None;
     s_Mesh := None;
     s_AspectRatio := None;
     s_Placement := None;
     s_Location := None;
     s_Color := None;
     s_Power := None;
     s_SizeU := None;
     s_SizeV := None |}.

(** A selection: a part, then a group with a light and an object that
    cannot be rendered *)
Definition selection : list AddObjects.FcObject :=
  [ AddObjects.Fc (Sample.part "Cube" true None None) [];
    AddObjects.Fc folder
      [ AddObjects.Fc (Sample.light "Lamp" "PointLight" true) [];
        AddObjects.Fc (Sample.bare_source "Note") [] ] ].

(** A document that gives every object the name asked for *)
Definition name_as_asked (n : nat) (name : string) : string := name.

(** The sample host without the GUI *)
Definition console : Host :=
  {| float_of_str := float_of_str Sample.host;
     meshFromShape := meshFromShape Sample.host;
     Part_Face_makePolygon := Part_Face_makePolygon Sample.host;
     multVec := multVec Sample.host;
     set_cam_from_coin_string := set_cam_from_coin_string Sample.host;
     DEFAULT_CAMERA_STRING := DEFAULT_CAMERA_STRING Sample.host;
     GuiUp := false;
     ActiveView_getCamera := ActiveView_getCamera Sample.host;
     new_ViewObject := new_ViewObject Sample.host;
     ImageGui_available := ImageGui_available Sample.host;
     renderers := renderers Sample.host;
     files := files Sample.host;
     mkstemp := mkstemp Sample.host;
     splitext := splitext Sample.host;
     included_file := included_file Sample.host;
     Prefix := Prefix Sample.host |}.

End Cases.

(* ====================================================================== *)
(** * Facts about lines and markers                                        *)
(* ====================================================================== *)

Module StrFacts.
Import Str.

Lemma split_lines_nonempty s : split_lines s <> [].
Proof.
  destruct s as [|c s]; simpl; [discriminate|].
  destruct (Ascii.eqb c newline); [discriminate|].
  destruct (split_lines s); discriminate.
Qed.

Lemma join_lines_cons x xs :
  xs <> [] -> join_lines (x :: xs) = x +:+ String newline (join_lines xs).
Proof. destruct xs; [congruence|reflexivity]. Qed.

Lemma append_String c s t : String c s +:+ t = String c (s +:+ t).
Proof. reflexivity. Qed.

Lemma append_assoc (s t u : string) : (s +:+ t) +:+ u = s +:+ (t +:+ u).
Proof.
  induction s as [|c s IH]; [reflexivity|].
  rewrite !append_String. now rewrite IH.
Qed.

Lemma append_empty_r (s : string) : s +:+ EmptyString = s.
Proof.
  induction s as [|c s IH]; [reflexivity|].
  rewrite append_String. now rewrite IH.
Qed.

(** Splitting into lines loses nothing. *)
Lemma join_split s : join_lines (split_lines s) = s.
Proof.
  induction s as [|c s IH]; [reflexivity|].
  cbn [split_lines].
  destruct (Ascii.eqb_spec c newline) as [->|Hc].
  - rewrite join_lines_cons by apply split_lines_nonempty.
    now rewrite IH.
  - pose proof (split_lines_nonempty s) as Hne.
    destruct (split_lines s) as [|l ls]; [congruence|].
    destruct ls as [|l' ls].
    + simpl in *. now rewrite IH.
    + rewrite join_lines_cons by discriminate.
      rewrite join_lines_cons in IH by discriminate.
      rewrite append_String. now rewrite IH.
Qed.

Lemma startswith_empty s : startswith EmptyString s = true.
Proof. now destruct s. Qed.

Lemma contains_empty s : contains EmptyString s = true.
Proof. destruct s; reflexivity. Qed.

Lemma contains_String p c s :
  contains p (String c s) = startswith p (String c s) || contains p s.
Proof. reflexivity. Qed.

Lemma contains_tail p c s : contains p s = true -> contains p (String c s) = true.
Proof. intros H. rewrite contains_String, H. apply orb_true_r. Qed.

(** The first line is a prefix of the text. *)
Lemma first_line_prefix s : forall l ls p,
  split_lines s = l :: ls -> startswith p l = true -> startswith p s = true.
Proof.
  induction s as [|c s IH]; intros l ls p Hs Hp.
  - simpl in Hs. now inversion Hs; subst.
  - cbn [split_lines] in Hs.
    destruct (Ascii.eqb c newline).
    + inversion Hs; subst. destruct p; [reflexivity|discriminate].
    + destruct (split_lines s) as [|l0 ls0] eqn:E.
      * inversion Hs; subst. destruct p as [|a p]; [reflexivity|].
        simpl in *. destruct (Ascii.eqb a c); [|discriminate].
        destruct p; [reflexivity|discriminate].
      * inversion Hs; subst. destruct p as [|a p]; [reflexivity|].
        simpl in *. destruct (Ascii.eqb a c); [|discriminate].
        eapply IH; eauto.
Qed.

(** A marker found in a line is found in the text. *)
Lemma contains_line m s : forall l,
  l ∈ split_lines s -> contains m l = true -> contains m s = true.
Proof.
  induction s as [|c s IH]; intros l Hin Hl.
  - simpl in Hin. apply list_elem_of_singleton in Hin. now subst.
  - cbn [split_lines] in Hin.
    destruct (Ascii.eqb c newline).
    + apply elem_of_cons in Hin as [->|Hin].
      * destruct m; [apply contains_empty|discriminate].
      * apply contains_tail. eauto.
    + destruct (split_lines s) as [|l0 ls0] eqn:E.
      { exfalso. eapply split_lines_nonempty; eauto. }
      apply elem_of_cons in Hin as [->|Hin].
      * rewrite contains_String in Hl. apply orb_true_iff in Hl as [Hl|Hl].
        -- rewrite contains_String. apply orb_true_iff. left.
           destruct m as [|a m]; [reflexivity|].
           simpl in *. destruct (Ascii.eqb a c); [|discriminate].
           eapply first_line_prefix; eauto.
        -- apply contains_tail. apply (IH l0); [left|assumption].
      * apply contains_tail. apply (IH l); [now right|assumption].
Qed.

(** A text without the marker has no line with it. *)
Lemma unmarked_lines m s f :
  contains m s = false ->
  map (fun l => if contains m l then f l else l) (split_lines s) = split_lines s.
Proof.
  intros H. rewrite <- (map_id (split_lines s)) at 2.
  apply map_ext_in. intros l Hin.
  destruct (contains m l) eqn:E; [|reflexivity].
  apply list_elem_of_In in Hin.
  rewrite (contains_line m s l Hin E) in H. discriminate.
Qed.

(** Lines hold no newline, and a text without newline is one line. *)
Lemma lines_have_no_newline s : forall l,
  l ∈ split_lines s -> has_char newline l = false.
Proof.
  induction s as [|c s IH]; intros l Hin.
  - simpl in Hin. apply list_elem_of_singleton in Hin. now subst.
  - cbn [split_lines] in Hin.
    destruct (Ascii.eqb c newline) eqn:Ec.
    + apply elem_of_cons in Hin as [->|Hin]; [reflexivity|eauto].
    + destruct (split_lines s) as [|l0 ls0] eqn:E.
      { exfalso. eapply split_lines_nonempty; eauto. }
      apply elem_of_cons in Hin as [->|Hin].
      * simpl. rewrite Ec. apply IH. now left.
      * apply IH. now right.
Qed.

Lemma split_one_line s : has_char newline s = false -> split_lines s = [s].
Proof.
  induction s as [|c s IH]; intros H; [reflexivity|].
  simpl in H. apply orb_false_iff in H as [Hc Hs].
  cbn [split_lines]. rewrite Hc, (IH Hs). reflexivity.
Qed.

Lemma has_char_app c s t :
  has_char c (s +:+ t) = has_char c s || has_char c t.
Proof.
  induction s as [|a s IH]; [reflexivity|].
  rewrite append_String. cbn [has_char]. now rewrite IH, orb_assoc.
Qed.

End StrFacts.

(* ====================================================================== *)
(** * Facts about [re.sub] and the merge                                   *)
(* ====================================================================== *)

Module MergeFacts.
Import Str StrFacts.

Lemma compile_literal r :
  has_char backslash r = false -> Re.compile_repl r = Returns (fun _ => r).
Proof. intros H. unfold Re.compile_repl. now rewrite H. Qed.

Lemma sub_line_literal m r text :
  has_char backslash r = false ->
  Re.sub_line m r text = Returns (replace_lines m r text).
Proof. intros H. unfold Re.sub_line. now rewrite (compile_literal r H). Qed.

(** Without the marker in the text, nothing is substituted: the call
    returns the text, unless the replacement is refused. *)
Lemma sub_line_unmarked m r text :
  contains m text = false ->
  Re.sub_line m r text =
    match Re.compile_repl r with
    | Returns _ => Returns text
    | Raises e => Raises e
    end.
Proof.
  intros H. unfold Re.sub_line.
  destruct (Re.compile_repl r) as [f|e]; [|reflexivity].
  now rewrite (unmarked_lines m text f H), join_split.
Qed.

Lemma join_lines_app l1 l2 :
  l1 <> [] -> l2 <> [] ->
  join_lines (l1 ++ l2) = join_lines l1 +:+ String newline (join_lines l2).
Proof.
  induction l1 as [|x l1 IH]; intros H1 H2; [congruence|].
  destruct l1 as [|y l1].
  - simpl app. now rewrite join_lines_cons.
  - change ((x :: y :: l1) ++ l2) with (x :: ((y :: l1) ++ l2)).
    rewrite join_lines_cons by discriminate.
    rewrite IH by (discriminate || assumption).
    rewrite (join_lines_cons x (y :: l1)) by discriminate.
    now rewrite append_assoc, append_String.
Qed.

Lemma flat_map_nonempty {A B} (F : A -> list B) ls :
  (forall l, F l <> []) -> ls <> [] -> flat_map F ls <> [].
Proof.
  intros HF Hls. destruct ls as [|l ls]; [congruence|].
  simpl. specialize (HF l). destruct (F l); [congruence|discriminate].
Qed.

Lemma join_flat_map {A} (F : A -> list string) ls :
  (forall l, F l <> []) ->
  join_lines (flat_map F ls) = join_lines (map (fun l => join_lines (F l)) ls).
Proof.
  intros HF. induction ls as [|l ls IH]; [reflexivity|].
  destruct ls as [|l' ls].
  - simpl. now rewrite app_nil_r.
  - change (flat_map F (l :: l' :: ls)) with (F l ++ flat_map F (l' :: ls)).
    rewrite join_lines_app;
      [|apply HF|apply flat_map_nonempty; [assumption|discriminate]].
    rewrite IH.
    change (map (fun l0 => join_lines (F l0)) (l :: l' :: ls))
      with (join_lines (F l) :: map (fun l0 => join_lines (F l0)) (l' :: ls)).
    now rewrite join_lines_cons by discriminate.
Qed.

Lemma split_app_newline s t :
  split_lines (s +:+ String newline t) = split_lines s ++ split_lines t.
Proof.
  induction s as [|c s IH].
  - change (EmptyString +:+ String newline t) with (String newline t).
    cbn [split_lines]. now rewrite Ascii.eqb_refl.
  - rewrite append_String. cbn [split_lines].
    destruct (Ascii.eqb c newline); rewrite IH; [reflexivity|].
    pose proof (split_lines_nonempty s) as Hne.
    destruct (split_lines s); [congruence|reflexivity].
Qed.

Lemma split_join ls :
  ls <> [] -> split_lines (join_lines ls) = flat_map split_lines ls.
Proof.
  induction ls as [|l ls IH]; intros H; [congruence|].
  destruct ls as [|l' ls].
  - simpl. now rewrite app_nil_r.
  - rewrite join_lines_cons by discriminate.
    rewrite split_app_newline, IH by discriminate. reflexivity.
Qed.

(** Two substitutions in a row, when the first replacement does not hold
    the second marker: one pass over the lines of the text. *)
Lemma replace_twice m1 r1 m2 r2 text :
  contains m2 r1 = false ->
  replace_lines m2 r2 (replace_lines m1 r1 text) =
  join_lines
    (map (fun l => if contains m1 l then r1
                   else if contains m2 l then r2 else l)
         (split_lines text)).
Proof.
  intros Hr1. unfold replace_lines.
  set (g1 := fun l => if contains m1 l then r1 else l).
  set (g2 := fun l => if contains m2 l then r2 else l).
  set (L := split_lines text).
  assert (HL : forall l, l ∈ L -> has_char newline l = false)
    by apply lines_have_no_newline.
  assert (Hne : map g1 L <> []).
  { pose proof (split_lines_nonempty text). subst L.
    destruct (split_lines text); [congruence|discriminate]. }
  rewrite (split_join _ Hne). clear Hne.
  assert (Hflat : forall K, map g2 (flat_map split_lines (map g1 K)) =
                            flat_map (fun l => map g2 (split_lines (g1 l))) K).
  { induction K as [|k K IH]; [reflexivity|].
    simpl. now rewrite map_app, IH. }
  rewrite Hflat, join_flat_map.
  2:{ intros l Hl. apply map_eq_nil in Hl.
      now apply split_lines_nonempty in Hl. }
  f_equal. apply map_ext_in. intros l Hin.
  apply list_elem_of_In in Hin. unfold g1.
  destruct (contains m1 l).
  - unfold g2. rewrite (unmarked_lines m2 r1 (fun _ => r2) Hr1).
    apply join_split.
  - rewrite (split_one_line l (HL l Hin)). reflexivity.
Qed.

End MergeFacts.

(* ====================================================================== *)
(** * The template merge                                                   *)
(* ====================================================================== *)

Section Merge.
Import Str StrFacts MergeFacts.

Lemma lift_returns_bind {A B} (a : A) (f : A -> Py B) :
  lift (Returns a) ≫= f = mkPy (trace (f a)) (result (f a)).
Proof. reflexivity. Qed.

Lemma backslash_is_not_newline : Ascii.eqb newline backslash = false.
Proof. reflexivity. Qed.

(** A replacement without backslash is accepted as it is. *)
Lemma literal_is_accepted r :
  has_char backslash r = false -> exists f, Re.compile_repl r = Returns f.
Proof. intros H. eexists. now apply compile_literal. Qed.

Lemma joined_replacement_literal cam robjs :
  has_char backslash cam = false ->
  has_char backslash robjs = false ->
  has_char backslash (cam +:+ String newline robjs) = false.
Proof.
  intros Hc Ho. rewrite has_char_app, Hc. cbn [has_char orb].
  now rewrite backslash_is_not_newline, Ho.
Qed.

End Merge.

(** C2, as the specification states it, fails: with two lines holding the
    content marker, [Project.merge] replaces both, where the merge that
    substitutes only the first match leaves the second. *)
Lemma merge_replaces_more_than_first_match :
  let template :=
    "RaytracingContent" +:+ String Str.newline "RaytracingContent" in
  result (Project.merge "C" ["O"] template)
    = Returns ("C" +:+ String Str.newline
                 ("O" +:+ String Str.newline ("C" +:+ String Str.newline "O")))
  /\ result (Project.merge "C" ["O"] template)
       <> Returns (Spec.merge_first_match "C" ["O"] template).
Proof. split; [reflexivity|]. vm_compute. discriminate. Qed.

(** C2 (amended): for a camera text and object texts without backslash, the
    camera text not holding the content marker: when the camera marker is in
    the template, every line holding it is replaced by the camera text and
    every other line holding the content marker by the newline-joined object
    texts; when it is not, every line holding the content marker is replaced
    by the camera text, a newline and the joined object texts. *)
Theorem merge_replaces_every_marked_line (cam : string)
    (objstrings : list string) (template : string) :
  Str.has_char Str.backslash cam = false ->
  Str.has_char Str.backslash (Str.join_lines objstrings) = false ->
  Str.contains Project.content_marker cam = false ->
  Project.merge cam objstrings template =
    ret (Str.join_lines
           (map (fun line =>
                   if Str.contains Project.camera_marker template then
                     if Str.contains Project.camera_marker line then cam
                     else if Str.contains Project.content_marker line
                          then Str.join_lines objstrings
                          else line
                   else
                     if Str.contains Project.content_marker line
                     then cam +:+ String Str.newline (Str.join_lines objstrings)
                     else line)
                (Str.split_lines template))).
Proof.
  intros Hcam Hobjs Hfree. unfold Project.merge.
  destruct (Str.contains Project.camera_marker template).
  - rewrite (MergeFacts.sub_line_literal _ cam template Hcam).
    rewrite lift_returns_bind.
    rewrite (MergeFacts.sub_line_literal _ _ _ Hobjs).
    rewrite (MergeFacts.replace_twice _ _ _ _ _ Hfree). reflexivity.
  - rewrite MergeFacts.sub_line_literal
      by now apply joined_replacement_literal.
    reflexivity.
Qed.

Lemma merge_replaces_every_marked_line_witness :
  Project.merge "camera {}" ["object {}"; "light {}"] Sample.template_text =
    ret ("// header" +:+ String Str.newline
         ("camera {}" +:+ String Str.newline
          ("object {}" +:+ String Str.newline
           ("light {}" +:+ String Str.newline "// footer")))).
Proof.
  exact (merge_replaces_every_marked_line
           "camera {}" ["object {}"; "light {}"] Sample.template_text
           eq_refl eq_refl eq_refl).
Defined.

(** ** Replacement texts that [re.sub] accepts *)

Module TemplateFacts.
Import Str StrFacts MergeFacts.

(** The parser does not stop on a text that it read to its end. *)
Lemma run_not_lone t items :
  Re.run Re.Normal t = Returns items -> Re.lone_backslash t = false.
Proof.
  intros H. destruct (Re.lone_backslash t) eqn:Hl; [|reflexivity].
  apply String.eqb_eq in Hl. subst t. discriminate H.
Qed.

Lemma lone_backslash_before_newline s t :
  Re.lone_backslash (s +:+ String newline t) = false.
Proof.
  unfold Re.lone_backslash. destruct s as [|a s]; [reflexivity|].
  rewrite append_String. cbn [String.eqb].
  destruct (Ascii.eqb a backslash); [|reflexivity].
  destruct s; reflexivity.
Qed.

(** After a text that the parser accepts, a newline brings it back to
    where it starts. *)
Lemma step_newline st items :
  Re.finish st = Returns items ->
  exists more, Re.step st newline = (Re.Normal, more).
Proof.
  destruct st as [| | | |v more|d|d d'|e]; cbn [Re.finish]; try discriminate.
  - intros _. eexists. reflexivity.
  - intros _. destruct more; eexists; reflexivity.
  - destruct (Ascii.eqb d "1") eqn:Hd; [|discriminate].
    intros _. cbn [Re.step]. rewrite Hd. eexists. reflexivity.
Qed.

(** Two texts that the parser accepts, with a newline between them *)
Lemma run_append st s t items items' :
  Re.run st s = Returns items ->
  Re.run Re.Normal t = Returns items' ->
  exists all, Re.run st (s +:+ String newline t) = Returns all.
Proof.
  intros Hs Ht. revert st items Hs.
  induction s as [|c s IH]; intros st items Hs.
  - cbn [Re.run] in Hs. destruct (step_newline st items Hs) as [more Hstep].
    change (EmptyString +:+ String newline t) with (String newline t).
    cbn [Re.run]. rewrite (run_not_lone t items' Ht). cbn [andb].
    rewrite Hstep, Ht. eauto.
  - rewrite append_String. cbn [Re.run] in *.
    rewrite lone_backslash_before_newline. cbn [andb].
    destruct (Re.lone_backslash s && negb (Re.opens_escape st c));
      [discriminate|].
    destruct (Re.step st c) as [st' first].
    destruct st' as [| | | |v more|d|d d'|e]; try discriminate;
      match type of Hs with
      | match Re.run ?st' s with _ => _ end = _ =>
          destruct (Re.run st' s) as [rest|e'] eqn:Hrest; [|discriminate];
          destruct (IH st' rest Hrest) as [all Hall]; rewrite Hall; eauto
      end.
Qed.

(** A text without backslash is read to its end. *)
Lemma run_literal s :
  has_char backslash s = false -> exists items, Re.run Re.Normal s = Returns items.
Proof.
  induction s as [|c s IH]; intros H; [eexists; reflexivity|].
  cbn [has_char] in H. apply orb_false_iff in H as [Hc Hs].
  destruct (IH Hs) as [items Hitems].
  cbn [Re.run Re.step Re.step_normal].
  rewrite (run_not_lone s items Hitems). cbn [andb].
  unfold Re.step_normal. rewrite Hc, Hitems. eauto.
Qed.

Lemma compile_accepted r :
  (exists f, Re.compile_repl r = Returns f) <->
  (exists items, Re.run Re.Normal r = Returns items).
Proof.
  unfold Re.compile_repl, Re.parse_template.
  destruct (has_char backslash r) eqn:Hb.
  - destruct (Re.run Re.Normal r) as [items|e]; split; intros [x Hx];
      try discriminate; eauto.
  - split; [intros _; now apply run_literal|eauto].
Qed.

(** The camera text and the joined object texts, each accepted as a
    replacement, are accepted with a newline between them. *)
Lemma compile_joined cam robjs :
  (exists f, Re.compile_repl cam = Returns f) ->
  (exists f, Re.compile_repl robjs = Returns f) ->
  exists f, Re.compile_repl (cam +:+ String newline robjs) = Returns f.
Proof.
  intros Hc Ho. apply compile_accepted in Hc as [items Hc].
  apply compile_accepted in Ho as [items' Ho].
  apply compile_accepted. exact (run_append _ _ _ _ _ Hc Ho).
Qed.

Lemma sub_line_returns m r text out :
  Re.sub_line m r text = Returns out -> exists f, Re.compile_repl r = Returns f.
Proof.
  unfold Re.sub_line. destruct (Re.compile_repl r); [eauto|discriminate].
Qed.

(** A merge that returns has had its replacement texts accepted. *)
Lemma merge_returns_accepted cam objstrings template merged :
  result (Project.merge cam objstrings template) = Returns merged ->
  exists f, Re.compile_repl (cam +:+ String newline (join_lines objstrings))
            = Returns f.
Proof.
  unfold Project.merge.
  destruct (contains Project.camera_marker template).
  - unfold mbind, Py_bind. cbn [lift result].
    destruct (Re.sub_line Project.camera_marker cam template)
      as [first|e] eqn:Hfirst; cbn [result lift]; [|discriminate].
    intros Hsecond.
    apply compile_joined; eapply sub_line_returns; eassumption.
  - cbn [lift result]. apply sub_line_returns.
Qed.

(** The merge prints nothing. *)
Lemma merge_trace cam objstrings template :
  trace (Project.merge cam objstrings template) = [].
Proof.
  unfold Project.merge.
  destruct (contains Project.camera_marker template); [|reflexivity].
  unfold mbind, Py_bind. cbn [lift result trace].
  destruct (Re.sub_line Project.camera_marker cam template); reflexivity.
Qed.

End TemplateFacts.

(** The texts of a merge that returned are never refused.  A text that
    [re.sub] refuses as a replacement, here an object text that is a lone
    backslash, makes every merge raise, also on a template with neither
    marker, where nothing is to be substituted. *)
Lemma merge_without_markers_may_raise :
  let objstrings := [String Str.backslash EmptyString] in
  Str.contains Project.camera_marker "plain text" = false
  /\ Str.contains Project.content_marker "plain text" = false
  /\ result (Project.merge "camera" objstrings "plain text") = Raises re_error
  /\ result (Project.merge "camera" objstrings Sample.template_text)
       = Raises re_error.
Proof. repeat split; try reflexivity. Qed.

(** C9: the merge is idempotent on its own output.  When a merge has
    returned a text that holds neither marker, merging this text again, with
    the same camera text and object texts, substitutes nothing and returns
    it unchanged, so that merging twice equals merging once; and so it is
    for every text that holds neither marker.  No condition is put on the
    texts: those of a merge that returned have been accepted by [re.sub]. *)
Theorem merge_without_markers_is_identity (cam : string)
    (objstrings : list string) (template merged : string) :
  result (Project.merge cam objstrings template) = Returns merged ->
  Str.contains Project.camera_marker merged = false ->
  Str.contains Project.content_marker merged = false ->
  Project.merge cam objstrings merged = ret merged
  /\ (Project.merge cam objstrings template ≫= Project.merge cam objstrings)
     = Project.merge cam objstrings template
  /\ (forall text,
        Str.contains Project.camera_marker text = false ->
        Str.contains Project.content_marker text = false ->
        Project.merge cam objstrings text = ret text).
Proof.
  intros Hmerged Hcam Hcontent.
  destruct (TemplateFacts.merge_returns_accepted _ _ _ _ Hmerged) as [f Hf].
  assert (Hany : forall text,
            Str.contains Project.camera_marker text = false ->
            Str.contains Project.content_marker text = false ->
            Project.merge cam objstrings text = ret text).
  { intros text Hc Ht. unfold Project.merge. rewrite Hc.
    rewrite (MergeFacts.sub_line_unmarked _ _ _ Ht), Hf. reflexivity. }
  split; [exact (Hany merged Hcam Hcontent)|]. split; [|exact Hany].
  pose proof (TemplateFacts.merge_trace cam objstrings template) as Htrace.
  destruct (Project.merge cam objstrings template) as [events outcome] eqn:Hm.
  cbn [result trace] in Hmerged, Htrace. subst events outcome.
  unfold mbind, Py_bind. cbn [result trace].
  rewrite (Hany merged Hcam Hcontent). reflexivity.
Qed.


(** A template with both markers, and an object text with an escape that
    [re.sub] reads as a tabulation: the merged text holds no marker, and
    merging it again changes nothing. *)
Lemma merge_without_markers_is_identity_witness :
  let objstrings := ["object {}"; "tab\there"] in
  let merged :=
    "// header" +:+ String Str.newline
    ("camera {}" +:+ String Str.newline
     ("object {}" +:+ String Str.newline
      ("tab" +:+ String "009" "here" +:+ String Str.newline "// footer"))) in
  result (Project.merge "camera {}" objstrings Sample.template_text)
    = Returns merged
  /\ Project.merge "camera {}" objstrings merged = ret merged
  /\ (Project.merge "camera {}" objstrings Sample.template_text
        ≫= Project.merge "camera {}" objstrings)
     = Project.merge "camera {}" objstrings Sample.template_text.
Proof.
  intros objstrings merged.
  assert (H : result (Project.merge "camera {}" objstrings Sample.template_text)
              = Returns merged) by (vm_compute; reflexivity).
  destruct (merge_without_markers_is_identity "camera {}" objstrings
              Sample.template_text merged H eq_refl eq_refl) as (H1 & H2 & _).
  split; [exact H|]. split; [exact H1|exact H2].
Defined.

(* ====================================================================== *)
(** * Facts about computations                                             *)
(* ====================================================================== *)

Module PyFacts.

Lemma result_bind {A B} (m : Py A) (f : A -> Py B) :
  result (m ≫= f) =
    match result m with
    | Returns a => result (f a)
    | Raises e => Raises e
    end.
Proof. unfold mbind, Py_bind. now destruct (result m). Qed.

Lemma trace_bind {A B} (m : Py A) (f : A -> Py B) :
  trace (m ≫= f) =
    match result m with
    | Returns a => trace m ++ trace (f a)
    | Raises _ => trace m
    end.
Proof. unfold mbind, Py_bind. now destruct (result m). Qed.

Lemma Py_eq {A} (m n : Py A) :
  trace m = trace n -> result m = result n -> m = n.
Proof. destruct m, n; simpl; congruence. Qed.

Lemma ret_bind {A B} (a : A) (f : A -> Py B) : ret a ≫= f = f a.
Proof. apply Py_eq; [rewrite trace_bind|rewrite result_bind]; reflexivity. Qed.

Lemma bind_raises {A B} (m : Py A) (f : A -> Py B) e :
  result m = Raises e -> result (m ≫= f) = Raises e.
Proof. intros H. now rewrite result_bind, H. Qed.

Lemma bind_returns_inv {A B} (m : Py A) (f : A -> Py B) b :
  result (m ≫= f) = Returns b ->
  exists a, result m = Returns a /\ result (f a) = Returns b.
Proof.
  rewrite result_bind. destruct (result m) as [a|e]; [eauto|discriminate].
Qed.

(** What [try: ... except classes: ...] does with each ending of its body. *)
Lemma try_except_returns {A} (body : Py A) classes handler a :
  result body = Returns a -> try_except body classes handler = body.
Proof. intros H. unfold try_except. now rewrite H. Qed.

Lemma try_except_caught {A} (body : Py A) classes handler e :
  result body = Raises e -> handles classes e = true ->
  try_except body classes handler
    = mkPy (trace body ++ trace (handler e)) (result (handler e)).
Proof. intros H Hc. unfold try_except. now rewrite H, Hc. Qed.

Lemma try_except_uncaught {A} (body : Py A) classes handler e :
  result body = Raises e -> handles classes e = false ->
  try_except body classes handler = body.
Proof. intros H Hc. unfold try_except. now rewrite H, Hc. Qed.

End PyFacts.

(* ====================================================================== *)
(** * The dispatcher                                                       *)
(* ====================================================================== *)

Module DispatchFacts.
Import PyFacts.

Lemma switcher_unknown (host : Host) (kind : string) :
  kind ∉ ["Object"; "PointLight"; "Camera"; "AreaLight"] ->
  Handler.switcher host !! kind = None.
Proof.
  intros H. unfold Handler.switcher.
  repeat (rewrite lookup_insert_ne;
          [|intros <-; apply H; repeat constructor]).
  apply lookup_empty.
Qed.

(** The view is looked at and its rendering string is taken, or it is
    skipped: the loop of [Project.render] over one more view. *)
Lemma comprehension_cons get v rest :
  Project.comprehension get (v :: rest) =
    (Project.visibility v ≫= fun visible : bool =>
       if visible
       then get v ≫= fun text =>
            Project.comprehension get rest ≫= fun texts => ret (text :: texts)
       else Project.comprehension get rest).
Proof. reflexivity. Qed.

(** An exception of a visible view leaves the loop, whatever comes after,
    once the views before it have given their strings. *)
Lemma comprehension_raises get before view after e :
  (exists texts, result (Project.comprehension get before) = Returns texts) ->
  Project.visibility view = ret true ->
  result (get view) = Raises e ->
  result (Project.comprehension get (before ++ view :: after)) = Raises e.
Proof.
  intros Hbefore Hvis Hget.
  induction before as [|v before IH].
  - simpl app. cbn [Project.comprehension].
    rewrite Hvis, ret_bind. now apply bind_raises.
  - destruct Hbefore as [texts Hbefore].
    cbn [Project.comprehension] in Hbefore.
    apply bind_returns_inv in Hbefore as (visible & Hv & Hbefore).
    change ((v :: before) ++ view :: after)
      with (v :: (before ++ view :: after)).
    cbn [Project.comprehension].
    rewrite result_bind, Hv.
    destruct visible.
    + apply bind_returns_inv in Hbefore as (text & Ht & Hbefore).
      apply bind_returns_inv in Hbefore as (texts' & Hts & _).
      rewrite result_bind, Ht, result_bind.
      rewrite IH by eauto. reflexivity.
    + apply IH. eauto.
Qed.

(** A visible view that gives its string leaves the loop to the views
    after it, once the views before it have given theirs. *)
Lemma comprehension_continues get before view after texts text :
  result (Project.comprehension get before) = Returns texts ->
  Project.visibility view = ret true ->
  result (get view) = Returns text ->
  result (Project.comprehension get (before ++ view :: after)) =
    match result (Project.comprehension get after) with
    | Returns rest => Returns (texts ++ text :: rest)
    | Raises e => Raises e
    end.
Proof.
  intros Hbefore Hvis Hget. revert texts Hbefore.
  induction before as [|v before IH]; intros texts Hbefore.
  - injection Hbefore as <-. simpl app. cbn [Project.comprehension].
    rewrite Hvis, ret_bind, result_bind, Hget, result_bind.
    destruct (result (Project.comprehension get after)); reflexivity.
  - cbn [Project.comprehension] in Hbefore.
    apply bind_returns_inv in Hbefore as (visible & Hv & Hbefore).
    change ((v :: before) ++ view :: after)
      with (v :: (before ++ view :: after)).
    cbn [Project.comprehension].
    rewrite result_bind, Hv.
    destruct visible.
    + apply bind_returns_inv in Hbefore as (t & Ht & Hbefore).
      apply bind_returns_inv in Hbefore as (texts' & Hts & [= <-]).
      rewrite result_bind, Ht, result_bind.
      rewrite (IH texts' Hts).
      destruct (result (Project.comprehension get after)); reflexivity.
    + apply IH. exact Hbefore.
Qed.

(** An exception of the loop over the views leaves [Project.render], when
    the renderer module is found, the template is there and the default
    camera has been rendered. *)
Lemma render_raises_in_loop (host : Host) (obj : ProjectObj)
    (external : bool) (module : gmap string pyfun) (e : exn) :
  renderers host !! Renderer obj = Some module ->
  Template obj <> EmptyString ->
  is_Some (files host !! Template obj) ->
  (exists cam,
     result (Project.default_camera host obj (mkHandler (Renderer obj) module))
       = Returns cam) ->
  result (Project.object_strings host obj (mkHandler (Renderer obj) module))
    = Raises e ->
  result (Project.render host obj external) = Raises e.
Proof.
  intros Hmodule Htemplate Hfile [cam Hcam] Hloop.
  unfold Project.render, Handler.__init__. rewrite Hmodule.
  rewrite ret_bind.
  rewrite (try_except_returns _ _ _ (Some (mkHandler (Renderer obj) module)))
    by reflexivity.
  rewrite ret_bind.
  assert (Hassert : negb (String.eqb (Template obj) EmptyString)
                    && bool_decide (is_Some (files host !! Template obj)) = true).
  { apply andb_true_iff. split.
    - apply negb_true_iff. apply String.eqb_neq. exact Htemplate.
    - apply bool_decide_eq_true_2. exact Hfile. }
  rewrite Hassert. cbn [assert].
  rewrite ret_bind, result_bind. cbn [emit result].
  rewrite result_bind, Hcam.
  apply bind_raises. exact Hloop.
Qed.

End DispatchFacts.

Section Dispatcher.
Import PyFacts DispatchFacts.
Context (host : Host).

Lemma visibility_shown v b :
  result (Project.visibility v) = Returns b -> Spec.shown v = b.
Proof.
  unfold Project.visibility, Spec.shown.
  destruct v as [? ? [source|] ? ?]; cbn; [|discriminate].
  destruct source as [? ? ? ? ? [[vp|]|] ? ? ? ? ? ? ? ? ? ? ?]; cbn;
    congruence.
Qed.

(** The dispatcher never lets one of the classes it names escape. *)
Lemma get_rendering_string_raises self view e :
  result (Handler.get_rendering_string host self view) = Raises e ->
  handles Handler.caught e = false
  /\ result (Handler.dispatch host self view) = Raises e.
Proof.
  unfold Handler.get_rendering_string, try_except.
  destruct (result (Handler.dispatch host self view)) as [s|e'] eqn:E.
  - rewrite E. discriminate.
  - destruct (handles Handler.caught e') eqn:Hc.
    + cbn. discriminate.
    + rewrite E. intros [= ->]. auto.
Qed.

(** When no view raises outside these classes, the loop gives one string
    for each view that is shown. *)
Lemma comprehension_returns (get : View -> Py string) views :
  Forall (fun v => exists b, result (Project.visibility v) = Returns b) views ->
  Forall (fun v => exists s, result (get v) = Returns s) views ->
  exists texts,
    result (Project.comprehension get views) = Returns texts
    /\ length texts = length (filter (fun v => Spec.shown v = true) views).
Proof.
  induction 1 as [|v views [b Hb] _ IH]; intros Hget.
  - exists []. split; reflexivity.
  - apply Forall_cons in Hget as [[s Hs] Hget].
    destruct (IH Hget) as (texts & Htexts & Hlen).
    pose proof (visibility_shown v b Hb) as Hshown.
    cbn [Project.comprehension]. rewrite result_bind, Hb.
    destruct b.
    + exists (s :: texts).
      rewrite !result_bind, Hs, result_bind, Htexts.
      split; [reflexivity|].
      rewrite filter_cons_True by assumption. simpl. now rewrite Hlen.
    + exists texts. split; [assumption|].
      rewrite filter_cons_False by (rewrite Hshown; discriminate).
      assumption.
Qed.

End Dispatcher.

(** C1, as the specification states it, fails: a view whose source has a
    kind that is not in the table of [get_rendering_string] (here the kind
    of a light that this version does not know) makes the dispatcher raise
    [KeyError] instead of returning the empty string. *)
Lemma dispatch_of_unknown_kind_is_not_caught :
  let view := Sample.view_of (Sample.light "Sun" "SunskyLight" true) EmptyString in
  Handler.get_rendering_string Sample.host Sample.handler view
    = mkPy [] (Raises KeyError)
  /\ result (Handler.get_rendering_string Sample.host Sample.handler view)
       <> Returns EmptyString.
Proof. split; [reflexivity|]. vm_compute. discriminate. Qed.

(** The classes that the dispatcher names never leave it, and when no view
    raises outside them the loop of the render gives one string for each
    shown view. *)
Lemma loop_survives_caught_exceptions (host : Host) (self : RendererHandler) :
  (forall view e,
     result (Handler.get_rendering_string host self view) = Raises e ->
     e <> AttributeError /\ e <> TypeError /\ e <> AssertionError)
  /\ (forall views,
        Forall (fun v => exists b, result (Project.visibility v) = Returns b)
               views ->
        Forall (fun v => forall e,
                  result (Handler.dispatch host self v) = Raises e ->
                  e = AttributeError \/ e = TypeError \/ e = AssertionError)
               views ->
        exists texts,
          result (Project.comprehension
                    (Handler.get_rendering_string host self) views)
            = Returns texts
          /\ length texts
               = length (filter (fun v => Spec.shown v = true) views)).
Proof.
  split.
  - intros view e H. apply get_rendering_string_raises in H as [H _].
    repeat split; intros ->; discriminate.
  - intros views Hvis Hok. apply comprehension_returns; [assumption|].
    eapply Forall_impl; [exact Hok|]. intros v Hv. cbn beta in Hv.
    unfold Handler.get_rendering_string, try_except.
    destruct (result (Handler.dispatch host self v)) as [s|e] eqn:E.
    + exists s. assumption.
    + destruct (Hv e eq_refl) as [->|[->| ->]]; cbn; eauto.
Qed.

(** C1 (amended): when the dispatch of a view raises [AttributeError],
    [TypeError] or [AssertionError], the exception is caught at the
    dispatch boundary: a warning naming the view is printed after the
    events of the dispatch, the empty string is the view's result, and the
    loop of the render goes on with the views after it.  When it raises an
    exception of any other class, [get_rendering_string] ends as the
    dispatch did, with no warning; the loop of the render ends with this
    exception whatever the views after it are, and so does
    [Project.render]. *)
Theorem dispatch_catches_three_classes (host : Host)
    (self : RendererHandler) (view : View) (e : exn) :
  result (Handler.dispatch host self view) = Raises e ->
  let get := Handler.get_rendering_string host self in
  (e = AttributeError \/ e = TypeError \/ e = AssertionError ->
   get view
     = mkPy (trace (Handler.dispatch host self view)
               ++ [PrintWarning
                     (Cannot_render_view_skipping
                        (default "<No label>" (v_Label view)) e)])
            (Returns EmptyString)
   /\ forall before after texts,
        result (Project.comprehension get before) = Returns texts ->
        Project.visibility view = ret true ->
        result (Project.comprehension get (before ++ view :: after)) =
          match result (Project.comprehension get after) with
          | Returns rest => Returns (texts ++ EmptyString :: rest)
          | Raises e' => Raises e'
          end)
  /\ (e <> AttributeError -> e <> TypeError -> e <> AssertionError ->
      get view = Handler.dispatch host self view
      /\ (forall before after,
            (exists texts,
               result (Project.comprehension get before) = Returns texts) ->
            Project.visibility view = ret true ->
            result (Project.comprehension get (before ++ view :: after))
              = Raises e)
      /\ (forall obj external module before after,
            renderers host !! Renderer obj = Some module ->
            self = mkHandler (Renderer obj) module ->
            Template obj <> EmptyString ->
            is_Some (files host !! Template obj) ->
            (exists cam,
               result (Project.default_camera host obj self) = Returns cam) ->
            DelayedBuild obj = true ->
            map Project.attributes (Project.all_views obj)
              = before ++ view :: after ->
            (exists texts,
               result (Project.comprehension get before) = Returns texts) ->
            Project.visibility view = ret true ->
            result (Project.render host obj external) = Raises e)).
Proof.
  intros He get. split.
  - intros Hclass.
    assert (Hcaught : handles Handler.caught e = true)
      by (destruct Hclass as [->|[->| ->]]; reflexivity).
    assert (Hview : get view
              = mkPy (trace (Handler.dispatch host self view)
                        ++ [PrintWarning
                              (Cannot_render_view_skipping
                                 (default "<No label>" (v_Label view)) e)])
                     (Returns EmptyString)).
    { unfold get, Handler.get_rendering_string.
      now rewrite (PyFacts.try_except_caught _ _ _ e He Hcaught). }
    split; [exact Hview|].
    intros before after texts Hbefore Hvis.
    apply DispatchFacts.comprehension_continues; [assumption|assumption|].
    rewrite Hview. reflexivity.
  - intros Ha Ht Hs.
    assert (Huncaught : handles Handler.caught e = false)
      by (destruct e; cbn; congruence).
    assert (Hview : get view = Handler.dispatch host self view).
    { unfold get, Handler.get_rendering_string.
      now apply PyFacts.try_except_uncaught with e. }
    assert (Hloop : forall before after,
              (exists texts,
                 result (Project.comprehension get before) = Returns texts) ->
              Project.visibility view = ret true ->
              result (Project.comprehension get (before ++ view :: after))
                = Raises e).
    { intros before after Hbefore Hvis.
      apply DispatchFacts.comprehension_raises; [assumption|assumption|].
      rewrite Hview. exact He. }
    split; [exact Hview|]. split; [exact Hloop|].
    intros obj external module before after Hmodule -> Htemplate Hfile Hcam
           Hdelayed Hviews Hbefore Hvis.
    apply (DispatchFacts.render_raises_in_loop host obj external module e);
      try assumption.
    unfold Project.object_strings. rewrite Hdelayed, Hviews.
    apply Hloop; assumption.
Qed.

(** A part, an area light and a lamp.  With the module of POV-Ray the area
    light raises [AttributeError] ([write_arealight] is missing): it is
    skipped with a warning and the lamp is rendered after it.  With the
    sample module and a power that is no number it raises [ValueError]:
    the loop ends and the render of the project raises [ValueError]. *)
Lemma dispatch_catches_three_classes_witness :
  let cube := Sample.view_of (Sample.part "Cube" true None None) EmptyString in
  let lamp := Sample.view_of (Sample.light "Lamp" "PointLight" true) EmptyString in
  let panel := Sample.view_of (Sample.light "Panel" "AreaLight" true) EmptyString in
  let broken := Sample.view_of Sample.area_light_with_bad_power EmptyString in
  (Handler.get_rendering_string Sample.host Sample.povray_handler panel
     = mkPy [PrintWarning
               (Cannot_render_view_skipping "Panel@Project" AttributeError)]
            (Returns EmptyString)
   /\ result (Project.comprehension
                (Handler.get_rendering_string Sample.host Sample.povray_handler)
                [cube; panel; lamp])
      = Returns ["povray text"; EmptyString; "povray text"])
  /\ (Handler.get_rendering_string Sample.host Sample.handler broken
        = mkPy [] (Raises ValueError)
      /\ result (Project.comprehension
                   (Handler.get_rendering_string Sample.host Sample.handler)
                   [cube; broken; lamp])
         = Raises ValueError
      /\ result (Project.render Sample.host
                   (Sample.project "Sample" true false
                      [ViewObj cube; ViewObj broken; ViewObj lamp]) true)
         = Raises ValueError).
Proof.
  intros cube lamp panel broken. split.
  - destruct (dispatch_catches_three_classes Sample.host Sample.povray_handler
                panel AttributeError eq_refl) as [Hcaught _].
    destruct (Hcaught (or_introl eq_refl)) as [Hview Hloop].
    split; [exact Hview|].
    exact (Hloop [cube] [lamp] ["povray text"] eq_refl eq_refl).
  - destruct (dispatch_catches_three_classes Sample.host Sample.handler
                broken ValueError eq_refl) as [_ Huncaught].
    destruct (Huncaught ltac:(discriminate) ltac:(discriminate)
                        ltac:(discriminate)) as (Hview & Hloop & Hrender).
    split; [exact Hview|]. split.
    + exact (Hloop [cube] [lamp] (ex_intro _ ["object Cube"] eq_refl) eq_refl).
    + apply (Hrender _ true Sample.backend [cube] [lamp]);
        try reflexivity; try discriminate.
      * eexists. reflexivity.
      * eexists. vm_compute. reflexivity.
      * eexists. reflexivity.
Defined.

(** C10: for a view whose source has a name and carries a kind marker that
    is none of [Object], [PointLight], [Camera] and [AreaLight], the table
    lookup of [get_rendering_string] raises [KeyError]; the [except] clause
    names only [AttributeError], [TypeError] and [AssertionError], so the
    exception leaves the dispatcher, no warning is printed, and the loop of
    the render over a project's views ends with this exception when the
    view is shown. *)
Theorem unknown_kind_raises_KeyError (host : Host) (self : RendererHandler)
    (view : View) (source : Source) (kind name : string) :
  v_Source view = Some source ->
  s_Name source = Some name ->
  s_Proxy_type source = Some kind ->
  kind ∉ ["Object"; "PointLight"; "Camera"; "AreaLight"] ->
  Handler.get_rendering_string host self view = mkPy [] (Raises KeyError)
  /\ (forall e, handles Handler.caught e = true <->
                e = AttributeError \/ e = TypeError \/ e = AssertionError)
  /\ (forall before after,
        (exists texts,
           result (Project.comprehension
                     (Handler.get_rendering_string host self) before)
             = Returns texts) ->
        Project.visibility view = ret true ->
        result (Project.comprehension
                  (Handler.get_rendering_string host self)
                  (before ++ view :: after))
          = Raises KeyError).
Proof.
  intros Hsource Hname Hkind Hunknown.
  assert (H : Handler.get_rendering_string host self view
              = mkPy [] (Raises KeyError)).
  { unfold Handler.get_rendering_string, Handler.dispatch.
    rewrite Hsource. cbn [getattr]. rewrite PyFacts.ret_bind.
    rewrite Hname, Hkind. cbn [getattr default]. rewrite PyFacts.ret_bind.
    change (id kind) with kind.
    rewrite (DispatchFacts.switcher_unknown host kind Hunknown).
    reflexivity. }
  split; [exact H|]. split.
  - intros e. split.
    + destruct e; cbn; try discriminate; auto.
    + intros [->|[->| ->]]; reflexivity.
  - intros before after Hbefore Hvis.
    apply DispatchFacts.comprehension_raises; [assumption|assumption|].
    now rewrite H.
Qed.

Lemma unknown_kind_raises_KeyError_witness :
  Handler.get_rendering_string Sample.host Sample.handler
    (Sample.view_of (Sample.light "Sun" "SunskyLight" true) EmptyString)
    = mkPy [] (Raises KeyError).
Proof.
  refine (proj1 (unknown_kind_raises_KeyError Sample.host Sample.handler
                   (Sample.view_of (Sample.light "Sun" "SunskyLight" true)
                                   EmptyString)
                   (Sample.light "Sun" "SunskyLight" true)
                   "SunskyLight" "Sun" eq_refl eq_refl eq_refl _)).
  intros H. repeat (apply elem_of_cons in H as [H|H]; [discriminate|]).
  now apply elem_of_nil in H.
Defined.

(** C4 fails on the code: [Povray.py] defines four of the five functions of
    the contract and no [write_arealight]; the dispatcher's call for an
    area light does not resolve, [getattr] raises [AttributeError] and the
    view is skipped with a warning. *)
Theorem Povray_lacks_write_arealight
    (bodies : string -> list pyval -> Py string) :
  Povray.module bodies !! "write_arealight" = None
  /\ map (fun name => bool_decide (is_Some (Povray.module bodies !! name)))
         backend_contract
       = [true; true; true; false; true]
  /\ Handler.get_rendering_string Sample.host
       (mkHandler "Povray" (Povray.module bodies))
       (Sample.view_of (Sample.light "Area" "AreaLight" true) EmptyString)
     = mkPy [PrintWarning
               (Cannot_render_view_skipping "Area@Project" AttributeError)]
            (Returns EmptyString).
Proof. repeat split; vm_compute; reflexivity. Qed.

(** With a module that provides [write_arealight], the same view reaches
    the backend. *)
Lemma arealight_reaches_a_complete_backend :
  result (Handler.get_rendering_string Sample.host Sample.handler
            (Sample.view_of (Sample.light "Area" "AreaLight" true) EmptyString))
    = Returns "arealight Area".
Proof. reflexivity. Qed.

(* ====================================================================== *)
(** * Colour and alpha of an object                                        *)
(* ====================================================================== *)

Section ObjectColor.
Context (host : Host).

(** A colour read in a material counts: it is a list of at least one text. *)
Lemma material_color_truthy mat c :
  Handler.material_color mat = Some c -> truthy c = true.
Proof.
  unfold Handler.material_color. destruct mat as [m|]; [|discriminate].
  destruct (bool_decide _); [|discriminate].
  destruct (m_Material m !! "DiffuseColor") as [text|]; [|discriminate].
  intros [= <-]. cbn [truthy].
  destruct (Str.strip ")" (Str.strip "(" text)) as [|a s]; [reflexivity|].
  cbn [Str.split_on]. destruct (Ascii.eqb a ","); [reflexivity|].
  destruct (Str.split_on "," s); reflexivity.
Qed.

(** The colour follows the precedence: that of the material, else the
    display colour, else white. *)
Lemma color_precedence mat vobj :
  Handler.final_color (Handler.display_color vobj (Handler.material_color mat)) =
    match Handler.material_color mat with
    | Some c => c
    | None =>
        match vobj with
        | Some vo =>
            match ShapeColor vo with
            | Some ((_ :: _) as shape_color) => VFloats (take 3 shape_color)
            | _ => VFloats [1.0; 1.0; 1.0]%float
            end
        | None => VFloats [1.0; 1.0; 1.0]%float
        end
    end.
Proof.
  destruct (Handler.material_color mat) as [c|] eqn:E.
  - pose proof (material_color_truthy mat c E) as Hc.
    unfold Handler.display_color, Handler.not_color, Handler.final_color.
    destruct vobj; rewrite Hc; cbn; now rewrite ?Hc.
  - destruct vobj as [vo|]; [|reflexivity].
    cbn. destruct (ShapeColor vo) as [[|x l]|]; reflexivity.
Qed.

(** An alpha of zero is taken for no alpha at all, at both levels. *)
Lemma zero_alpha_counts_as_unset vobj :
  Handler.final_alpha (Handler.display_alpha vobj (Some 0%float))
    = Handler.final_alpha (Handler.display_alpha vobj None).
Proof.
  destruct vobj as [vo|]; [|reflexivity].
  unfold Handler.display_alpha. cbn [Handler.not_alpha].
  change (negb (truthy (VFloat 0))) with true. cbn iota.
  destruct (Transparency vo) as [t|]; [|reflexivity].
  destruct (0 <? t)%Z; reflexivity.
Qed.

End ObjectColor.

(** C6 fails on the code, for alpha: an alpha of 0.0 is falsy and is taken
    for a missing one.  A part whose display transparency is 100 is sent to
    [write_object] with alpha 1.0, the fallback, and a view whose own
    material is fully transparent, of a part with display transparency 50,
    is sent with alpha 0.5, the value of the lower level. *)
Theorem zero_alpha_loses_its_precedence :
  trace (Handler.get_rendering_string Sample.host Sample.handler Sample.glass)
    = [Call "write_object"
         [VStr "Glass"; VMesh Sample.triangle;
          VFloats [1.0; 1.0; 1.0]%float; VFloat 1.0]]
  /\ Handler.display_alpha
       (Some (mkViewProvider true None (Some 100%Z))) None = Some 0%float
  /\ trace (Handler.get_rendering_string Sample.host Sample.handler
              Sample.clear_view)
     = [Call "write_object"
          [VStr "Pane"; VMesh Sample.triangle;
           VStrs ["0.5"; " 0.5"; " 0.5"]; VFloat 0.5]]
  /\ result (Handler.material_alpha Sample.host (Some Sample.clear_material))
     = Returns (Some 0%float).
Proof. repeat split; vm_compute; reflexivity. Qed.

(* ====================================================================== *)
(** * The render of a project                                              *)
(* ====================================================================== *)



Module RenderFacts.
Import PyFacts.

Lemma visibility_trace v : trace (Project.visibility v) = [].
Proof.
  unfold Project.visibility.
  destruct v as [? ? [source|] ? ?]; cbn; [|reflexivity].
  destruct source as [? ? ? ? ? [[vp|]|] ? ? ? ? ? ? ? ? ? ? ?]; reflexivity.
Qed.

Lemma attrgetter_trace v : trace (Project.attrgetter_ViewResult v) = [].
Proof. unfold Project.attrgetter_ViewResult. now destruct (v_ViewResult v). Qed.

(** Reading the cached strings emits nothing. *)
Lemma cached_strings_trace views :
  trace (Project.comprehension Project.attrgetter_ViewResult views) = [].
Proof.
  induction views as [|v views IH]; [reflexivity|].
  cbn [Project.comprehension].
  rewrite trace_bind, visibility_trace.
  destruct (result (Project.visibility v)) as [[|]|]; cbn [app];
    [|assumption|reflexivity].
  rewrite trace_bind, attrgetter_trace.
  destruct (result (Project.attrgetter_ViewResult v)); [|reflexivity].
  cbn [app]. rewrite trace_bind, IH.
  destruct (result (Project.comprehension _ views)); reflexivity.
Qed.

(** The strings of the loop, when every shown view gives one. *)
Lemma comprehension_map (get : View -> Py string) (text_of : View -> string)
    views :
  Forall (fun v => exists b, result (Project.visibility v) = Returns b) views ->
  Forall (fun v => Spec.shown v = true -> result (get v) = Returns (text_of v))
         views ->
  result (Project.comprehension get views)
    = Returns (map text_of (filter (fun v => Spec.shown v = true) views)).
Proof.
  induction 1 as [|v views [b Hb] _ IH]; intros Hget; [reflexivity|].
  apply Forall_cons in Hget as [Hv Hget].
  pose proof (visibility_shown v b Hb) as Hshown.
  cbn [Project.comprehension]. rewrite result_bind, Hb.
  destruct b.
  - rewrite !result_bind, (Hv Hshown), result_bind, (IH Hget).
    now rewrite filter_cons_True by assumption.
  - rewrite filter_cons_False by (rewrite Hshown; discriminate).
    now apply IH.
Qed.

(** No handler of the dispatcher reads the cached string of the view. *)
Lemma dispatch_ignores_cache host self cached v :
  Handler.dispatch host self (ViewClass.with_ViewResult cached v)
    = Handler.dispatch host self v.
Proof.
  unfold Handler.dispatch. destruct v as [n l [source|] m c]; [|reflexivity].
  cbn [ViewClass.with_ViewResult v_Source v_Name v_Label v_Material getattr].
  rewrite !ret_bind.
  destruct (s_Name source) as [name|]; [|reflexivity].
  cbn [getattr]. rewrite !ret_bind.
  set (kind := default "Object" (s_Proxy_type source)).
  unfold Handler.switcher.
  destruct (decide (kind = "Object")) as [->|H1];
    [rewrite lookup_insert_eq; reflexivity|rewrite lookup_insert_ne by congruence].
  destruct (decide (kind = "PointLight")) as [->|H2];
    [rewrite lookup_insert_eq; reflexivity|rewrite lookup_insert_ne by congruence].
  destruct (decide (kind = "Camera")) as [->|H3];
    [rewrite lookup_insert_eq; reflexivity|rewrite lookup_insert_ne by congruence].
  destruct (decide (kind = "AreaLight")) as [->|H4];
    [rewrite lookup_insert_eq; reflexivity|rewrite lookup_insert_ne by congruence].
  now rewrite lookup_empty.
Qed.

Lemma get_rendering_string_ignores_cache host self cached v :
  Handler.get_rendering_string host self (ViewClass.with_ViewResult cached v)
    = Handler.get_rendering_string host self v.
Proof.
  unfold Handler.get_rendering_string.
  now rewrite dispatch_ignores_cache.
Qed.

End RenderFacts.

(** C5: in a render call, with [DelayedBuild] true the string of each shown
    view is the one the dispatcher computes in that call, whatever the
    view's cached [ViewResult]; with [DelayedBuild] false the strings are
    the cached [ViewResult] of the shown views, the step emits no event (no
    backend function is entered, no warning is printed) and does not depend
    on the renderer handler. *)
Theorem delayed_build_selects_the_strings (host : Host) (obj : ProjectObj)
    (renderer : RendererHandler) :
  let views := map Project.attributes (Project.all_views obj) in
  let shown_views := filter (fun v => Spec.shown v = true) views in
  (DelayedBuild obj = true ->
     Project.object_strings host obj renderer
       = Project.comprehension (Handler.get_rendering_string host renderer) views
     /\ (forall text_of : View -> string,
           Forall (fun v => exists b, result (Project.visibility v) = Returns b)
                  views ->
           Forall (fun v => Spec.shown v = true ->
                     result (Handler.get_rendering_string host renderer v)
                       = Returns (text_of v)) views ->
           result (Project.object_strings host obj renderer)
             = Returns (map text_of shown_views))
     /\ (forall v cached,
           Handler.get_rendering_string host renderer
             (ViewClass.with_ViewResult cached v)
           = Handler.get_rendering_string host renderer v))
  /\ (DelayedBuild obj = false ->
        trace (Project.object_strings host obj renderer) = []
        /\ (forall other,
              Project.object_strings host obj other
                = Project.object_strings host obj renderer)
        /\ (forall cached_text : View -> string,
              Forall (fun v => exists b,
                        result (Project.visibility v) = Returns b) views ->
              Forall (fun v => Spec.shown v = true ->
                        v_ViewResult v = Some (cached_text v)) views ->
              result (Project.object_strings host obj renderer)
                = Returns (map cached_text shown_views))).
Proof.
  intros views shown_views. split; intros Hd.
  - unfold Project.object_strings. rewrite Hd. fold views.
    split; [reflexivity|]. split.
    + intros text_of Hvis Hget. now apply RenderFacts.comprehension_map.
    + intros v cached. apply RenderFacts.get_rendering_string_ignores_cache.
  - unfold Project.object_strings. rewrite Hd. fold views.
    split; [apply RenderFacts.cached_strings_trace|].
    split; [reflexivity|].
    intros cached_text Hvis Hcached.
    apply RenderFacts.comprehension_map; [assumption|].
    eapply Forall_impl; [exact Hcached|]. intros v Hv Hshown.
    unfold Project.attrgetter_ViewResult. now rewrite (Hv Hshown).
Qed.

Lemma delayed_build_selects_the_strings_witness :
  result (Project.object_strings Sample.host Sample.cached_project Sample.handler)
    = Returns ["cached cube"; "cached lamp"].
Proof.
  refine (proj2 (proj2 (proj2 (delayed_build_selects_the_strings Sample.host
                   Sample.cached_project Sample.handler) eq_refl))
            (fun v => default EmptyString (v_ViewResult v)) _ _).
  - repeat constructor; eexists; reflexivity.
  - repeat constructor; intros _; reflexivity.
Defined.

(* ====================================================================== *)
(** * The ground plane                                                     *)
(* ====================================================================== *)

Module GroundFacts.

Lemma fold_boxes {A} (f : A -> option BoundBox) l : forall init,
  fold_left (fun bbox a => match f a with
                           | Some b => Box.add bbox b
                           | None => bbox
                           end) l init
  = fold_left Box.add (omap f l) init.
Proof.
  induction l as [|a l IH]; intros init; [reflexivity|].
  cbn [fold_left omap list_omap]. destruct (f a); cbn [fold_left]; apply IH.
Qed.

(** The box of [write_groundplane] is the union over the objects held
    directly in the project's group, shown or not. *)
Lemma scene_bbox_members members :
  Project.scene_bbox members
    = Spec.union_of (omap Spec.source_box (map Project.attributes members)).
Proof.
  unfold Project.scene_bbox, Spec.union_of.
  rewrite (fold_boxes Project.member_BoundBox).
  f_equal. induction members as [|o members IH]; [reflexivity|].
  cbn [omap list_omap map].
  change (Project.member_BoundBox o)
    with (Spec.source_box (Project.attributes o)).
  destruct (Spec.source_box (Project.attributes o)); now rewrite IH.
Qed.

(** Without subgroups, the views of the project are the members of its
    group. *)
Lemma all_group_objs_flat members :
  Forall (fun o => Project.is_group o = false) members ->
  Project.all_group_objs members = members.
Proof.
  induction 1 as [|o members Ho _ IH]; [reflexivity|].
  unfold Project.all_group_objs in *. cbn [flat_map].
  rewrite IH. destruct o; [reflexivity|discriminate].
Qed.

Lemma scene_bbox_flat obj :
  Forall (fun o => Project.is_group o = false) (Group obj) ->
  Project.scene_bbox (Group obj) = Spec.all_sources_bbox obj.
Proof.
  intros H. rewrite scene_bbox_members.
  unfold Spec.all_sources_bbox, Project.all_views.
  now rewrite (all_group_objs_flat _ H).
Qed.

End GroundFacts.

(** C8, as the specification states it, fails: the box of the ground plane
    is not restricted to the visible sources.  In a project whose only view
    is of a hidden part, the union box of the visible sources is void, and
    the code still makes a ground plane around the hidden part and sends it
    to the backend. *)
Lemma groundplane_counts_hidden_sources :
  Box.isValid (Spec.visible_sources_bbox Sample.hidden_project) = false
  /\ Box.isValid (Project.scene_bbox (Group Sample.hidden_project)) = true
  /\ result (Project.write_groundplane Sample.host Sample.hidden_project
               Sample.handler)
     = Returns "object dummygroundplane1"
  /\ result (Project.add_groundplane Sample.host Sample.hidden_project
               Sample.handler [])
     <> Returns [].
Proof. repeat split; try reflexivity. vm_compute. discriminate. Qed.

(** C8 (amended): for a project whose group holds no subgroup, with [bbox]
    the union bounding box of the shapes of the sources of all its views,
    shown or not: when the ground plane is not asked for, nothing is added
    to the object strings; when it is asked for and [bbox] is not valid, the
    ground-plane text is the empty string and nothing is sent to the
    dispatcher; when it is asked for and [bbox] is valid, the geometry sent
    is the closed polyline of five points at height 0 whose corners are
    those of [bbox] moved outwards by half its diagonal length, the first
    point repeated as the last. *)
Theorem groundplane_polyline (host : Host) (obj : ProjectObj)
    (renderer : RendererHandler) (objstrings : list string) :
  Forall (fun o => Project.is_group o = false) (Group obj) ->
  let bbox := Spec.all_sources_bbox obj in
  let margin := (Box.DiagonalLength bbox / 2)%float in
  let p0 := mkVector (XMin bbox - margin) (YMin bbox - margin) 0 in
  let p1 := mkVector (XMax bbox + margin) (YMin bbox - margin) 0 in
  let p2 := mkVector (XMax bbox + margin) (YMax bbox + margin) 0 in
  let p3 := mkVector (XMin bbox - margin) (YMax bbox + margin) 0 in
  (default false (GroundPlane obj) = false ->
     Project.add_groundplane host obj renderer objstrings = ret objstrings)
  /\ (default false (GroundPlane obj) = true ->
      Box.isValid bbox = false ->
        Project.add_groundplane host obj renderer objstrings
          = ret (objstrings ++ [EmptyString]))
  /\ (default false (GroundPlane obj) = true ->
      Box.isValid bbox = true ->
        Project.groundplane_vertices bbox = [p0; p1; p2; p3; p0]
        /\ Project.add_groundplane host obj renderer objstrings
           = (Project.render_polyline host renderer [p0; p1; p2; p3; p0]
                ≫= fun text => ret (objstrings ++ [text]))).
Proof.
  intros Hflat bbox margin p0 p1 p2 p3.
  unfold Project.add_groundplane, Project.write_groundplane.
  rewrite (GroundFacts.scene_bbox_flat obj Hflat). fold bbox.
  split; [|split].
  - intros ->. reflexivity.
  - intros -> ->. reflexivity.
  - intros -> ->. split; reflexivity.
Qed.

Lemma groundplane_polyline_witness :
  Project.groundplane_vertices (Spec.all_sources_bbox Sample.hidden_project)
    = [mkVector (-1.5) (-1.5) 0; mkVector 3.5 (-1.5) 0; mkVector 3.5 2.5 0;
       mkVector (-1.5) 2.5 0; mkVector (-1.5) (-1.5) 0].
Proof.
  refine (proj1 (proj2 (proj2 (groundplane_polyline Sample.host
                   Sample.hidden_project Sample.handler [] _)) eq_refl eq_refl)).
  repeat constructor.
Defined.

(* ====================================================================== *)
(** * The views of a project                                               *)
(* ====================================================================== *)

Module TreeFacts.
Import Spec.

(** Induction on a document object, with the hypothesis for every member
    of a group. *)
Section Induction.
Variable P : DocObject -> Prop.
Hypothesis view_case : forall v, P (ViewObj v).
Hypothesis group_case :
  forall label members, Forall P members -> P (GroupObj label members).

Fixpoint DocObject_members_ind (obj : DocObject) : P obj :=
  match obj with
  | ViewObj v => view_case v
  | GroupObj label members =>
      group_case label members
        ((fix all (l : list DocObject) : Forall P l :=
            match l with
            | [] => @List.Forall_nil _ P
            | o :: l' =>
                @List.Forall_cons _ P o l' (DocObject_members_ind o) (all l')
            end) members)
  end.
End Induction.

Lemma object_paths_group label members :
  object_paths (GroupObj label members) = paths_from 0 members.
Proof. reflexivity. Qed.

Lemma lookup_path_cons i rest members :
  lookup_path (i :: rest) members =
    match members !! i with
    | Some obj => descend rest obj
    | None => None
    end.
Proof.
  cbn [lookup_path]. destruct (members !! i) as [obj|]; [|reflexivity].
  destruct rest, obj; reflexivity.
Qed.

Lemma path_lt_irrefl p : ~ path_lt p p.
Proof. induction p as [|i p IH]; inversion 1; subst; [lia|auto]. Qed.

(** No group is left in the result. *)
Lemma explode_terminals obj :
  Forall (fun o => Project.is_group o = false) (Project.explode obj).
Proof.
  induction obj as [v|label members IH] using DocObject_members_ind.
  - repeat constructor.
  - cbn [Project.explode]. now apply Forall_flat_map.
Qed.

Lemma all_group_objs_terminals members :
  Forall (fun o => Project.is_group o = false) (Project.all_group_objs members).
Proof.
  unfold Project.all_group_objs. apply Forall_flat_map.
  apply Forall_forall. intros o _. apply explode_terminals.
Qed.

(** Each path of the list reaches the object at the same place in the
    result. *)
Lemma paths_from_aligned l :
  Forall (fun o => Forall2 (fun q t => descend q o = Some t)
                           (object_paths o) (Project.explode o)) l ->
  forall pre,
    Forall2 (fun p t => p <> [] /\ lookup_path p (pre ++ l) = Some t)
            (paths_from (length pre) l) (Project.all_group_objs l).
Proof.
  induction 1 as [|o l Ho _ IH]; intros pre; [constructor|].
  cbn [paths_from]. unfold Project.all_group_objs. cbn [flat_map].
  apply Forall2_app.
  - apply Forall2_fmap_l. eapply Forall2_impl; [exact Ho|].
    intros q t Hq. unfold compose. split; [discriminate|].
    now rewrite lookup_path_cons, list_lookup_middle.
  - specialize (IH (pre ++ [o])).
    rewrite length_app, Nat.add_1_r, <- app_assoc in IH. exact IH.
Qed.

Lemma object_paths_aligned obj :
  Forall2 (fun q t => descend q obj = Some t)
          (object_paths obj) (Project.explode obj).
Proof.
  induction obj as [v|label members IH] using DocObject_members_ind.
  - repeat constructor.
  - rewrite object_paths_group.
    eapply Forall2_impl; [exact (paths_from_aligned members IH [])|].
    intros [|j q] t [Hne Hq]; [congruence|exact Hq].
Qed.

(** The paths of the list are those that reach a terminal object. *)
Lemma paths_from_terminal l :
  Forall (fun o => forall q, q ∈ object_paths o <->
                             exists v, descend q o = Some (ViewObj v)) l ->
  forall pre p,
    p ∈ paths_from (length pre) l <->
    exists j q, p = j :: q /\ (length pre <= j)%nat
                /\ exists v, lookup_path p (pre ++ l) = Some (ViewObj v).
Proof.
  induction 1 as [|o l Ho _ IH]; intros pre p.
  - cbn [paths_from]. split; [intros H; now apply elem_of_nil in H|].
    intros (j & q & -> & Hj & v & Hv).
    rewrite lookup_path_cons, app_nil_r, lookup_ge_None_2 in Hv by lia.
    discriminate.
  - cbn [paths_from]. rewrite elem_of_app, list_elem_of_fmap.
    specialize (IH (pre ++ [o]) p).
    rewrite length_app, Nat.add_1_r, <- app_assoc in IH. cbn [app] in IH.
    rewrite IH. clear IH. split.
    + intros [(q & -> & Hq)|(j & q & -> & Hj & Hv)].
      * exists (length pre), q. split; [reflexivity|]. split; [lia|].
        rewrite lookup_path_cons, list_lookup_middle by reflexivity.
        now apply Ho.
      * exists j, q. split; [reflexivity|]. split; [lia|assumption].
    + intros (j & q & -> & Hj & v & Hv).
      destruct (decide (j = length pre)) as [->|Hne].
      * left. exists q. split; [reflexivity|]. apply Ho. exists v.
        now rewrite lookup_path_cons, list_lookup_middle in Hv.
      * right. exists j, q. split; [reflexivity|]. split; [lia|eauto].
Qed.

Lemma object_paths_terminal obj q :
  q ∈ object_paths obj <-> exists v, descend q obj = Some (ViewObj v).
Proof.
  revert q.
  induction obj as [v|label members IH] using DocObject_members_ind; intros q.
  - cbn [object_paths]. rewrite list_elem_of_singleton. split.
    + intros ->. now exists v.
    + intros [w Hw]. destruct q; [reflexivity|discriminate].
  - rewrite object_paths_group, (paths_from_terminal members IH [] q).
    split.
    + intros (j & q' & -> & _ & Hv). exact Hv.
    + intros [v Hv]. destruct q as [|j q']; [discriminate|].
      exists j, q'. split; [reflexivity|]. split; [cbn; lia|eauto].
Qed.

(** The paths of the list are in document order, and start at or after the
    index of the first member. *)
Lemma paths_from_sorted l :
  Forall (fun o => StronglySorted path_lt (object_paths o)) l ->
  forall i,
    StronglySorted path_lt (paths_from i l)
    /\ Forall (fun p => exists j q, p = j :: q /\ (i <= j)%nat) (paths_from i l).
Proof.
  induction 1 as [|o l Ho _ IH]; intros i.
  - split; constructor.
  - cbn [paths_from]. destruct (IH (S i)) as [Hsorted Hheads]. split.
    + apply StronglySorted_app_2.
      * intros p1 p2 H1 H2. apply list_elem_of_fmap in H1 as (q & -> & _).
        rewrite Forall_forall in Hheads.
        destruct (Hheads p2 H2) as (j & q' & -> & Hj).
        apply path_lt_head. lia.
      * eapply StronglySorted_fmap; [|exact Ho].
        intros p q Hpq. now apply path_lt_tail.
      * exact Hsorted.
    + apply Forall_app. split.
      * apply Forall_fmap, Forall_forall. intros q _. cbn. eauto.
      * eapply Forall_impl; [exact Hheads|].
        intros p (j & q & -> & Hj). exists j, q. split; [reflexivity|lia].
Qed.

Lemma object_paths_sorted obj : StronglySorted path_lt (object_paths obj).
Proof.
  induction obj as [v|label members IH] using DocObject_members_ind.
  - repeat constructor.
  - rewrite object_paths_group. now apply paths_from_sorted.
Qed.

Lemma sorted_NoDup (l : list (list nat)) :
  StronglySorted path_lt l -> NoDup l.
Proof.
  induction 1 as [|p l _ IH Hp]; constructor; [|assumption].
  intros Hin. rewrite Forall_forall in Hp.
  exact (path_lt_irrefl p (Hp p Hin)).
Qed.

End TreeFacts.

(** C7: [all_views] returns no group; with the terminal objects of the
    group tree taken by their position (the path of member indices that
    leads to each), the result lists the object at every such position
    exactly once, in document order (the lexicographic order of the
    paths). *)
Theorem all_views_in_document_order (self : ProjectObj) :
  let paths := Spec.terminal_paths self in
  Forall (fun o => Project.is_group o = false) (Project.all_views self)
  /\ Forall2 (fun path o => Spec.lookup_path path (Group self) = Some o)
             paths (Project.all_views self)
  /\ (forall path,
        path ∈ paths <->
        exists v, Spec.lookup_path path (Group self) = Some (ViewObj v))
  /\ StronglySorted Spec.path_lt paths
  /\ NoDup paths.
Proof.
  intros paths. subst paths. unfold Spec.terminal_paths, Project.all_views.
  assert (Hsorted : StronglySorted Spec.path_lt (Spec.paths_from 0 (Group self))).
  { apply TreeFacts.paths_from_sorted.
    apply Forall_forall. intros o _. apply TreeFacts.object_paths_sorted. }
  split; [apply TreeFacts.all_group_objs_terminals|].
  split; [|split; [|split]].
  - eapply Forall2_impl.
    + apply (TreeFacts.paths_from_aligned (Group self)) with (pre := []).
      apply Forall_forall. intros o _. apply TreeFacts.object_paths_aligned.
    + intros p t [_ Hp]. exact Hp.
  - intros path.
    rewrite (TreeFacts.paths_from_terminal (Group self)) with (pre := []).
    2:{ apply Forall_forall. intros o _ q. apply TreeFacts.object_paths_terminal. }
    split.
    + intros (j & q & -> & _ & Hv). exact Hv.
    + intros [v Hv]. destruct path as [|j q]; [discriminate|].
      exists j, q. split; [reflexivity|]. split; [cbn; lia|eauto].
  - exact Hsorted.
  - now apply TreeFacts.sorted_NoDup.
Qed.

(** The views of the sample project with a group: the part, then the two
    views of the group. *)
Example all_views_of_cached_project :
  Spec.terminal_paths Sample.cached_project = [[0]; [1; 0]; [1; 1]]%nat
  /\ map (fun o => v_Name (Project.attributes o))
         (Project.all_views Sample.cached_project)
     = [Some "CubeView"; Some "LampView"; Some "HiddenView"].
Proof. split; reflexivity. Qed.

(* ====================================================================== *)
(** * [View.execute] and the cached string                                 *)
(* ====================================================================== *)

(** On recomputation a view of a delayed project, or of no project, keeps
    its cached string; a view of a project that is not delayed gets the
    string of the dispatcher, its other attributes unchanged. *)
Lemma execute_refreshes_cache (host : Host) (proj : ProjectObj) (obj : View)
    (module : gmap string pyfun) :
  ViewClass.execute host None obj = ret obj
  /\ (DelayedBuild proj = true ->
      ViewClass.execute host (Some proj) obj = ret obj)
  /\ (DelayedBuild proj = false ->
      renderers host !! Renderer proj = Some module ->
      forall text,
        result (Handler.get_rendering_string host
                  (mkHandler (Renderer proj) module) obj) = Returns text ->
        result (ViewClass.execute host (Some proj) obj)
          = Returns (ViewClass.with_ViewResult (Some text) obj)).
Proof.
  split; [reflexivity|]. split.
  - intros Hd. unfold ViewClass.execute. now rewrite Hd.
  - intros Hd Hm text Ht. unfold ViewClass.execute, Handler.__init__.
    rewrite Hd, Hm, PyFacts.ret_bind, PyFacts.result_bind, Ht.
    reflexivity.
Qed.

(* ====================================================================== *)
(** * Whole renders of the sample scenes                                   *)
(* ====================================================================== *)

(** A part and a point light: the camera line and the content line of the
    template are replaced, by the camera text and by the texts of the part
    and of the light, in this order; no marker is left. *)
Example render_of_scene :
  Project.render Sample.host Sample.scene true
    = mkPy
        [ReadFile "/templates/sample.txt";
         Call "write_camera"
           [VStr "Default_Camera"; VPlacement Sample.identity_placement;
            VVector (mkVector 0 1 0); VVector (mkVector 0 0 (-1))];
         Call "write_object"
           [VStr "Cube"; VMesh Sample.triangle;
            VFloats [1.0; 1.0; 1.0]%float; VFloat 1.0];
         Call "write_pointlight"
           [VStr "Lamp"; VVector (mkVector 0 0 15);
            VFloats [1.0; 1.0; 1.0]%float; VFloat 60.0];
         Mkstemp "/tmp/Project";
         WriteFile "/tmp/Project"
           ("// header" +:+ String Str.newline
            ("camera Default_Camera" +:+ String Str.newline
             ("object Cube" +:+ String Str.newline
              ("pointlight Lamp" +:+ String Str.newline "// footer"))));
         SetPageResult "/tmp/Project";
         RemoveFile "/tmp/Project";
         Recompute;
         Call "render"
           [VProject "Project" "/tmp/Project"; VStr EmptyString; VBool true;
            VStr "/out/image.png"; VInt 800; VInt 600]]
        (Returns "/out/image.png").
Proof. vm_compute. reflexivity. Qed.

(** A view whose source meshes to no facet is skipped with a warning, and
    the other views are rendered. *)
Example render_skips_a_view_without_facets :
  result (Project.object_strings Sample.host Sample.scene_with_empty_part
            Sample.handler)
    = Returns [EmptyString; "object Cube"; "pointlight Lamp"]
  /\ trace (Handler.get_rendering_string Sample.host Sample.handler
              (Sample.view_of Sample.empty_part EmptyString))
     = [PrintWarning
          (Cannot_render_view_skipping "Nothing@Project" AssertionError)]
  /\ result (Project.render Sample.host Sample.scene_with_empty_part true)
     = Returns "/out/image.png".
Proof. repeat split; vm_compute; reflexivity. Qed.

(** A view of an unknown kind ends the render with [KeyError]: the views
    after it are not rendered and no file is written. *)
Example render_aborts_on_unknown_kind :
  Project.render Sample.host Sample.scene_with_unknown_kind true
    = mkPy
        [ReadFile "/templates/sample.txt";
         Call "write_camera"
           [VStr "Default_Camera"; VPlacement Sample.identity_placement;
            VVector (mkVector 0 1 0); VVector (mkVector 0 0 (-1))];
         Call "write_object"
           [VStr "Cube"; VMesh Sample.triangle;
            VFloats [1.0; 1.0; 1.0]%float; VFloat 1.0]]
        (Raises KeyError).
Proof. vm_compute. reflexivity. Qed.

(** A number that [float] cannot read raises [ValueError], which the
    dispatcher does not catch either. *)
Example malformed_number_is_not_caught :
  Handler.get_rendering_string Sample.host Sample.handler
    (Sample.view_of Sample.area_light_with_bad_power EmptyString)
    = mkPy [] (Raises ValueError).
Proof. reflexivity. Qed.

(* ====================================================================== *)
(** * More about the loop over the views                                   *)
(* ====================================================================== *)

Module LoopFacts.
Import PyFacts.

Lemma visibility_is_ret v b :
  result (Project.visibility v) = Returns b -> Project.visibility v = ret b.
Proof.
  intros H. apply Py_eq; [apply RenderFacts.visibility_trace|exact H].
Qed.

Lemma visibility_with_ViewResult cached v :
  Project.visibility (ViewClass.with_ViewResult cached v) = Project.visibility v.
Proof. now destruct v. Qed.

(** What [View.execute] returns in a project that is not delayed. *)
Lemma execute_returns_inv host proj module v v' :
  DelayedBuild proj = false ->
  renderers host !! Renderer proj = Some module ->
  result (ViewClass.execute host (Some proj) v) = Returns v' ->
  exists text,
    result (Handler.get_rendering_string host
              (mkHandler (Renderer proj) module) v) = Returns text
    /\ v' = ViewClass.with_ViewResult (Some text) v.
Proof.
  intros Hd Hm. unfold ViewClass.execute, Handler.__init__.
  rewrite Hd, Hm, ret_bind, result_bind.
  destruct (result (Handler.get_rendering_string _ _ v)) as [text|e];
    [|discriminate].
  cbn. intros [= <-]. eauto.
Qed.

End LoopFacts.

(** X1: a view that is not shown is never looked at by the loop of the
    render: when every view has a readable visibility, the loop over all the
    views emits the same events and ends the same way as the loop over the
    shown views only. *)
Theorem hidden_views_are_not_dispatched (get : View -> Py string)
    (views : list View) :
  Forall (fun v => exists b, result (Project.visibility v) = Returns b) views ->
  Project.comprehension get views
    = Project.comprehension get (filter (fun v => Spec.shown v = true) views).
Proof.
  induction 1 as [|v views [b Hb] _ IH]; [reflexivity|].
  pose proof (visibility_shown v b Hb) as Hshown.
  cbn [Project.comprehension].
  rewrite (LoopFacts.visibility_is_ret v b Hb), PyFacts.ret_bind.
  destruct b.
  - rewrite filter_cons_True by assumption.
    cbn [Project.comprehension].
    rewrite (LoopFacts.visibility_is_ret v true Hb), PyFacts.ret_bind.
    now rewrite IH.
  - rewrite filter_cons_False by (rewrite Hshown; discriminate).
    exact IH.
Qed.

Lemma hidden_views_are_not_dispatched_witness :
  Project.comprehension
    (Handler.get_rendering_string Sample.host Sample.handler)
    (map Project.attributes (Project.all_views Sample.cached_project))
  = Project.comprehension
      (Handler.get_rendering_string Sample.host Sample.handler)
      (filter (fun v => Spec.shown v = true)
         (map Project.attributes (Project.all_views Sample.cached_project))).
Proof.
  apply (hidden_views_are_not_dispatched
           (Handler.get_rendering_string Sample.host Sample.handler)).
  repeat constructor; eexists; reflexivity.
Defined.

(** X2: the cached strings agree with the dispatcher.  In a project that is
    not delayed, once [View.execute] has run on every view, the loop of the
    render over the cached strings ends as the loop that asks the dispatcher
    for each string would. *)
Theorem cached_strings_agree_with_dispatch (host : Host) (proj : ProjectObj)
    (module : gmap string pyfun) (views views' : list View) :
  DelayedBuild proj = false ->
  renderers host !! Renderer proj = Some module ->
  Forall2 (fun v v' =>
             result (ViewClass.execute host (Some proj) v) = Returns v')
          views views' ->
  result (Project.comprehension Project.attrgetter_ViewResult views')
    = result (Project.comprehension
                (Handler.get_rendering_string host
                   (mkHandler (Renderer proj) module)) views).
Proof.
  intros Hd Hm. induction 1 as [|v v' views views' Hv _ IH]; [reflexivity|].
  destruct (LoopFacts.execute_returns_inv host proj module v v' Hd Hm Hv)
    as (text & Htext & ->).
  cbn [Project.comprehension].
  rewrite !PyFacts.result_bind, LoopFacts.visibility_with_ViewResult.
  destruct (result (Project.visibility v)) as [[|]|e]; [|exact IH|reflexivity].
  rewrite !PyFacts.result_bind, Htext. cbn [result].
  unfold Project.attrgetter_ViewResult at 1.
  change (v_ViewResult (ViewClass.with_ViewResult (Some text) v))
    with (Some text).
  cbn [result getattr ret].
  rewrite !PyFacts.result_bind, IH. reflexivity.
Qed.

Lemma cached_strings_agree_with_dispatch_witness :
  result (Project.comprehension Project.attrgetter_ViewResult
            [ViewClass.with_ViewResult (Some "pointlight Lamp")
               (Sample.view_of (Sample.light "Lamp" "PointLight" true)
                               "stale")])
  = result (Project.comprehension
              (Handler.get_rendering_string Sample.host
                 (mkHandler "Sample" Sample.backend))
              [Sample.view_of (Sample.light "Lamp" "PointLight" true) "stale"]).
Proof.
  apply (cached_strings_agree_with_dispatch Sample.host Sample.cached_project
           Sample.backend); [reflexivity|reflexivity|].
  repeat constructor.
Defined.

(* ====================================================================== *)
(** * What the dispatcher emits                                            *)
(* ====================================================================== *)

Module TraceFacts.
Import PyFacts.

(** A computation that emits nothing, followed by another. *)
Lemma bind_silent {A B} (m : Py A) (f : A -> Py B) :
  trace m = [] ->
  m ≫= f = match result m with
           | Returns a => f a
           | Raises e => raise e
           end.
Proof.
  intros H. apply Py_eq.
  - rewrite trace_bind, H. now destruct (result m).
  - rewrite result_bind. now destruct (result m).
Qed.

Lemma silent_bind {A B} (m : Py A) (f : A -> Py B) :
  trace m = [] -> (forall a, trace (f a) = []) -> trace (m ≫= f) = [].
Proof.
  intros Hm Hf. rewrite (bind_silent m f Hm).
  destruct (result m); [apply Hf|reflexivity].
Qed.

Lemma getattr_trace {A} (x : option A) : trace (getattr x) = [].
Proof. now destruct x. Qed.

Lemma lift_trace {A} (o : outcome A) : trace (lift o) = [].
Proof. reflexivity. Qed.

Lemma assert_trace b : trace (assert b) = [].
Proof. now destruct b. Qed.

Lemma py_float_trace host v : trace (py_float host v) = [].
Proof.
  destruct v as [|b|n|f|s|l|l|v|p|m|name page]; try reflexivity;
    unfold py_float.
  - now destruct (PrimFloat.is_infinity (float_of_Z n)).
  - now destruct (float_of_str host s).
Qed.

Lemma py_Placement_trace v : trace (py_Placement v) = [].
Proof. now destruct v. Qed.

Lemma py_Vector_trace v : trace (py_Vector v) = [].
Proof. destruct v as [| | | | |[|a [|b [|c [|]]]]| | | | |]; reflexivity. Qed.

Ltac silent :=
  repeat first
    [ reflexivity
    | apply getattr_trace | apply lift_trace | apply assert_trace
    | apply py_float_trace | apply py_Placement_trace | apply py_Vector_trace
    | apply silent_bind; [|intros ?]
    | match goal with
      | |- trace (if ?b then _ else _) = [] => destruct b
      | |- trace (match ?x with _ => _ end) = [] => destruct x
      end ].

Lemma object_material_trace view : trace (Handler.object_material view) = [].
Proof. unfold Handler.object_material. silent. Qed.

Lemma material_alpha_trace host mat :
  trace (Handler.material_alpha host mat) = [].
Proof. unfold Handler.material_alpha. silent. Qed.

Lemma isDerivedFrom_trace source type :
  trace (Handler.isDerivedFrom source type) = [].
Proof. unfold Handler.isDerivedFrom. silent. Qed.

Lemma object_mesh_trace host source :
  trace (Handler.object_mesh host source) = [].
Proof.
  unfold Handler.object_mesh.
  destruct (s_Group source); [silent|].
  apply silent_bind; [apply isDerivedFrom_trace|]. intros [|]; [silent|].
  apply silent_bind; [apply isDerivedFrom_trace|]. intros [|]; silent.
Qed.

(** The call of a backend function: nothing when the module lacks it or
    the number of arguments is not the one of the function, else the entry
    into the function and what the function does. *)
Lemma call_renderer_shape self method args :
  Shape.raises_silently (Handler._call_renderer self method args)
  \/ exists f,
       renderer_module self !! method = Some f
       /\ Handler._call_renderer self method args
          = mkPy (Call method args :: trace (body f args))
                 (result (body f args)).
Proof.
  unfold Handler._call_renderer.
  destruct (renderer_module self !! method) as [f|].
  - cbn [getattr]. rewrite ret_bind. unfold call_function.
    destruct (length args =? length (parameters f))%nat.
    + right. exists f. split; [reflexivity|]. apply Py_eq.
      * rewrite trace_bind. reflexivity.
      * rewrite result_bind. reflexivity.
    + left. split; [reflexivity|]. eexists. reflexivity.
  - left. split; [reflexivity|]. eexists. reflexivity.
Qed.

Lemma final_color_truthy color : truthy (Handler.final_color color) = true.
Proof.
  unfold Handler.final_color. destruct color as [c|]; [|reflexivity].
  destruct (truthy c) eqn:E; [exact E|reflexivity].
Qed.

Lemma final_alpha_truthy alpha :
  truthy (VFloat (Handler.final_alpha alpha)) = true.
Proof.
  unfold Handler.final_alpha. destruct alpha as [a|]; [|reflexivity].
  destruct (truthy (VFloat a)) eqn:E; [exact E|reflexivity].
Qed.

(** [_render_object] either raises before it emits anything, or enters
    [write_object] as its first event, with the name, a mesh that has
    points, facets and normals, a colour that is not empty and an alpha
    that is not zero; what follows is what the backend function does. *)
Lemma render_object_entry (host : Host)
    (self : RendererHandler) (name : string) (view : View) :
  Shape.raises_silently (Handler._render_object host self name view)
  \/ exists mesh color alpha f,
       let args := [VStr name; VMesh mesh; color; VFloat alpha] in
       renderer_module self !! "write_object" = Some f
       /\ Handler._render_object host self name view
          = mkPy (Call "write_object" args :: trace (body f args))
                 (result (body f args))
       /\ Points mesh <> [] /\ Facets mesh <> [] /\ PointNormals mesh <> []
       /\ truthy color = true
       /\ truthy (VFloat alpha) = true.
Proof.
  unfold Handler._render_object.
  rewrite (bind_silent (Handler.object_material view))
    by apply object_material_trace.
  destruct (result (Handler.object_material view)) as [mat|e];
    [|left; split; [reflexivity|eauto]].
  rewrite (bind_silent (Handler.material_alpha host mat))
    by apply material_alpha_trace.
  destruct (result (Handler.material_alpha host mat)) as [alpha|e];
    [|left; split; [reflexivity|eauto]].
  rewrite (bind_silent (getattr (v_Source view)))
    by apply getattr_trace.
  destruct (v_Source view) as [source|];
    [|left; split; [reflexivity|eauto]].
  cbn [getattr result ret].
  rewrite (bind_silent (getattr (s_ViewObject source)))
    by apply getattr_trace.
  destruct (s_ViewObject source) as [vobj|];
    [|left; split; [reflexivity|eauto]].
  cbn [getattr result ret].
  rewrite (bind_silent (Handler.object_mesh host source))
    by apply object_mesh_trace.
  destruct (result (Handler.object_mesh host source)) as [[mesh|]|e];
    [|left; split; [reflexivity|eauto]..].
  rewrite (bind_silent (assert _)) by apply assert_trace.
  destruct (Handler.nonempty (Points mesh) && Handler.nonempty (Facets mesh))
    eqn:Htopology; [|left; split; [reflexivity|eauto]].
  cbn [assert result ret].
  rewrite (bind_silent (assert _)) by apply assert_trace.
  destruct (Handler.nonempty (PointNormals mesh)) eqn:Hnormals;
    [|left; split; [reflexivity|eauto]].
  cbn [assert result ret].
  apply andb_true_iff in Htopology as [Hpoints Hfacets].
  match goal with
  | |- context [Handler._call_renderer self "write_object" ?args] =>
      destruct (call_renderer_shape self "write_object" args)
        as [Hsilent|(f & Hf & Hcall)]
  end; [left; exact Hsilent|].
  right. eexists mesh, _, _, f. cbn zeta.
  split; [exact Hf|]. split; [exact Hcall|].
  repeat split.
  - intros E. rewrite E in Hpoints. discriminate.
  - intros E. rewrite E in Hfacets. discriminate.
  - intros E. rewrite E in Hnormals. discriminate.
  - apply final_color_truthy.
  - apply final_alpha_truthy.
Qed.

End TraceFacts.

(** X3: the first event of [_render_object], when there is one, is the
    entry into [write_object] with the name, a mesh that has points, facets
    and normals, a colour that is not empty and an alpha that is not zero:
    no invalid mesh reaches the backend, and nothing is emitted before the
    backend is entered. *)
Theorem write_object_receives_valid_arguments (host : Host)
    (self : RendererHandler) (name : string) (view : View)
    (first : event) (rest : list event) :
  trace (Handler._render_object host self name view) = first :: rest ->
  exists mesh color alpha,
    first = Call "write_object" [VStr name; VMesh mesh; color; VFloat alpha]
    /\ Points mesh <> [] /\ Facets mesh <> [] /\ PointNormals mesh <> []
    /\ truthy color = true
    /\ truthy (VFloat alpha) = true.
Proof.
  intros Htrace.
  destruct (TraceFacts.render_object_entry host self name view)
    as [[Hsilent _]|(mesh & color & alpha & f & _ & Hcall & Hvalid)].
  - rewrite Hsilent in Htrace. discriminate.
  - rewrite Hcall in Htrace. cbn [trace] in Htrace.
    injection Htrace as <- _. exists mesh, color, alpha.
    split; [reflexivity|exact Hvalid].
Qed.

Lemma write_object_receives_valid_arguments_witness :
  exists mesh color alpha,
    Call "write_object"
      [VStr "Glass"; VMesh Sample.triangle;
       VFloats [1.0; 1.0; 1.0]%float; VFloat 1.0]
    = Call "write_object" [VStr "Glass"; VMesh mesh; color; VFloat alpha]
    /\ Points mesh <> [] /\ Facets mesh <> [] /\ PointNormals mesh <> []
    /\ truthy color = true
    /\ truthy (VFloat alpha) = true.
Proof.
  exact (write_object_receives_valid_arguments Sample.host Sample.handler
           "Glass" Sample.glass _ [] eq_refl).
Defined.

Module HandlerShapes.
Import PyFacts TraceFacts.

Ltac give_up_silently := left; split; [reflexivity|eauto].

Tactic Notation "peel" constr(m) "as" ident(a) :=
  rewrite (bind_silent m) by
    first [ apply getattr_trace | apply py_float_trace
          | apply py_Placement_trace | apply py_Vector_trace ];
  destruct (result m) as [a|?] eqn:?; [|give_up_silently].

Tactic Notation "peel_attr" constr(x) "as" ident(a) :=
  rewrite (bind_silent (getattr x)) by apply getattr_trace;
  destruct x as [a|]; [cbn [getattr result ret]|give_up_silently].

Lemma call_renderer_entry self method args :
  Shape.raises_silently (Handler._call_renderer self method args)
  \/ Shape.starts_with_call method (Handler._call_renderer self method args).
Proof.
  destruct (call_renderer_shape self method args) as [H|(f & _ & H)];
    [left; exact H|right].
  rewrite H. eexists _, _. reflexivity.
Qed.

Lemma render_object_shape host self name view :
  Shape.raises_silently (Handler._render_object host self name view)
  \/ Shape.starts_with_call "write_object"
       (Handler._render_object host self name view).
Proof.
  destruct (render_object_entry host self name view)
    as [H|(mesh & color & alpha & f & _ & H & _)]; [left; exact H|right].
  rewrite H. eexists _, _. reflexivity.
Qed.

Lemma render_camera_shape host self name view :
  Shape.raises_silently (Handler._render_camera host self name view)
  \/ Shape.starts_with_call "write_camera"
       (Handler._render_camera host self name view).
Proof.
  unfold Handler._render_camera.
  peel_attr (v_Source view) as cam. peel_attr (s_AspectRatio cam) as ratio.
  peel (py_float host ratio) as a_ratio.
  peel_attr (s_Placement cam) as placement.
  peel (py_Placement placement) as pos. apply call_renderer_entry.
Qed.

Lemma render_pointlight_shape self name view :
  Shape.raises_silently (Handler._render_pointlight self name view)
  \/ Shape.starts_with_call "write_pointlight"
       (Handler._render_pointlight self name view).
Proof.
  unfold Handler._render_pointlight.
  peel_attr (v_Source view) as source. peel_attr (s_Location source) as loc.
  peel (py_Vector loc) as location. peel_attr (s_Color source) as color.
  apply call_renderer_entry.
Qed.

Lemma render_arealight_shape host self name view :
  Shape.raises_silently (Handler._render_arealight host self name view)
  \/ Shape.starts_with_call "write_arealight"
       (Handler._render_arealight host self name view).
Proof.
  unfold Handler._render_arealight.
  peel_attr (v_Source view) as source. peel_attr (s_Placement source) as pl.
  peel (py_Placement pl) as placement. peel_attr (s_Color source) as color.
  peel_attr (s_Power source) as pw. peel (py_float host pw) as power.
  peel_attr (s_SizeU source) as su. peel (py_float host su) as size_u.
  peel_attr (s_SizeV source) as sv. peel (py_float host sv) as size_v.
  apply call_renderer_entry.
Qed.

(** The body of the [try]: silent until a backend function is entered, and
    the function entered is that of the kind of the source. *)
Lemma dispatch_shape host self view :
  Shape.raises_silently (Handler.dispatch host self view)
  \/ exists source,
       v_Source view = Some source
       /\ Shape.starts_with_call
            (Shape.write_function (default "Object" (s_Proxy_type source)))
            (Handler.dispatch host self view).
Proof.
  unfold Handler.dispatch.
  destruct (v_Source view) as [source|] eqn:Hsource;
    [|left; split; [reflexivity|eexists; reflexivity]].
  cbn [getattr]. rewrite ret_bind.
  destruct (s_Name source) as [name|];
    [|left; split; [reflexivity|eexists; reflexivity]].
  cbn [getattr]. rewrite ret_bind.
  set (kind := default "Object" (s_Proxy_type source)).
  change (id kind) with kind.
  assert (Hcase : forall r : Py string,
            Shape.raises_silently r \/
            Shape.starts_with_call (Shape.write_function kind) r ->
            Shape.raises_silently r \/
            exists source0, Some source = Some source0 /\
              Shape.starts_with_call
                (Shape.write_function (default "Object" (s_Proxy_type source0)))
                r).
  { intros r [H|H]; [left; exact H|right; exists source; split; auto]. }
  unfold Handler.switcher.
  destruct (decide (kind = "Object")) as [E|H1].
  { rewrite E, lookup_insert_eq. apply Hcase. rewrite E.
    apply render_object_shape. }
  rewrite lookup_insert_ne by congruence.
  destruct (decide (kind = "PointLight")) as [E|H2].
  { rewrite E, lookup_insert_eq. apply Hcase. rewrite E.
    apply render_pointlight_shape. }
  rewrite lookup_insert_ne by congruence.
  destruct (decide (kind = "Camera")) as [E|H3].
  { rewrite E, lookup_insert_eq. apply Hcase. rewrite E.
    apply render_camera_shape. }
  rewrite lookup_insert_ne by congruence.
  destruct (decide (kind = "AreaLight")) as [E|H4].
  { rewrite E, lookup_insert_eq. apply Hcase. rewrite E.
    apply render_arealight_shape. }
  rewrite lookup_insert_ne by congruence. rewrite lookup_empty.
  left. split; [reflexivity|eexists; reflexivity].
Qed.

End HandlerShapes.

(** X4: a call of the dispatcher that returns leaves a trace.  Either its
    first event is the entry into the backend function of the kind of the
    view's source ([write_object] without kind marker), or nothing was
    entered and its only event is the warning that names the view, with the
    empty string as result. *)
Theorem dispatcher_enters_backend_or_warns (host : Host)
    (self : RendererHandler) (view : View) (text : string) :
  result (Handler.get_rendering_string host self view) = Returns text ->
  (exists source,
     v_Source view = Some source
     /\ Shape.starts_with_call
          (Shape.write_function (default "Object" (s_Proxy_type source)))
          (Handler.get_rendering_string host self view))
  \/ (exists e,
        Handler.get_rendering_string host self view
          = mkPy [PrintWarning
                    (Cannot_render_view_skipping
                       (default "<No label>" (v_Label view)) e)]
                 (Returns EmptyString)).
Proof.
  unfold Handler.get_rendering_string, try_except.
  destruct (HandlerShapes.dispatch_shape host self view)
    as [[Hsilent [e He]]|(source & Hsource & args & rest & Hcall)].
  - rewrite He. destruct (handles Handler.caught e); [|congruence].
    intros _. right. exists e. rewrite Hsilent. reflexivity.
  - intros Hreturns. left. exists source. split; [exact Hsource|].
    destruct (result (Handler.dispatch host self view)) as [s|e].
    + exists args, rest. exact Hcall.
    + destruct (handles Handler.caught e).
      * eexists args, _. cbn [trace]. rewrite Hcall. reflexivity.
      * exists args, rest. exact Hcall.
Qed.

Lemma dispatcher_enters_backend_or_warns_witness :
  (exists source,
     v_Source Sample.glass = Some source
     /\ Shape.starts_with_call
          (Shape.write_function (default "Object" (s_Proxy_type source)))
          (Handler.get_rendering_string Sample.host Sample.handler Sample.glass))
  \/ (exists e,
        Handler.get_rendering_string Sample.host Sample.handler Sample.glass
          = mkPy [PrintWarning
                    (Cannot_render_view_skipping
                       (default "<No label>" (v_Label Sample.glass)) e)]
                 (Returns EmptyString)).
Proof.
  exact (dispatcher_enters_backend_or_warns Sample.host Sample.handler
           Sample.glass "object Glass" eq_refl).
Defined.

(* ====================================================================== *)
(** * The Povray module under the dispatcher                               *)
(* ====================================================================== *)

Module PovrayFacts.
Import PyFacts.

(** [write_camera] of Povray takes five arguments and is given four. *)
Lemma write_camera_arity bodies a b c d :
  result (Handler._call_renderer
            (mkHandler "Povray" (Povray.module bodies))
            "write_camera" [a; b; c; d])
    = Raises TypeError.
Proof. reflexivity. Qed.

Lemma render_camera_never_returns host bodies name view text :
  result (Handler._render_camera host
            (mkHandler "Povray" (Povray.module bodies)) name view)
    <> Returns text.
Proof.
  unfold Handler._render_camera. rewrite result_bind.
  destruct (result (getattr (v_Source view))) as [cam|]; [|discriminate].
  rewrite result_bind.
  destruct (result (getattr (s_AspectRatio cam))) as [ratio|]; [|discriminate].
  rewrite result_bind.
  destruct (result (py_float host ratio)) as [a_ratio|]; [|discriminate].
  rewrite result_bind.
  destruct (result (getattr (s_Placement cam))) as [pl|]; [|discriminate].
  rewrite result_bind.
  destruct (result (py_Placement pl)) as [pos|]; [|discriminate].
  rewrite write_camera_arity. discriminate.
Qed.

End PovrayFacts.

(** X5: with the Povray module no camera is ever rendered.  The dispatcher
    calls [write_camera] with four arguments (name, placement, up vector,
    target) and Povray's function takes five, so the call raises
    [TypeError]: whenever the dispatcher returns for a view of kind
    [Camera], it returns the empty string. *)
Theorem povray_never_renders_a_camera (host : Host)
    (bodies : string -> list pyval -> Py string) (view : View)
    (source : Source) (text : string) :
  v_Source view = Some source ->
  s_Proxy_type source = Some "Camera" ->
  result (Handler.get_rendering_string host
            (mkHandler "Povray" (Povray.module bodies)) view) = Returns text ->
  text = EmptyString.
Proof.
  intros Hsource Hkind.
  unfold Handler.get_rendering_string, try_except.
  destruct (result (Handler.dispatch host _ view)) as [s|e] eqn:Hd.
  - exfalso. revert Hd. unfold Handler.dispatch.
    rewrite Hsource. cbn [getattr]. rewrite PyFacts.ret_bind, Hkind.
    destruct (s_Name source) as [name|]; [|discriminate].
    cbn [getattr default]. rewrite PyFacts.ret_bind.
    change (Handler.switcher host !! id "Camera")
      with (Some (Handler._render_camera host)).
    apply PovrayFacts.render_camera_never_returns.
  - destruct (handles Handler.caught e); [|rewrite Hd; discriminate].
    cbn. congruence.
Qed.

Lemma povray_never_renders_a_camera_witness :
  result (Handler.get_rendering_string Sample.host Sample.povray_handler
            Cases.camera_view) = Returns EmptyString
  /\ EmptyString = EmptyString.
Proof.
  split; [reflexivity|].
  exact (povray_never_renders_a_camera Sample.host
           (fun _ _ => ret "povray text") Cases.camera_view
           Cases.camera_source EmptyString eq_refl eq_refl eq_refl).
Defined.

(** With a module whose [write_camera] takes the four arguments, the same
    view is rendered. *)
Example camera_reaches_a_matching_backend :
  result (Handler.get_rendering_string Sample.host Sample.handler
            Cases.camera_view)
    = Returns "camera Camera".
Proof. reflexivity. Qed.

(* ====================================================================== *)
(** * More about the ground plane                                          *)
(* ====================================================================== *)

Module GroundMore.

(** Objects without a shape leave the box of the scene as it is. *)
Lemma scene_bbox_without_shapes members :
  Forall (fun o => Project.member_BoundBox o = None) members ->
  Project.scene_bbox members = Box.void.
Proof.
  unfold Project.scene_bbox. generalize Box.void.
  induction 1 as [|o members Ho _ IH]; [reflexivity|].
  cbn [fold_left]. now rewrite Ho.
Qed.

End GroundMore.

(** X6: a project in which no object of the group has a source with a
    shape (an empty project, or lights and cameras only) gets no ground
    plane: [write_groundplane] returns the empty string and touches neither
    the document nor the backend. *)
Theorem no_ground_plane_without_shapes (host : Host) (self : ProjectObj)
    (renderer : RendererHandler) :
  Forall (fun o => Project.member_BoundBox o = None) (Group self) ->
  Project.write_groundplane host self renderer = ret EmptyString.
Proof.
  intros H. unfold Project.write_groundplane.
  now rewrite (GroundMore.scene_bbox_without_shapes _ H).
Qed.

Lemma no_ground_plane_without_shapes_witness :
  Project.write_groundplane Sample.host Cases.lights_only Sample.handler
    = ret EmptyString.
Proof.
  apply (no_ground_plane_without_shapes Sample.host Cases.lights_only).
  repeat constructor.
Defined.

(** X7: the temporary objects of the ground plane are removed only when
    the dispatcher returns.  With the GUI up and the face made, the events
    of [render_polyline] are the two additions and a recomputation, then
    those of the dispatcher; the two removals and the last recomputation
    follow when the dispatcher returns, and nothing follows when it raises:
    the exception leaves with both objects still in the document. *)
Theorem ground_plane_objects_removed_on_return_only (host : Host)
    (renderer : RendererHandler) (vertices : list Vector) (face : Shape) :
  GuiUp host = true ->
  Part_Face_makePolygon host vertices = Returns face ->
  let dispatched :=
    Handler.get_rendering_string host renderer (Project.dummy2 host face) in
  let added :=
    [AddObject "dummygroundplane1"; AddObject "dummygroundplane2"; Recompute] in
  Project.render_polyline host renderer vertices =
    match result dispatched with
    | Returns text =>
        mkPy (added ++ trace dispatched
                ++ [RemoveObject "dummygroundplane2";
                    RemoveObject "dummygroundplane1"; Recompute])
             (Returns text)
    | Raises e => mkPy (added ++ trace dispatched) (Raises e)
    end.
Proof.
  intros Hgui Hface dispatched added. subst dispatched added.
  unfold Project.render_polyline. rewrite Hface, Hgui.
  unfold mbind, Py_bind.
  cbn [result trace lift emit ret Project.ViewProviderView negb].
  generalize (Handler.get_rendering_string host renderer
                (Project.dummy2 host face)).
  intros [events [text|e]]; cbn [result trace app];
    rewrite ?app_nil_r; reflexivity.
Qed.

Lemma ground_plane_objects_removed_on_return_only_witness :
  Project.render_polyline Sample.host Sample.handler
    (Project.groundplane_vertices Sample.part_box)
  = mkPy [AddObject "dummygroundplane1"; AddObject "dummygroundplane2";
          Recompute;
          Call "write_object"
            [VStr "dummygroundplane1"; VMesh Sample.triangle;
             VFloats [0.5; 0.5; 0.5]%float; VFloat 1.0];
          RemoveObject "dummygroundplane2"; RemoveObject "dummygroundplane1";
          Recompute]
         (Returns "object dummygroundplane1").
Proof.
  exact (ground_plane_objects_removed_on_return_only Sample.host
           Sample.handler (Project.groundplane_vertices Sample.part_box) _
           eq_refl eq_refl).
Defined.

(* ====================================================================== *)
(** * More about the merge                                                 *)
(* ====================================================================== *)

Module MergeMore.
Import Str StrFacts MergeFacts.

Lemma startswith_before_newline m : forall s t,
  has_char newline m = false ->
  startswith m (s +:+ String newline t) = true ->
  startswith m s = true.
Proof.
  induction m as [|a m IH]; intros s t Hm H; [apply startswith_empty|].
  cbn [has_char] in Hm. apply orb_false_iff in Hm as [Ha Hm].
  destruct s as [|c s].
  - change (EmptyString +:+ String newline t) with (String newline t) in H.
    cbn [startswith] in H. rewrite Ha in H. discriminate.
  - rewrite append_String in H. cbn [startswith] in *.
    destruct (Ascii.eqb a c); [|discriminate]. eauto.
Qed.

(** A marker without newline found in two texts joined by a newline is in
    one of the two. *)
Lemma contains_across_newline m s : forall t,
  has_char newline m = false ->
  contains m (s +:+ String newline t) = true ->
  contains m s = true \/ contains m t = true.
Proof.
  induction s as [|c s IH]; intros t Hm H.
  - change (EmptyString +:+ String newline t) with (String newline t) in H.
    rewrite contains_String in H. apply orb_true_iff in H as [H|H]; [|auto].
    left. destruct m as [|a m]; [reflexivity|].
    cbn [has_char] in Hm. apply orb_false_iff in Hm as [Ha _].
    cbn [startswith] in H. rewrite Ha in H. discriminate.
  - rewrite append_String, contains_String in H.
    apply orb_true_iff in H as [H|H].
    + left. rewrite contains_String. apply orb_true_iff. left.
      rewrite <- append_String in H.
      now apply startswith_before_newline with t.
    + destruct (IH t Hm H) as [Hs|Ht]; [|auto].
      left. now apply contains_tail.
Qed.

Lemma join_without_marker m ls :
  has_char newline m = false ->
  ls <> [] ->
  Forall (fun l => contains m l = false) ls ->
  contains m (join_lines ls) = false.
Proof.
  intros Hm Hne H. induction H as [|l ls Hl _ IH]; [congruence|].
  destruct ls as [|l' ls]; [exact Hl|].
  rewrite join_lines_cons by discriminate.
  destruct (contains m (l +:+ String newline (join_lines (l' :: ls)))) eqn:E;
    [|reflexivity].
  apply contains_across_newline in E as [E|E]; [congruence| |assumption].
  rewrite IH in E by discriminate. discriminate.
Qed.

(** The merge of texts without backslash, line by line. *)
Lemma merge_literal cam objstrings template :
  has_char backslash cam = false ->
  has_char backslash (join_lines objstrings) = false ->
  contains Project.content_marker cam = false ->
  Project.merge cam objstrings template =
    ret (join_lines
           (map (fun line =>
                   if contains Project.camera_marker template then
                     if contains Project.camera_marker line then cam
                     else if contains Project.content_marker line
                          then join_lines objstrings
                          else line
                   else
                     if contains Project.content_marker line
                     then cam +:+ String newline (join_lines objstrings)
                     else line)
                (split_lines template))).
Proof.
  intros Hcam Hobjs Hfree. unfold Project.merge.
  destruct (contains Project.camera_marker template).
  - rewrite (sub_line_literal _ cam template Hcam), lift_returns_bind.
    rewrite (sub_line_literal _ _ _ Hobjs).
    rewrite (replace_twice _ _ _ _ _ Hfree). reflexivity.
  - rewrite sub_line_literal by now apply joined_replacement_literal.
    reflexivity.
Qed.

Lemma map_nonempty {A B} (f : A -> B) l : l <> [] -> map f l <> [].
Proof. destruct l; [congruence|discriminate]. Qed.

End MergeMore.

(** X8: no marker is left after the merge.  When the camera text and the
    object texts hold no backslash and neither marker, the merged text holds
    neither the camera marker nor the content marker, however many lines of
    the template held them. *)
Theorem merge_leaves_no_marker (cam : string) (objstrings : list string)
    (template merged : string) :
  Str.has_char Str.backslash cam = false ->
  Str.has_char Str.backslash (Str.join_lines objstrings) = false ->
  Str.contains Project.camera_marker cam = false ->
  Str.contains Project.content_marker cam = false ->
  Str.contains Project.camera_marker (Str.join_lines objstrings) = false ->
  Str.contains Project.content_marker (Str.join_lines objstrings) = false ->
  result (Project.merge cam objstrings template) = Returns merged ->
  Str.contains Project.camera_marker merged = false
  /\ Str.contains Project.content_marker merged = false.
Proof.
  intros Hb1 Hb2 Hcc Hct Hoc Hot.
  rewrite (MergeMore.merge_literal cam objstrings template Hb1 Hb2 Hct).
  cbn [result ret]. intros [= <-].
  assert (Hjoined : forall m,
            Str.has_char Str.newline m = false ->
            Str.contains m cam = false ->
            Str.contains m (Str.join_lines objstrings) = false ->
            Str.contains m
              (cam +:+ String Str.newline (Str.join_lines objstrings)) = false).
  { intros m Hm Hc Ho.
    destruct (Str.contains m (cam +:+ _)) eqn:E; [|reflexivity].
    apply MergeMore.contains_across_newline in E as [E|E];
      [congruence|congruence|assumption]. }
  assert (Hlines : forall m l,
            l ∈ Str.split_lines template ->
            Str.contains m template = false -> Str.contains m l = false).
  { intros m l Hin Hm. destruct (Str.contains m l) eqn:E; [|reflexivity].
    now rewrite (StrFacts.contains_line m template l Hin E) in Hm. }
  split; (apply MergeMore.join_without_marker;
    [reflexivity
    |apply MergeMore.map_nonempty, StrFacts.split_lines_nonempty
    |apply Forall_forall; intros x Hx;
     apply list_elem_of_fmap in Hx as (l & -> & Hin)]).
  - destruct (Str.contains Project.camera_marker template) eqn:Et.
    + destruct (Str.contains Project.camera_marker l) eqn:El; [exact Hcc|].
      destruct (Str.contains Project.content_marker l); [exact Hoc|exact El].
    + destruct (Str.contains Project.content_marker l).
      * now apply Hjoined.
      * now apply Hlines.
  - destruct (Str.contains Project.camera_marker template) eqn:Et.
    + destruct (Str.contains Project.camera_marker l); [exact Hct|].
      destruct (Str.contains Project.content_marker l) eqn:El;
        [exact Hot|exact El].
    + destruct (Str.contains Project.content_marker l) eqn:El.
      * now apply Hjoined.
      * exact El.
Qed.

Lemma merge_leaves_no_marker_witness :
  Str.contains Project.camera_marker
    ("// header" +:+ String Str.newline
     ("camera {}" +:+ String Str.newline
      ("object {}" +:+ String Str.newline
       ("light {}" +:+ String Str.newline "// footer")))) = false
  /\ Str.contains Project.content_marker
       ("// header" +:+ String Str.newline
        ("camera {}" +:+ String Str.newline
         ("object {}" +:+ String Str.newline
          ("light {}" +:+ String Str.newline "// footer")))) = false.
Proof.
  exact (merge_leaves_no_marker "camera {}" ["object {}"; "light {}"]
           Sample.template_text _ eq_refl eq_refl eq_refl eq_refl eq_refl
           eq_refl eq_refl).
Defined.

(** X9: a template without the content marker loses the object texts.  For
    texts without backslash and a camera text without the content marker,
    the merged text is the template with every line that holds the camera
    marker replaced by the camera text; the object texts do not appear in
    it. *)
Theorem merge_without_content_marker_drops_objects (cam : string)
    (objstrings : list string) (template : string) :
  Str.has_char Str.backslash cam = false ->
  Str.has_char Str.backslash (Str.join_lines objstrings) = false ->
  Str.contains Project.content_marker cam = false ->
  Str.contains Project.content_marker template = false ->
  Project.merge cam objstrings template
    = ret (Str.replace_lines Project.camera_marker cam template).
Proof.
  intros Hb1 Hb2 Hct Htemplate.
  rewrite (MergeMore.merge_literal cam objstrings template Hb1 Hb2 Hct).
  unfold Str.replace_lines. f_equal. f_equal.
  apply map_ext_in. intros l Hin. apply list_elem_of_In in Hin.
  assert (Hl : Str.contains Project.content_marker l = false).
  { destruct (Str.contains Project.content_marker l) eqn:E; [|reflexivity].
    now rewrite (StrFacts.contains_line _ template l Hin E) in Htemplate. }
  rewrite Hl.
  destruct (Str.contains Project.camera_marker template) eqn:Et;
    [reflexivity|].
  destruct (Str.contains Project.camera_marker l) eqn:El; [|reflexivity].
  now rewrite (StrFacts.contains_line _ template l Hin El) in Et.
Qed.

Lemma merge_without_content_marker_drops_objects_witness :
  Project.merge "camera {}" ["object {}"]
    ("//RaytracingCamera" +:+ String Str.newline "// no content line")
  = ret ("camera {}" +:+ String Str.newline "// no content line").
Proof.
  exact (merge_without_content_marker_drops_objects "camera {}" ["object {}"]
           ("//RaytracingCamera" +:+ String Str.newline "// no content line")
           eq_refl eq_refl eq_refl eq_refl).
Defined.

(* ====================================================================== *)
(** * Adding objects to a project                                          *)
(* ====================================================================== *)

Module AddFacts.
Import AddObjects.

(** Induction on an object, with the property known of its members *)
Lemma FcObject_members_ind (P : FcObject -> Prop) :
  (forall attrs members, Forall P members -> P (Fc attrs members)) ->
  forall obj, P obj.
Proof.
  intros step. fix IH 1. intros [attrs members]. apply step.
  induction members as [|o rest IHrest]; constructor; auto.
Qed.

Lemma and_then_success (a : Added) (b : nat -> Added) :
  failure (and_then a b) = None ->
  failure a = None /\ failure (b (calls a)) = None /\
  created (and_then a b) = created a ++ created (b (calls a)) /\
  warned (and_then a b) = warned a ++ warned (b (calls a)).
Proof.
  unfold and_then. destruct (failure a) eqn:Ha; cbn; intros H.
  - congruence.
  - auto.
Qed.

Lemma and_then_failure (a : Added) (b : nat -> Added) e :
  failure a = Some e -> and_then a b = a.
Proof. unfold and_then. intros ->. reflexivity. Qed.

Lemma and_then_continues (a : Added) (b : nat -> Added) :
  failure a = None ->
  and_then a b =
  mkAdded (created a ++ created (b (calls a)))
          (warned a ++ warned (b (calls a)))
          (failure (b (calls a))) (calls (b (calls a))).
Proof. unfold and_then. intros ->. reflexivity. Qed.

Lemma made_of_and_then a b l1 l2 :
  failure (and_then a b) = None ->
  made_of a l1 -> made_of (b (calls a)) l2 ->
  made_of (and_then a b) (l1 ++ l2).
Proof.
  intros H (A1 & A2 & A3) (B1 & B2 & B3).
  destruct (and_then_success a b H) as (_ & _ & Hc & Hw).
  unfold made_of. rewrite Hc, Hw. unfold Project.all_group_objs in *.
  rewrite flat_map_app, !filter_app, !map_app.
  rewrite A1, A2, B1, B2. split; [reflexivity|]. split; [reflexivity|].
  apply Forall_app; auto.
Qed.

Section WithDocument.
Context (host : Host) (addObject_Name : nat -> string -> string).
Context (in_active_document : Source -> bool).

Local Abbreviation add_one :=
  (add_one host addObject_Name in_active_document).
Local Abbreviation add_to_group :=
  (add_to_group host addObject_Name in_active_document).

(** The loop over the members of a group is [add_to_group] again. *)
Lemma members_loop group members n :
  (fix loop (l : list FcObject) : nat -> Added :=
     match l with
     | [] => nothing
     | o :: rest => fun n => and_then (add_one group o n) (loop rest)
     end) members n = add_to_group members group n.
Proof.
  revert n. induction members as [|o rest IH]; intros n; [reflexivity|].
  cbn [AddObjects.add_to_group]. unfold and_then.
  destruct (failure (add_one group o n)); [reflexivity|].
  rewrite IH. reflexivity.
Qed.


Lemma add_to_group_made_of group objs n :
  Forall (fun obj => forall group n,
            failure (add_one group obj n) = None ->
            made_of (add_one group obj n) (leaves obj)) objs ->
  failure (add_to_group objs group n) = None ->
  made_of (add_to_group objs group n) (flat_map leaves objs).
Proof.
  intros Hall. revert n.
  induction Hall as [|o rest Ho _ IH]; intros n H.
  - repeat split; constructor.
  - cbn [AddObjects.add_to_group flat_map] in *.
    destruct (and_then_success _ _ H) as (Ha & Hb & _).
    apply made_of_and_then; auto.
Qed.

Lemma add_one_made_of obj :
  forall group n,
    failure (add_one group obj n) = None ->
    made_of (add_one group obj n) (leaves obj).
Proof.
  induction obj as [attrs members IH] using FcObject_members_ind.
  intros group n.
  cbn [AddObjects.add_one leaves]. unfold is_group_type.
  destruct (s_TypeIds attrs) as [types|] eqn:Ht; [|discriminate].
  destruct (bool_decide ("App::DocumentObjectGroup" ∈ types)) eqn:Hg.
  - destruct (t_is group attrs); [discriminate|].
    destruct (s_Label attrs) as [obj_label|]; [|discriminate].
    rewrite members_loop. cbn [failure]. intros H.
    pose proof (add_to_group_made_of _ _ _ IH H) as (M1 & M2 & M3).
    unfold made_of. cbn [created warned].
    unfold Project.all_group_objs in *. cbn [flat_map Project.explode].
    rewrite app_nil_r. auto.
  - destruct (Handler.is_renderable attrs) eqn:Hr.
    + unfold create.
      destruct (t_same_document group attrs); [|discriminate].
      destruct (s_Name attrs) as [name|]; [|discriminate].
      destruct (s_Label attrs) as [label|]; [|discriminate].
      cbn [failure]. intros _. unfold made_of. cbn [created warned].
      unfold Project.all_group_objs. cbn [flat_map Project.explode app].
      rewrite !filter_cons, !filter_nil.
      rewrite decide_True by exact Hr.
      rewrite decide_False by (intros Hn; apply Hn; exact Hr).
      repeat split; repeat constructor.
    + destruct (s_Label attrs) as [label|] eqn:Hl; [|discriminate].
      intros _. unfold made_of. cbn [created warned].
      rewrite !filter_cons, !filter_nil.
      rewrite decide_False by (unfold renderable; congruence).
      rewrite decide_True by (unfold renderable; congruence).
      cbn. rewrite Hl. repeat split; constructor.
Qed.

Lemma add_to_group_success group objs n :
  failure (add_to_group objs group n) = None ->
  made_of (add_to_group objs group n) (flat_map leaves objs).
Proof.
  apply add_to_group_made_of. apply Forall_forall. intros obj _.
  apply add_one_made_of.
Qed.




Lemma add_to_group_console group objs n :
  Forall (fun obj => forall group n, console_run (add_one group obj n)) objs ->
  console_run (add_to_group objs group n).
Proof.
  intros Hall. revert n.
  induction Hall as [|o rest Ho _ IH]; intros n.
  - left. split; reflexivity.
  - cbn [AddObjects.add_to_group].
    destruct (Ho group n) as [[Hok Hnone]|[Hbad Hle]].
    + rewrite and_then_continues by exact Hok.
      destruct (IH (calls (add_one group o n))) as [[Hok' Hnone']|[Hbad' Hle']].
      * left. cbn [failure created]. split; [exact Hok'|].
        unfold Project.all_group_objs in *.
        rewrite flat_map_app, Hnone, Hnone'. reflexivity.
      * right. cbn [failure created]. split; [exact Hbad'|].
        unfold Project.all_group_objs in *.
        rewrite flat_map_app, Hnone. exact Hle'.
    + destruct (failure (add_one group o n)) as [e|] eqn:He; [|congruence].
      rewrite (and_then_failure _ _ e He). right. rewrite He. auto.
Qed.

Lemma add_one_console obj :
  GuiUp host = false ->
  forall group n, console_run (add_one group obj n).
Proof.
  intros Hgui.
  induction obj as [attrs members IH] using FcObject_members_ind.
  intros group n. cbn [AddObjects.add_one].
  destruct (s_TypeIds attrs) as [types|]; [|right; split; [discriminate|cbn; lia]].
  destruct (bool_decide ("App::DocumentObjectGroup" ∈ types)).
  - destruct (t_is group attrs); [right; split; [discriminate|cbn; lia]|].
    destruct (s_Label attrs) as [label|];
      [|right; split; [discriminate|cbn; lia]].
    rewrite members_loop.
    pose proof (add_to_group_console
                  (mkTarget (ViewClass.view_label label (t_Label group))
                            (fun _ => false) in_active_document)
                  members (S n) IH) as H.
    unfold console_run in *. cbn [failure created].
    unfold Project.all_group_objs in *. cbn [flat_map Project.explode].
    rewrite app_nil_r. exact H.
  - destruct (Handler.is_renderable attrs).
    + unfold create.
      destruct (t_same_document group attrs);
        [|right; split; [discriminate|cbn; lia]].
      destruct (s_Name attrs); [|right; split; [discriminate|cbn; lia]].
      destruct (s_Label attrs); [|right; split; [discriminate|cbn; lia]].
      rewrite Hgui. right. split; [discriminate|cbn; lia].
    + destruct (s_Label attrs); [left; split; reflexivity|].
      right. split; [discriminate|cbn; lia].
Qed.

End WithDocument.
End AddFacts.

(** X10: when [add_objects] ends without an exception, the views of the
    project are those it had, followed by one new view for each renderable
    object of the selection that is not a group, in the order of the
    selection with the members of a group in the place of the group,
    however deep; a warning has been printed for each other such object, in
    order; and each new view has no material and an empty [ViewResult]. *)
Theorem added_views_follow_the_selection
    (host : Host) (addObject_Name : nat -> string -> string)
    (in_active_document is_fpo in_project_document : Source -> bool)
    (self : ProjectObj) (objs : list AddObjects.FcObject) :
  let run := AddObjects.add_objects host addObject_Name in_active_document
               is_fpo in_project_document self objs in
  let sources := flat_map AddObjects.leaves objs in
  AddObjects.failure run = None ->
  map AddObjects.source_of
      (Project.all_views (AddObjects.project_after self run)) =
    map AddObjects.source_of (Project.all_views self) ++
    map Some (filter AddObjects.renderable sources) /\
  map Some (AddObjects.warned run) =
    map s_Label (filter (fun attrs => ~ AddObjects.renderable attrs) sources) /\
  Forall AddObjects.fresh (Project.all_group_objs (AddObjects.created run)).
Proof.
  intros run sources H.
  destruct (AddFacts.add_to_group_success host addObject_Name
              in_active_document _ objs 0 H) as (M1 & M2 & M3).
  split; [|split; assumption].
  unfold Project.all_views, AddObjects.project_after, AddObjects.with_Group.
  cbn [Group]. unfold Project.all_group_objs in *.
  rewrite flat_map_app, map_app. f_equal. exact M1.
Qed.

Lemma added_views_follow_the_selection_witness :
  let run := AddObjects.add_objects Sample.host Cases.name_as_asked
               (fun _ => true) (fun _ => false) (fun _ => true)
               Sample.scene Cases.selection in
  AddObjects.failure run = None /\
  map AddObjects.source_of
      (Project.all_views (AddObjects.project_after Sample.scene run)) =
    map AddObjects.source_of (Project.all_views Sample.scene) ++
    [Some (Sample.part "Cube" true None None);
     Some (Sample.light "Lamp" "PointLight" true)] /\
  AddObjects.warned run = ["Note"].
Proof.
  assert (Hok : AddObjects.failure
                  (AddObjects.add_objects Sample.host Cases.name_as_asked
                     (fun _ => true) (fun _ => false) (fun _ => true)
                     Sample.scene Cases.selection) = None)
    by (vm_compute; reflexivity).
  destruct (added_views_follow_the_selection Sample.host Cases.name_as_asked
              (fun _ => true) (fun _ => false) (fun _ => true)
              Sample.scene Cases.selection Hok) as (H1 & H2 & _).
  split; [exact Hok|]. split.
  - etransitivity; [exact H1|]. vm_compute. reflexivity.
  - vm_compute. reflexivity.
Defined.



(** X12: without the GUI, [View.create] raises after the view is attached:
    [add_objects] makes at most one view, and a run that ends without an
    exception has made none. *)
Theorem add_objects_needs_the_gui
    (host : Host) (addObject_Name : nat -> string -> string)
    (in_active_document is_fpo in_project_document : Source -> bool)
    (self : ProjectObj) (objs : list AddObjects.FcObject) :
  GuiUp host = false ->
  let run := AddObjects.add_objects host addObject_Name in_active_document
               is_fpo in_project_document self objs in
  length (Project.all_group_objs (AddObjects.created run)) <= 1 /\
  (AddObjects.failure run = None ->
   Project.all_group_objs (AddObjects.created run) = []).
Proof.
  intros Hgui run.
  assert (H : AddObjects.console_run run).
  { apply AddFacts.add_to_group_console. apply Forall_forall. intros obj _.
    apply AddFacts.add_one_console. exact Hgui. }
  destruct H as [[Hok Hnone]|[Hbad Hle]].
  - split; [rewrite Hnone; cbn; lia|intros _; exact Hnone].
  - split; [exact Hle|intros Hok; congruence].
Qed.

Lemma add_objects_needs_the_gui_witness :
  let run := AddObjects.add_objects Cases.console Cases.name_as_asked
               (fun _ => true) (fun _ => false) (fun _ => true)
               Sample.scene Cases.selection in
  length (Project.all_group_objs (AddObjects.created run)) = 1 /\
  AddObjects.failure run = Some AttributeError /\
  length (Project.all_group_objs (AddObjects.created run)) <= 1.
Proof.
  split; [vm_compute; reflexivity|]. split; [vm_compute; reflexivity|].
  exact (proj1 (add_objects_needs_the_gui Cases.console Cases.name_as_asked
                  (fun _ => true) (fun _ => false) (fun _ => true)
                  Sample.scene Cases.selection eq_refl)).
Defined.

(* ====================================================================== *)
(** * The properties of a project                                          *)
(* ====================================================================== *)

Module PropertiesFacts.
Import Properties.

(** What [set_properties] leaves, property by property *)
Lemma set_properties_fields (stored : string -> option Z) (obj : Feature) :
  set_properties stored obj =
  mkFeature
    (Some (default EmptyString (f_Renderer obj)))
    (Some (default true (f_DelayedBuild obj)))
    (Some (default EmptyString (f_Template obj)))
    (Some (default EmptyString (f_PageResult obj)))
    (Some (default [] (f_Group obj)))
    (Some (default (GetInt stored "RenderWidth" 800) (f_RenderWidth obj)))
    (Some (default (GetInt stored "RenderHeight" 600) (f_RenderHeight obj)))
    (Some (match f_OpenAfterRender obj with
           | Some _ => default false (f_GroundPlane obj)
           | None => false
           end))
    (Some (default EmptyString (f_OutputImage obj)))
    (Some (default false (f_OpenAfterRender obj)))
    2.
Proof.
  destruct obj as [[?|] [?|] [?|] [?|] [?|] [?|] [?|] [?|] [?|] [?|] ?];
    reflexivity.
Qed.

End PropertiesFacts.

(** X13: after [set_properties] every property of a project is there; a
    property that was there keeps its value, with one exception: when
    [OpenAfterRender] was missing, [GroundPlane] is switched off, whatever
    it was.  A missing [DelayedBuild] becomes true, a missing size comes
    from the user parameters or is 800 by 600. *)
Theorem set_properties_keeps_all_but_the_ground_plane
    (stored : string -> option Z) (obj : Properties.Feature) :
  let obj' := Properties.set_properties stored obj in
  Properties.complete obj' /\
  (forall v, Properties.f_Renderer obj = Some v ->
             Properties.f_Renderer obj' = Some v) /\
  (forall v, Properties.f_DelayedBuild obj = Some v ->
             Properties.f_DelayedBuild obj' = Some v) /\
  (forall v, Properties.f_Template obj = Some v ->
             Properties.f_Template obj' = Some v) /\
  (forall v, Properties.f_PageResult obj = Some v ->
             Properties.f_PageResult obj' = Some v) /\
  (forall v, Properties.f_Group obj = Some v ->
             Properties.f_Group obj' = Some v) /\
  (forall v, Properties.f_RenderWidth obj = Some v ->
             Properties.f_RenderWidth obj' = Some v) /\
  (forall v, Properties.f_RenderHeight obj = Some v ->
             Properties.f_RenderHeight obj' = Some v) /\
  (forall v, Properties.f_OutputImage obj = Some v ->
             Properties.f_OutputImage obj' = Some v) /\
  (forall v, Properties.f_OpenAfterRender obj = Some v ->
             Properties.f_OpenAfterRender obj' = Some v) /\
  (Properties.f_OpenAfterRender obj = None ->
   Properties.f_GroundPlane obj' = Some false) /\
  (forall v, Properties.f_OpenAfterRender obj <> None ->
             Properties.f_GroundPlane obj = Some v ->
             Properties.f_GroundPlane obj' = Some v) /\
  (Properties.f_DelayedBuild obj = None ->
   Properties.f_DelayedBuild obj' = Some true) /\
  (Properties.f_RenderWidth obj = None ->
   Properties.f_RenderWidth obj' = Some (default 800%Z (stored "RenderWidth"))) /\
  (Properties.f_RenderHeight obj = None ->
   Properties.f_RenderHeight obj' = Some (default 600%Z (stored "RenderHeight"))).
Proof.
  intros obj'. subst obj'. rewrite PropertiesFacts.set_properties_fields.
  cbn [Properties.f_Renderer Properties.f_DelayedBuild Properties.f_Template
       Properties.f_PageResult Properties.f_Group Properties.f_RenderWidth
       Properties.f_RenderHeight Properties.f_GroundPlane
       Properties.f_OutputImage Properties.f_OpenAfterRender].
  split.
  { unfold Properties.complete, Properties.PropertiesList. cbn.
    repeat (apply Forall_cons; split; [set_solver|]). apply Forall_nil_2. }
  repeat match goal with |- _ /\ _ => split end;
    try (intros v Hv; rewrite Hv; reflexivity);
    try (intros Hn; rewrite Hn; reflexivity).
  intros v Hopen Hv. rewrite Hv.
  destruct (Properties.f_OpenAfterRender obj); [reflexivity|congruence].
Qed.

(** X14: [set_properties] is idempotent: run again, as
    [onDocumentRestored] does at each load, it changes nothing. *)
Theorem set_properties_is_idempotent
    (stored : string -> option Z) (obj : Properties.Feature) :
  Properties.onDocumentRestored stored (Properties.set_properties stored obj) =
  Properties.set_properties stored obj.
Proof.
  unfold Properties.onDocumentRestored.
  rewrite !PropertiesFacts.set_properties_fields. reflexivity.
Qed.

(* ====================================================================== *)
(** * The commands                                                         *)
(* ====================================================================== *)

Module CommandFacts.
Import Commands.

Lemma first_with_Renderer_found objs project :
  first_with_Renderer objs = Returns (Some project) ->
  project ∈ objs /\
  exists properties,
    s_PropertiesList project = Some properties /\ "Renderer" ∈ properties.
Proof.
  induction objs as [|obj rest IH]; cbn [first_with_Renderer]; [discriminate|].
  destruct (s_PropertiesList obj) as [properties|] eqn:Hp; [|discriminate].
  destruct (bool_decide ("Renderer" ∈ properties)) eqn:Hr.
  - intros [= <-]. split; [left|].
    exists properties. split; [exact Hp|].
    exact (bool_decide_eq_true_1 _ Hr).
  - intros H. destruct (IH H) as [Hin Hrest]. split; [right; exact Hin|exact Hrest].
Qed.

End CommandFacts.

(** X15: [RenderCommand.Activated] calls [render] only on an object of the
    selection that has a property [Renderer]: a project of the document
    that is not selected is never rendered. *)
Theorem render_command_takes_a_selected_project
    (sel Objects : list Source) (project : Source) :
  Commands.RenderCommand_Activated sel Objects = Returns (Some project) ->
  project ∈ sel /\
  exists properties,
    s_PropertiesList project = Some properties /\ "Renderer" ∈ properties.
Proof.
  unfold Commands.RenderCommand_Activated.
  destruct (Commands.first_with_Renderer sel) as [[found|]|e] eqn:Hsel.
  - intros [= <-]. apply CommandFacts.first_with_Renderer_found. exact Hsel.
  - destruct (Commands.first_with_Renderer Objects) as [[?|]|?]; discriminate.
  - discriminate.
Qed.

Lemma render_command_takes_a_selected_project_witness :
  Commands.RenderCommand_Activated
    [Sample.part "Cube" true None None; Cases.project_object] [] =
    Returns (Some Cases.project_object) /\
  Cases.project_object ∈ [Sample.part "Cube" true None None; Cases.project_object].
Proof.
  split; [reflexivity|].
  exact (proj1 (render_command_takes_a_selected_project
                  [Sample.part "Cube" true None None; Cases.project_object] []
                  Cases.project_object eq_refl)).
Defined.

(** X16: when [RenderViewCommand.Activated] reaches [add_objects], the
    target is a project, taken from the selection if it has one and from
    the document only otherwise, and no project is among the objects
    given to [add_objects]: those are the other objects of the selection,
    and all of them. *)
Theorem render_view_command_target
    (selection Objects : list AddObjects.FcObject)
    (target : AddObjects.FcObject) (objs : list AddObjects.FcObject) :
  Commands.RenderViewCommand_Activated selection Objects = Some (target, objs) ->
  Commands.is_project (Commands.attrs_of target) = true /\
  (target ∈ selection \/
   Forall (fun item => Commands.is_project (Commands.attrs_of item) = false)
          selection /\ target ∈ Objects) /\
  Forall (fun item => Commands.is_project (Commands.attrs_of item) = false) objs /\
  (forall item, item ∈ selection ->
     Commands.is_project (Commands.attrs_of item) = false -> item ∈ objs) /\
  (forall item, item ∈ objs -> item ∈ selection).
Proof.
  unfold Commands.RenderViewCommand_Activated.
  set (P := fun item => Commands.is_project (Commands.attrs_of item) = true).
  set (N := fun item => Commands.is_project (Commands.attrs_of item) = false).
  destruct (filter P selection ++ filter P Objects)
    as [|first rest] eqn:Hchain; [discriminate|].
  intros [= -> <-].
  assert (Hin : target ∈ filter P selection ++ filter P Objects)
    by (rewrite Hchain; left).
  apply elem_of_app in Hin.
  split; [|split; [|split; [|split]]].
  - destruct Hin as [Hin|Hin]; apply list_elem_of_filter in Hin as [Hp _];
      exact Hp.
  - destruct (filter P selection) as [|p ps] eqn:Hsel.
    + right. split.
      * apply Forall_forall. intros item Hitem.
        destruct (Commands.is_project (Commands.attrs_of item)) eqn:Hp;
          [exfalso|exact Hp].
        assert (Hbad : item ∈ filter P selection)
          by (apply list_elem_of_filter; split; [exact Hp|exact Hitem]).
        rewrite Hsel in Hbad. inversion Hbad.
      * destruct Hin as [Hin|Hin]; [inversion Hin|].
        apply list_elem_of_filter in Hin as [_ Hin]. exact Hin.
    + left. cbn in Hchain. injection Hchain as -> _.
      assert (Hp : target ∈ filter P selection) by (rewrite Hsel; left).
      apply list_elem_of_filter in Hp as [_ Hp]. exact Hp.
  - apply Forall_forall. intros item Hitem.
    apply list_elem_of_filter in Hitem as [Hn _]. exact Hn.
  - intros item Hitem Hn. apply list_elem_of_filter. split; assumption.
  - intros item Hitem. apply list_elem_of_filter in Hitem as [_ Hitem].
    exact Hitem.
Qed.

Lemma render_view_command_target_witness :
  Commands.RenderViewCommand_Activated
    (AddObjects.Fc Cases.project_object [] :: Cases.selection) [] =
    Some (AddObjects.Fc Cases.project_object [], Cases.selection) /\
  Commands.is_project
    (Commands.attrs_of (AddObjects.Fc Cases.project_object [])) = true.
Proof.
  assert (H : Commands.RenderViewCommand_Activated
                (AddObjects.Fc Cases.project_object [] :: Cases.selection) [] =
              Some (AddObjects.Fc Cases.project_object [], Cases.selection))
    by (vm_compute; reflexivity).
  split; [exact H|].
  exact (proj1 (render_view_command_target _ _ _ _ H)).
Defined.

(* ====================================================================== *)
(** * Renderable objects and the dispatcher                                *)
(* ====================================================================== *)

(** X17: an object that [is_renderable] accepts without its being a
    [Part::Feature] or a [Mesh::Feature] is of one of the kinds
    [PointLight], [Camera] and [AreaLight], and the dispatcher has a
    method for it: the body of the [try] of [get_rendering_string] is the
    call of that method, and no [KeyError] comes from the lookup. *)
Theorem renderable_lights_and_cameras_have_a_method
    (host : Host) (self : RendererHandler) (view : View)
    (source : Source) (types : list string) (name : string) :
  v_Source view = Some source ->
  s_Name source = Some name ->
  s_TypeIds source = Some types ->
  "Part::Feature" ∉ types -> "Mesh::Feature" ∉ types ->
  Handler.is_renderable source = true ->
  exists kind method,
    s_Proxy_type source = Some kind /\
    kind ∈ ["PointLight"; "Camera"; "AreaLight"] /\
    Handler.switcher host !! kind = Some method /\
    Handler.dispatch host self view = method self name view.
Proof.
  intros Hs Hn Ht Hpart Hmesh. unfold Handler.is_renderable. rewrite Ht.
  rewrite !bool_decide_eq_false_2 by assumption.
  destruct (bool_decide ("App::FeaturePython" ∈ types)); [|discriminate].
  destruct (s_Proxy_type source) as [kind|] eqn:Hk; [|discriminate].
  intros Hkind. apply bool_decide_eq_true_1 in Hkind.
  assert (Hm : is_Some (Handler.switcher host !! kind)).
  { apply elem_of_cons in Hkind as [->|Hkind]; [eexists; reflexivity|].
    apply elem_of_cons in Hkind as [->|Hkind]; [eexists; reflexivity|].
    apply elem_of_cons in Hkind as [->|Hkind]; [eexists; reflexivity|].
    inversion Hkind. }
  destruct Hm as [method Hm]. exists kind, method.
  split; [reflexivity|]. split; [exact Hkind|]. split; [exact Hm|].
  unfold Handler.dispatch. rewrite Hs. cbn. rewrite Hk, Hn. cbn.
  rewrite Hm. destruct (method self name view). reflexivity.
Qed.

Lemma renderable_lights_and_cameras_have_a_method_witness :
  exists kind method,
    s_Proxy_type (Sample.light "Lamp" "PointLight" true) = Some kind /\
    kind ∈ ["PointLight"; "Camera"; "AreaLight"] /\
    Handler.switcher Sample.host !! kind = Some method /\
    Handler.dispatch Sample.host Sample.handler
      (Sample.view_of (Sample.light "Lamp" "PointLight" true) EmptyString) =
    method Sample.handler "Lamp"
      (Sample.view_of (Sample.light "Lamp" "PointLight" true) EmptyString).
Proof.
  apply (renderable_lights_and_cameras_have_a_method Sample.host Sample.handler
           (Sample.view_of (Sample.light "Lamp" "PointLight" true) EmptyString)
           (Sample.light "Lamp" "PointLight" true)
           ["App::FeaturePython"; "App::DocumentObject"] "Lamp");
    try reflexivity.
  - apply (bool_decide_unpack _). vm_compute. exact I.
  - apply (bool_decide_unpack _). vm_compute. exact I.
Defined.

Lemma set_properties_keeps_all_but_the_ground_plane_witness :
  Properties.f_GroundPlane Cases.earlier_project = Some true /\
  Properties.f_GroundPlane
    (Properties.set_properties (fun _ => None) Cases.earlier_project) =
    Some false /\
  Properties.f_RenderWidth
    (Properties.set_properties (fun _ => None) Cases.earlier_project) =
    Some 1024%Z.
Proof.
  pose proof (set_properties_keeps_all_but_the_ground_plane
                (fun _ => None) Cases.earlier_project) as H.
  cbv zeta in H.
  destruct H as (_ & _ & _ & _ & _ & _ & Hw & _ & _ & _ & Hg & _).
  split; [reflexivity|]. split; [exact (Hg eq_refl)|exact (Hw _ eq_refl)].
Defined.

(* ====================================================================== *)
(** * Subgroups                                                            *)
(* ====================================================================== *)

Module GroupFacts.

Lemma all_group_objs_idempotent members :
  Project.all_group_objs (Project.all_group_objs members) =
  Project.all_group_objs members.
Proof.
  apply GroundFacts.all_group_objs_flat. apply TreeFacts.all_group_objs_terminals.
Qed.

Lemma scene_bbox_from (members : list DocObject) (bbox : BoundBox) :
  fold_left
    (fun bbox obj =>
       match Project.member_BoundBox obj with
       | Some b => Box.add bbox b
       | None => bbox
       end)
    (filter (fun obj => Project.is_group obj = false) members) bbox =
  fold_left
    (fun bbox obj =>
       match Project.member_BoundBox obj with
       | Some b => Box.add bbox b
       | None => bbox
       end)
    members bbox.
Proof.
  revert bbox. induction members as [|obj rest IH]; intros bbox; [reflexivity|].
  rewrite filter_cons. destruct obj as [v|label members].
  - rewrite decide_True by reflexivity. cbn [fold_left]. apply IH.
  - rewrite decide_False by discriminate. cbn [fold_left]. apply IH.
Qed.

End GroupFacts.

(** X18: the strings of the objects of a project are the same whether its
    views sit in subgroups, however deep, or all in the project itself, in
    the same order. *)
Theorem subgroups_do_not_change_object_strings
    (host : Host) (obj : ProjectObj) (renderer : RendererHandler) :
  Project.object_strings host obj renderer =
  Project.object_strings host
    (AddObjects.with_Group (Project.all_views obj) obj) renderer.
Proof.
  unfold Project.object_strings, Project.all_views, AddObjects.with_Group.
  cbn [Group DelayedBuild].
  rewrite GroupFacts.all_group_objs_idempotent. reflexivity.
Qed.

(** X19: the ground plane does not see the views of a subgroup: it is the
    one of the project without its subgroups. *)
Theorem ground_plane_ignores_subgroups
    (host : Host) (self : ProjectObj) (renderer : RendererHandler) :
  Project.write_groundplane host self renderer =
  Project.write_groundplane host
    (AddObjects.with_Group
       (filter (fun obj => Project.is_group obj = false) (Group self)) self)
    renderer.
Proof.
  unfold Project.write_groundplane, AddObjects.with_Group. cbn [Group].
  unfold Project.scene_bbox. rewrite GroupFacts.scene_bbox_from. reflexivity.
Qed.

(** A part in a subgroup is rendered, and the ground plane is not drawn
    around it. *)
Example grouped_part_has_no_ground :
  result (Project.object_strings Sample.host Cases.grouped Sample.handler) =
    Returns ["pointlight Lamp"; "object Cube"] /\
  Project.write_groundplane Sample.host Cases.grouped Sample.handler =
    ret EmptyString.
Proof. split; vm_compute; reflexivity. Qed.

(* ====================================================================== *)
(** * The sizes in the command line of POV-Ray                             *)
(* ====================================================================== *)

Module PovrayRenderFacts.
Import PovrayRender.

Lemma cons_append c s t : String c s +:+ t = String c (s +:+ t).
Proof. reflexivity. Qed.

Lemma nil_append t : EmptyString +:+ t = t.
Proof. reflexivity. Qed.

Lemma length_append s t :
  String.length (s +:+ t) = String.length s + String.length t.
Proof.
  induction s as [|c s IH]; [reflexivity|].
  rewrite cons_append. cbn [String.length]. rewrite IH. reflexivity.
Qed.

Lemma first2_starts_without_digit s t :
  first2 s = first2 t -> starts_without_digit t -> starts_without_digit s.
Proof.
  destruct s as [|a [|b s]], t as [|a' [|b' t]]; cbn; congruence.
Qed.

Lemma drop_digits_length s :
  String.length (drop_digits s) <= String.length s.
Proof.
  induction s as [|c s IH]; cbn [drop_digits]; [lia|].
  destruct (is_digit c); cbn [String.length] in *; lia.
Qed.

Lemma drop_digits_starts s : starts_without_digit (drop_digits s).
Proof.
  induction s as [|c s IH]; cbn [drop_digits]; [exact I|].
  destruct (is_digit c) eqn:Hc; [exact IH|exact Hc].
Qed.

Lemma take_digits_append digits t :
  take_digits digits = digits -> starts_without_digit t ->
  take_digits (digits +:+ t) = digits.
Proof.
  induction digits as [|c digits IH]; intros Hd Ht.
  - rewrite nil_append. destruct t as [|c t]; [reflexivity|].
    cbn [take_digits starts_without_digit] in *. rewrite Ht. reflexivity.
  - rewrite cons_append. cbn [take_digits] in *.
    destruct (is_digit c); [|discriminate].
    injection Hd as Hd. f_equal. apply IH; assumption.
Qed.

Lemma drop_digits_append digits t :
  take_digits digits = digits -> starts_without_digit t ->
  drop_digits (digits +:+ t) = t.
Proof.
  induction digits as [|c digits IH]; intros Hd Ht.
  - rewrite nil_append. destruct t as [|c t]; [reflexivity|].
    cbn [drop_digits starts_without_digit] in *. rewrite Ht. reflexivity.
  - rewrite cons_append. cbn [take_digits drop_digits] in *.
    destruct (is_digit c); [|discriminate].
    injection Hd as Hd. apply IH; assumption.
Qed.

Lemma take_digits_space s : take_digits (s +:+ " ") = take_digits s.
Proof.
  induction s as [|c s IH]; [reflexivity|].
  rewrite cons_append. cbn [take_digits]. rewrite IH. reflexivity.
Qed.

Lemma drop_digits_space s : drop_digits (s +:+ " ") = drop_digits s +:+ " ".
Proof.
  induction s as [|c s IH]; [reflexivity|].
  rewrite cons_append. cbn [drop_digits]. rewrite IH.
  destruct (is_digit c); reflexivity.
Qed.

(** The text of a number that is not negative is a number. *)
Lemma string_of_uint_digits d :
  take_digits (DecimalString.NilEmpty.string_of_uint d) =
  DecimalString.NilEmpty.string_of_uint d.
Proof.
  induction d; cbn [DecimalString.NilEmpty.string_of_uint take_digits];
    try reflexivity; cbn; rewrite IHd; reflexivity.
Qed.

Lemma format_int_is_number n : (0 <= n)%Z -> is_number (format_int n).
Proof.
  intros Hn. unfold format_int, is_number.
  destruct n as [|p|p]; [split; [discriminate|reflexivity]| |lia].
  cbn [Z.to_int DecimalString.NilZero.string_of_int].
  unfold DecimalString.NilZero.string_of_uint.
  destruct (Pos.to_uint p) as [|d|d|d|d|d|d|d|d|d|d];
    (split; [cbn; discriminate|]);
    [reflexivity|exact (string_of_uint_digits _)..].
Qed.

Section Flag.
Context (letter : ascii).

Local Abbreviation pieces := (pieces letter).
Local Abbreviation match_here := (match_here letter).

Lemma match_here_first2 c a b :
  first2 a = first2 b -> match_here (String c a) = match_here (String c b).
Proof.
  destruct a as [|a1 [|a2 a]], b as [|b1 [|b2 b]]; cbn; congruence.
Qed.

Lemma match_here_inv s :
  match_here s = true ->
  exists d after,
    s = String "+" (String letter (String d after)) /\ is_digit d = true.
Proof.
  destruct s as [|plus [|l [|d after]]]; cbn; try discriminate.
  intros H. apply andb_true_iff in H as [H Hd].
  apply andb_true_iff in H as [Hp Hl].
  apply Ascii.eqb_eq in Hp, Hl. subst. eauto.
Qed.

(** More fuel than the length of the text changes nothing. *)
Lemma pieces_fuel f1 f2 s :
  String.length s <= f1 -> String.length s <= f2 ->
  pieces f1 s = pieces f2 s.
Proof.
  revert f2 s. induction f1 as [|f1 IH]; intros f2 s H1 H2.
  - destruct s; [|cbn in H1; lia]. destruct f2; reflexivity.
  - destruct s as [|c rest]; [destruct f2; reflexivity|].
    destruct f2 as [|f2]; [cbn in H2; lia|].
    cbn [PovrayRender.pieces String.length] in *.
    destruct (match_here (String c rest)).
    + destruct rest as [|l after]; [reflexivity|]. f_equal.
      pose proof (drop_digits_length after). cbn [String.length] in *.
      apply IH; lia.
    + f_equal. apply IH; lia.
Qed.

Lemma pieces_match f t :
  starts_with_digit t ->
  pieces (S f) (String "+" (String letter t)) =
  Match (take_digits t) :: pieces f (drop_digits t).
Proof.
  destruct t as [|d after]; [intros []|]. cbn [starts_with_digit]. intros Hd.
  cbn [PovrayRender.pieces PovrayRender.match_here].
  rewrite !Ascii.eqb_refl, Hd. reflexivity.
Qed.

Lemma pieces_other f c rest :
  match_here (String c rest) = false ->
  pieces (S f) (String c rest) = Other c :: pieces f rest.
Proof. intros H. cbn [PovrayRender.pieces]. rewrite H. reflexivity. Qed.

Lemma number_starts_with_digit digits t :
  is_number digits -> starts_with_digit (digits +:+ t).
Proof.
  intros [Hne Hall]. destruct digits as [|d ds]; [congruence|].
  rewrite cons_append. cbn [starts_with_digit take_digits] in *.
  destruct (is_digit d); [reflexivity|discriminate].
Qed.

(** A text without a match is left as it is. *)
Lemma replaced_without_match repl f s :
  String.length s <= f ->
  omap (fun p => match p with Match digits => Some digits | Other _ => None end)
       (pieces f s) = [] ->
  replaced repl (pieces f s) = s.
Proof.
  revert s. induction f as [|f IH]; intros s Hf.
  - destruct s; [reflexivity|cbn in Hf; lia].
  - destruct s as [|c rest]; [reflexivity|].
    cbn [PovrayRender.pieces String.length] in *.
    destruct (match_here (String c rest)) eqn:Hm.
    + destruct (match_here_inv _ Hm) as (d & after & [= -> ->] & _).
      cbn. discriminate.
    + cbn [omap replaced]. intros H. f_equal. apply IH; [lia|exact H].
Qed.

Section Replacement.
Context (digits : string) (Hdigits : is_number digits).

Local Abbreviation repl := (String "+" (String letter digits)).

Lemma replaced_first2 f s :
  String.length s <= f ->
  first2 (replaced repl (pieces f s)) = first2 s.
Proof.
  revert s. induction f as [|f IH]; intros s Hf.
  - destruct s; [reflexivity|cbn in Hf; lia].
  - destruct s as [|c rest]; [reflexivity|].
    cbn [PovrayRender.pieces String.length] in *.
    destruct (match_here (String c rest)) eqn:Hm.
    + destruct (match_here_inv _ Hm) as (d & after & [= -> ->] & _).
      reflexivity.
    + cbn [replaced]. specialize (IH rest ltac:(lia)).
      destruct (replaced repl (pieces f rest)) as [|a [|b t]],
               rest as [|a' [|b' t']]; cbn in *; congruence.
Qed.

(** The matches of the text after the replacement are those of the text
    before, each with the digits of the replacement. *)
Lemma pieces_replaced f s :
  String.length s <= f ->
  pieces (String.length (replaced repl (pieces f s)))
         (replaced repl (pieces f s)) =
  map (fun p => match p with Match _ => Match digits | Other c => Other c end)
      (pieces f s).
Proof.
  revert s. induction f as [|f IH]; intros s Hf.
  - destruct s; [reflexivity|cbn in Hf; lia].
  - destruct s as [|c rest]; [reflexivity|].
    destruct (match_here (String c rest)) eqn:Hm.
    + destruct (match_here_inv _ Hm) as (d & after & [= -> ->] & Hd).
      rewrite pieces_match by exact Hd.
      pose proof (drop_digits_length (String d after)) as Hlen.
      cbn [String.length] in Hlen, Hf.
      specialize (IH (drop_digits (String d after)) ltac:(lia)).
      assert (Hrest : starts_without_digit
                        (replaced repl (pieces f (drop_digits (String d after))))).
      { apply (first2_starts_without_digit _ (drop_digits (String d after))).
        - apply replaced_first2. lia.
        - apply drop_digits_starts. }
      cbn [replaced map]. rewrite !cons_append. cbn [String.length].
      rewrite pieces_match by (apply number_starts_with_digit; exact Hdigits).
      destruct Hdigits as [_ Hall].
      rewrite take_digits_append, drop_digits_append by assumption.
      f_equal. rewrite <- IH. apply pieces_fuel; [|lia].
      rewrite length_append. lia.
    + rewrite pieces_other by exact Hm.
      cbn [String.length] in Hf.
      cbn [replaced map String.length].
      rewrite pieces_other
        by (rewrite (match_here_first2 c _ rest);
            [exact Hm|apply replaced_first2; lia]).
      f_equal. apply IH. lia.
Qed.

End Replacement.

(** A space at the end is no part of a match. *)
Lemma pieces_space f s :
  String.length s <= f ->
  pieces (S f) (s +:+ " ") = pieces f s ++ [Other " "%char].
Proof.
  revert s. induction f as [|f IH]; intros s Hf.
  - destruct s; [reflexivity|cbn in Hf; lia].
  - destruct s as [|c rest]; [reflexivity|].
    rewrite cons_append. cbn [String.length] in Hf.
    assert (Hsame : match_here (String c (rest +:+ " ")) =
                    match_here (String c rest)).
    { destruct rest as [|l [|d after]];
        rewrite ?cons_append, ?nil_append; cbn [PovrayRender.match_here];
        [reflexivity| |reflexivity].
      change (is_digit " ") with false. rewrite andb_false_r. reflexivity. }
    destruct (match_here (String c rest)) eqn:Hm.
    + destruct (match_here_inv _ Hm) as (d & after & [= -> ->] & Hd).
      rewrite cons_append.
      rewrite (pieces_match (S f) (String d after +:+ " "))
        by (rewrite cons_append; exact Hd).
      rewrite (pieces_match f (String d after)) by exact Hd.
      rewrite take_digits_space, drop_digits_space.
      pose proof (drop_digits_length (String d after)) as Hlen.
      cbn [String.length] in Hlen, Hf.
      rewrite IH by lia. reflexivity.
    + rewrite (pieces_other (S f)) by (rewrite Hsame; reflexivity).
      rewrite (pieces_other f) by exact Hm.
      rewrite IH by lia. reflexivity.
Qed.

End Flag.

Lemma values_without_match letter repl s :
  values letter s = [] -> re_sub letter repl s = s.
Proof.
  unfold values, re_sub. apply replaced_without_match. lia.
Qed.

Lemma values_space letter s :
  values letter (s +:+ " ") = values letter s.
Proof.
  unfold values. rewrite length_append. cbn [String.length].
  replace (String.length s + 1) with (S (String.length s)) by lia.
  rewrite pieces_space by lia. rewrite omap_app. cbn [omap].
  apply app_nil_r.
Qed.

Lemma omap_relabel digits (l : list piece) :
  omap (fun p => match p with Match d => Some d | Other _ => None end)
       (map (fun p => match p with Match _ => Match digits | Other c => Other c end)
            l) =
  map (fun _ => digits)
      (omap (fun p => match p with Match d => Some d | Other _ => None end) l).
Proof.
  induction l as [|[c|d] l IH]; [reflexivity| |]; cbn; rewrite ?IH; auto.
Qed.

(** After the replacement every number of the flag is the new one. *)
Lemma values_re_sub letter digits s :
  is_number digits ->
  values letter (re_sub letter (flag letter +:+ digits) s) =
  map (fun _ => digits) (values letter s).
Proof.
  intros Hd. unfold values, re_sub, flag.
  rewrite !cons_append, nil_append.
  rewrite (pieces_replaced letter digits Hd) by lia.
  apply omap_relabel.
Qed.

(** A text without the flag, then the flag and a number *)
Lemma values_appended letter digits s :
  letter <> "+"%char -> is_number digits ->
  Str.contains (flag letter) s = false ->
  values letter (s +:+ flag letter +:+ digits +:+ " ") = [digits].
Proof.
  intros Hletter Hd. unfold values.
  set (t := flag letter +:+ digits +:+ " ").
  assert (Ht : forall f, String.length t <= f ->
                 omap (fun p => match p with Match d => Some d | Other _ => None end)
                      (pieces letter f t) = [digits]).
  { intros f Hf. subst t. unfold flag in *. rewrite !cons_append, nil_append in *.
    cbn [String.length] in Hf. destruct f as [|[|f]]; [lia|lia|].
    rewrite pieces_match by (apply number_starts_with_digit; exact Hd).
    destruct Hd as [_ Hall].
    rewrite take_digits_append, drop_digits_append by (auto; reflexivity).
    rewrite pieces_other by reflexivity.
    destruct f; reflexivity. }
  assert (Hgo : forall s f, Str.contains (flag letter) s = false ->
                  String.length (s +:+ t) <= f ->
                  omap (fun p => match p with Match d => Some d | Other _ => None end)
                       (pieces letter f (s +:+ t)) = [digits]).
  { clear s. induction s as [|c rest IH]; intros f Hs Hf.
    - rewrite nil_append in *. apply Ht. exact Hf.
    - rewrite cons_append in *. cbn [String.length] in Hf.
      destruct f as [|f]; [lia|].
      cbn [Str.contains] in Hs. apply orb_false_iff in Hs as [Hstart Hrest].
      rewrite pieces_other.
      + cbn [omap]. apply IH; [exact Hrest|lia].
      + unfold flag in Hstart. cbn [Str.startswith] in Hstart.
        destruct rest as [|l rest].
        * rewrite nil_append. subst t. unfold flag.
          rewrite !cons_append. cbn [PovrayRender.match_here].
          destruct (Ascii.eqb_spec "+" letter) as [Heq|_]; [congruence|].
          rewrite andb_false_r. reflexivity.
        * rewrite cons_append.
          destruct (rest +:+ t) as [|d u];
            cbn [PovrayRender.match_here]; [reflexivity|].
          rewrite (Ascii.eqb_sym c), (Ascii.eqb_sym l).
          destruct (Ascii.eqb "+" c); [|reflexivity].
          destruct (Ascii.eqb letter l); [discriminate|reflexivity]. }
  intros Hs. change (s +:+ flag letter +:+ digits +:+ " ") with (s +:+ t).
  apply Hgo; [exact Hs|lia].
Qed.

Lemma contains_append p s t :
  Str.contains p s = true -> Str.contains p (s +:+ t) = true.
Proof.
  assert (Hstart : forall p s, Str.startswith p s = true ->
                               Str.startswith p (s +:+ t) = true).
  { clear. induction p as [|a p IH]; intros s H; [destruct s; reflexivity|].
    destruct s as [|b s]; [discriminate|]. rewrite cons_append.
    cbn [Str.startswith] in *. destruct (Ascii.eqb a b); [auto|discriminate]. }
  induction s as [|c s IH]; intros H.
  - cbn in H. rewrite orb_false_r in H.
    destruct p; [|discriminate]. destruct t; reflexivity.
  - rewrite cons_append. cbn [Str.contains] in *.
    apply orb_true_iff in H as [H|H].
    + pose proof (Hstart _ (String c s) H) as H'. rewrite cons_append in H'.
      rewrite H'. reflexivity.
    + rewrite (IH H). apply orb_true_r.
Qed.

End PovrayRenderFacts.

(** X20: the stage that puts a size into the arguments of POV-Ray (the
    letter is W for the width and H for the height).  For a size that is
    not negative, every number that the arguments give for the flag
    afterwards is the size: each number that the user parameters gave is
    replaced, and when the parameters did not hold the flag at all, the
    flag is added once with the size. *)
Theorem size_flag_carries_the_size (letter : ascii) (value : Z) (args : string) :
  letter = "W"%char \/ letter = "H"%char ->
  (0 <= value)%Z ->
  PovrayRender.values letter (PovrayRender.set_flag letter value args) =
  if Str.contains (PovrayRender.flag letter) args
  then map (fun _ => PovrayRender.format_int value)
           (PovrayRender.values letter args)
  else [PovrayRender.format_int value].
Proof.
  intros Hletter Hvalue. unfold PovrayRender.set_flag.
  pose proof (PovrayRenderFacts.format_int_is_number value Hvalue) as Hnumber.
  destruct (Str.contains (PovrayRender.flag letter) args) eqn:Hflag.
  - apply PovrayRenderFacts.values_re_sub. exact Hnumber.
  - apply PovrayRenderFacts.values_appended; [|exact Hnumber|exact Hflag].
    destruct Hletter as [->| ->]; discriminate.
Qed.

Lemma size_flag_carries_the_size_witness :
  PovrayRender.set_flag "W" 800 "+W320 +H200 -D +W64 " =
    "+W800 +H200 -D +W800 " /\
  PovrayRender.values "W" (PovrayRender.set_flag "W" 800 "+W320 +H200 -D +W64 ") =
    ["800"; "800"].
Proof.
  split; [vm_compute; reflexivity|].
  etransitivity;
    [exact (size_flag_carries_the_size "W" 800 "+W320 +H200 -D +W64 "
              (or_introl eq_refl) ltac:(lia))|].
  vm_compute. reflexivity.
Defined.

(** X21: when the user parameters of POV-Ray hold the flag of the width
    and no number after it anywhere, the width of the project does not
    reach the command line: [render] does the same for every width. *)
Theorem width_flag_without_number_drops_the_width
    (host : Host) (PovRayPath PovRayParameters : string)
    (PageResult prefix : string) (external : bool) (output : string)
    (width width' height : Z) :
  Str.contains "+W" PovRayParameters = true ->
  PovrayRender.values "W" PovRayParameters = [] ->
  PovrayRender.render host PovRayPath PovRayParameters PageResult prefix
    external output width height =
  PovrayRender.render host PovRayPath PovRayParameters PageResult prefix
    external output width' height.
Proof.
  intros Hflag Hvalues. unfold PovrayRender.render.
  assert (Hne : PovrayRender.nonempty PovRayParameters = true)
    by (destruct PovRayParameters; [discriminate|reflexivity]).
  rewrite Hne.
  assert (Hsame : forall w,
            PovrayRender.set_flag "W" w (PovRayParameters +:+ " ") =
            PovRayParameters +:+ " ").
  { intros w. unfold PovrayRender.set_flag.
    change (PovrayRender.flag "W") with "+W".
    rewrite (PovrayRenderFacts.contains_append _ _ _ Hflag).
    apply PovrayRenderFacts.values_without_match.
    rewrite PovrayRenderFacts.values_space. exact Hvalues. }
  rewrite !Hsame. reflexivity.
Qed.

Lemma width_flag_without_number_drops_the_width_witness :
  PovrayRender.render Sample.host "povray" "+Wide -D" "/tmp/scene.pov"
    EmptyString true "/out/image.png" 800 600 =
  PovrayRender.render Sample.host "povray" "+Wide -D" "/tmp/scene.pov"
    EmptyString true "/out/image.png" 1024 600.
Proof.
  apply width_flag_without_number_drops_the_width; vm_compute; reflexivity.
Defined.
